(** * Adaptive persistence layer and identity resolver of jeanacademy

    A shallow embedding of [app/db/adaptive_dao.py],
    [app/ingest/adaptive_scanner.py] and the part of [app/main_job.py]
    that talks to the DAO, and the properties of the specification that
    are stated about them.

    Conventions of the embedding:
    - a Python [str] is the list of its code points ([pystr]); the
      character tables ([str.lower], [str.upper], [\s], [\d], [\w],
      [re.IGNORECASE]) are those of CPython 3 on U+0000..U+00FF, the
      range that contains every character the source's patterns name;
    - a Python [dict] whose order matters is an association list, a dict
      used as a map is a [gmap];
    - a call that can raise returns [result A]: [Raise e] or [Return a];
    - code that talks to the store threads the store explicitly. *)

From Stdlib Require Import ZArith NArith Ascii String DecimalString.
From stdpp Require Import base option numbers list relations gmap.

(** ** Python strings *)

Module PyStr.

Abbreviation pystr := (list N).

Definition byte_of_ascii (a : ascii) : N := N_of_ascii a.

(** UTF-8 decoding of the bytes of a literal of this file. *)
Fixpoint utf8_decode (bs : list N) : pystr :=
  match bs with
  | [] => []
  | b :: r =>
      if (b <? 128)%N then b :: utf8_decode r
      else if (b <? 224)%N then
        match r with
        | b1 :: r1 => ((b - 192) * 64 + (b1 - 128))%N :: utf8_decode r1
        | [] => []
        end
      else if (b <? 240)%N then
        match r with
        | b1 :: b2 :: r2 =>
            ((b - 224) * 4096 + (b1 - 128) * 64 + (b2 - 128))%N :: utf8_decode r2
        | _ => []
        end
      else
        match r with
        | b1 :: b2 :: b3 :: r3 =>
            ((b - 240) * 262144 + (b1 - 128) * 4096 + (b2 - 128) * 64 + (b3 - 128))%N
              :: utf8_decode r3
        | _ => []
        end
  end.

Definition py (s : string) : pystr :=
  utf8_decode (map byte_of_ascii (list_ascii_of_string s)).
Arguments py s%_string.

Definition between (lo hi c : N) : bool := ((lo <=? c) && (c <=? hi))%N.

(** [str.isspace] on one character, which is also [\s] of [re]. *)
Definition is_space (c : N) : bool :=
  between 9 13 c || between 28 32 c || (c =? 133)%N || (c =? 160)%N.

(** [\d] of [re]. *)
Definition is_digit (c : N) : bool := between 48 57 c.

(** [\w] of [re]: alphanumeric or underscore. *)
Definition is_word (c : N) : bool :=
  between 48 57 c || between 65 90 c || (c =? 95)%N || between 97 122 c
  || (c =? 170)%N || between 178 179 c || (c =? 181)%N || between 185 186 c
  || between 188 190 c || between 192 214 c || between 216 246 c
  || between 248 255 c.

Definition lower_cp (c : N) : N :=
  if between 65 90 c || (between 192 222 c && negb (c =? 215)%N)
  then (c + 32)%N else c.

Definition upper_cp (c : N) : pystr :=
  if between 97 122 c || (between 224 254 c && negb (c =? 247)%N)
  then [(c - 32)%N]
  else if (c =? 181)%N then [924%N]
  else if (c =? 223)%N then [83%N; 83%N]
  else if (c =? 255)%N then [376%N]
  else [c].

Definition title_cp (c : N) : pystr :=
  if (c =? 223)%N then [83%N; 115%N] else upper_cp c.

(** [s.lower()], [s.upper()], [s.capitalize()]. *)
Definition lower (s : pystr) : pystr := map lower_cp s.
Definition upper (s : pystr) : pystr := concat (map upper_cp s).
Definition capitalize (s : pystr) : pystr :=
  match s with
  | [] => []
  | c :: r => title_cp c ++ lower r
  end.

Definition str_eqb (a b : pystr) : bool := bool_decide (a = b).

Fixpoint startswith (p s : pystr) : bool :=
  match p, s with
  | [], _ => true
  | _ :: _, [] => false
  | a :: p', b :: s' => (a =? b)%N && startswith p' s'
  end.

(** [sub in s]. *)
Fixpoint contains (sub s : pystr) : bool :=
  startswith sub s ||
  match s with
  | [] => false
  | _ :: r => contains sub r
  end.

(** [s.replace(old, new)]: every non-overlapping occurrence, leftmost
    first. [skip] counts the characters of an occurrence still to pass. *)
Fixpoint replace_from (old new : pystr) (skip : nat) (s : pystr) : pystr :=
  match s with
  | [] => []
  | c :: r =>
      match skip with
      | S k => replace_from old new k r
      | O =>
          if startswith old s
          then new ++ replace_from old new (length old - 1) r
          else c :: replace_from old new 0 r
      end
  end.

Definition replace (old new s : pystr) : pystr :=
  match old with
  | [] => new ++ concat (map (fun c => c :: new) s)
  | _ :: _ => replace_from old new 0 s
  end.

(** [s.split(sep)] for a separator of one character. *)
Fixpoint split_chr (sep : N) (s : pystr) : list pystr :=
  match s with
  | [] => [[]]
  | c :: r =>
      if (c =? sep)%N then [] :: split_chr sep r
      else match split_chr sep r with
           | h :: t => (c :: h) :: t
           | [] => [[c]]
           end
  end.

(** [s.split()]: the maximal runs without white space. *)
Fixpoint split_ws_from (cur : pystr) (s : pystr) : list pystr :=
  match s with
  | [] => match cur with [] => [] | _ => [rev cur] end
  | c :: r =>
      if is_space c
      then match cur with
           | [] => split_ws_from [] r
           | _ => rev cur :: split_ws_from [] r
           end
      else split_ws_from (c :: cur) r
  end.

Definition split_ws (s : pystr) : list pystr := split_ws_from [] s.

Fixpoint lstrip (s : pystr) : pystr :=
  match s with
  | c :: r => if is_space c then lstrip r else s
  | [] => []
  end.

(** [s.strip()]. *)
Definition strip (s : pystr) : pystr := rev (lstrip (rev (lstrip s))).

(** [sep.join(l)]. *)
Fixpoint join (sep : pystr) (l : list pystr) : pystr :=
  match l with
  | [] => []
  | [x] => x
  | x :: r => x ++ sep ++ join sep r
  end.

(** [s.zfill(width)]. *)
Definition zfill (width : nat) (s : pystr) : pystr :=
  let pad := replicate (width - length s) 48%N in
  match s with
  | c :: r => if (c =? 43)%N || (c =? 45)%N then c :: pad ++ r else pad ++ s
  | [] => pad
  end.

(** [s[:n]]. *)
Definition slice_to (n : nat) (s : pystr) : pystr := take n s.

Definition nl : pystr := [10%N].
Definition spaces (n : nat) : pystr := replicate n 32%N.

End PyStr.

Export PyStr.

(** ** Exceptions and results *)

Inductive exn : Type :=
  | ValueError (msg : pystr)
  | KeyError (key : pystr)
  | TypeError (msg : pystr)
  | OperationalError (msg : pystr)
  | InterfaceError (msg : pystr)
  | ProgrammingError (msg : pystr)
  | IntegrityError (msg : pystr)
  | DriveError (msg : pystr).

(** [str(e)]; a [KeyError] prints the [repr] of its key. *)
Definition str_exn (e : exn) : pystr :=
  match e with
  | ValueError m | TypeError m | OperationalError m | InterfaceError m
  | ProgrammingError m | IntegrityError m | DriveError m => m
  | KeyError k => py "'" ++ k ++ py "'"
  end.

Inductive result (A : Type) : Type :=
  | Return (a : A)
  | Raise (e : exn).
Arguments Return {A} a.
Arguments Raise {A} e.

Definition bind {A B} (r : result A) (k : A -> result B) : result B :=
  match r with
  | Return a => k a
  | Raise e => Raise e
  end.


(** ** Regular expressions

    The fragment of Python's [re] that the source uses, matched by
    backtracking in the order of [re]: alternatives left to right, a
    greedy repeat tries one more iteration first, a lazy one tries to
    stop first. *)

Module Re.

Inductive citem : Type :=
  | CChar (c : N)
  | CRange (lo hi : N)
  | CSpace
  | CDigit.

Inductive regex : Type :=
  | Empty
  | Set_ (neg : bool) (items : list citem)
  | Seq (r1 r2 : regex)
  | Alt (r1 r2 : regex)
  | Rep (lo : nat) (hi : option nat) (greedy : bool) (r : regex)
  | Group (n : nat) (r : regex)
  | Bol
  | Eol
  | WordB
  | Look (r : regex).

(** The cased character whose lower case is [c], when it has one in the
    table. *)
Definition cased_partner (c : N) : option N :=
  if between 97 122 c || (between 224 254 c && negb (c =? 247)%N)
  then Some (c - 32)%N else None.

(** Under [re.IGNORECASE] a range holds the characters whose lower case
    is the lower case of one of its members. *)
Definition in_range (ic : bool) (lo hi c : N) : bool :=
  if ic then
    let c' := lower_cp c in
    between lo hi c' ||
    match cased_partner c' with
    | Some x => between lo hi x
    | None => false
    end
  else between lo hi c.

Definition item_matches (ic : bool) (c : N) (i : citem) : bool :=
  match i with
  | CChar x => in_range ic x x c
  | CRange lo hi => in_range ic lo hi c
  | CSpace => is_space c
  | CDigit => is_digit c
  end.

Definition set_matches (ic : bool) (items : list citem) (c : N) : bool :=
  existsb (item_matches ic c) items.

(** A position in the subject: the characters before it, last first, the
    characters from it on, and the groups closed so far. *)
Record mstate : Type := MState {
  before : pystr;
  rest : pystr;
  caps : list (nat * pystr)
}.

Definition at_word_boundary (st : mstate) : bool :=
  let p := match before st with c :: _ => is_word c | [] => false end in
  let n := match rest st with c :: _ => is_word c | [] => false end in
  xorb p n.

Definition below (count : nat) (hi : option nat) : bool :=
  match hi with
  | Some h => bool_decide (count < h)
  | None => true
  end.

Definition close_group (n : nat) (st0 st1 : mstate) : mstate :=
  MState (before st1) (rest st1)
    ((n, take (length (rest st0) - length (rest st1)) (rest st0)) :: caps st1).

(** [m ic r st k]: match [r] at [st], then continue with [k]; the first
    success in backtracking order. An iteration of a repeat that
    consumes nothing ends the repeat; the fuel of a repeat is the number
    of characters left, which bounds its iterations. *)
Fixpoint m (ic : bool) (r : regex) (st : mstate)
    (k : mstate -> option mstate) {struct r} : option mstate :=
  match r with
  | Empty => k st
  | Set_ neg items =>
      match rest st with
      | c :: s' =>
          if xorb neg (set_matches ic items c)
          then k (MState (c :: before st) s' (caps st))
          else None
      | [] => None
      end
  | Seq r1 r2 => m ic r1 st (fun st1 => m ic r2 st1 k)
  | Alt r1 r2 =>
      match m ic r1 st k with
      | Some x => Some x
      | None => m ic r2 st k
      end
  | Rep lo hi greedy r1 =>
      (fix loop (fuel count : nat) (st0 : mstate) {struct fuel} : option mstate :=
         let more (_ : unit) :=
           match fuel with
           | O => None
           | S f =>
               if below count hi
               then m ic r1 st0 (fun st1 =>
                      if bool_decide (length (rest st1) < length (rest st0))
                      then loop f (S count) st1
                      else None)
               else None
           end in
         let stop (_ : unit) :=
           if bool_decide (lo <= count) then k st0 else None in
         if greedy
         then match more tt with Some x => Some x | None => stop tt end
         else match stop tt with Some x => Some x | None => more tt end)
      (S (length (rest st))) 0 st
  | Group n r1 => m ic r1 st (fun st1 => k (close_group n st st1))
  | Bol => match before st with [] => k st | _ :: _ => None end
  | Eol =>
      match rest st with
      | [] => k st
      | [c] => if (c =? 10)%N then k st else None
      | _ => None
      end
  | WordB => if at_word_boundary st then k st else None
  | Look r1 =>
      match m ic r1 st Some with
      | Some st1 => k (MState (before st) (rest st) (caps st1))
      | None => None
      end
  end.

(** A match object: where the match starts, the text of group 0 and the
    numbered groups. *)
Record match_obj : Type := MatchObj {
  m_start : nat;
  group0 : pystr;
  groups : list (nat * pystr)
}.

Definition match_at (ic : bool) (r : regex) (bef s : pystr) : option match_obj :=
  match m ic r (MState bef s []) Some with
  | Some st =>
      Some (MatchObj (length bef) (take (length s - length (rest st)) s) (caps st))
  | None => None
  end.

(** [re.search]: the match at the leftmost position that has one. *)
Fixpoint search_from (ic : bool) (r : regex) (bef s : pystr) : option match_obj :=
  match match_at ic r bef s with
  | Some mo => Some mo
  | None =>
      match s with
      | [] => None
      | c :: s' => search_from ic r (c :: bef) s'
      end
  end.

Definition search (ic : bool) (r : regex) (s : pystr) : option match_obj :=
  search_from ic r [] s.

(** [match.group(n)] for a group that took part in the match. *)
Fixpoint lookup_group (n : nat) (gs : list (nat * pystr)) : option pystr :=
  match gs with
  | [] => None
  | (i, t) :: gs' => if bool_decide (i = n) then Some t else lookup_group n gs'
  end.

Definition group (n : nat) (mo : match_obj) : pystr :=
  match n with
  | O => group0 mo
  | S _ => default [] (lookup_group n (groups mo))
  end.

(** [re.sub]: the non-overlapping matches, leftmost first, each replaced
    by [repl] of its match object. [skip] counts the characters of the
    current match still to pass. *)
Fixpoint sub_from (ic : bool) (r : regex) (repl : match_obj -> pystr)
    (skip : nat) (bef s : pystr) {struct s} : pystr :=
  match skip with
  | S j =>
      match s with
      | c :: s' => sub_from ic r repl j (c :: bef) s'
      | [] => []
      end
  | O =>
      match match_at ic r bef s with
      | Some mo =>
          match s with
          | [] => repl mo
          | c :: s' =>
              match length (group0 mo) with
              | O => repl mo ++ c :: sub_from ic r repl 0 (c :: bef) s'
              | S j => repl mo ++ sub_from ic r repl j (c :: bef) s'
              end
          end
      | None =>
          match s with
          | [] => []
          | c :: s' => c :: sub_from ic r repl 0 (c :: bef) s'
          end
      end
  end.

Definition sub (ic : bool) (r : regex) (repl : match_obj -> pystr) (s : pystr) : pystr :=
  sub_from ic r repl 0 [] s.

(** *** Pattern syntax

    [compile] reads a pattern as [re] does, for the syntax the source
    uses: literals, escapes [\s \d \b \.], classes with ranges and
    negation, groups [( )], [(?: )], look-ahead [(?= )], the anchors,
    and the quantifiers [? * + {n,} {n,m}] with their lazy forms.
    Groups are numbered by their opening parenthesis. *)

Definition chr (c : string) : N :=
  match py c with x :: _ => x | [] => 0%N end.
Arguments chr c%_string.

Definition escape_item (c : N) : citem :=
  if (c =? chr "s")%N then CSpace
  else if (c =? chr "d")%N then CDigit
  else CChar c.

(** The items of a class up to its closing bracket; [first] holds at the
    first item, where a closing bracket is a literal. *)
Fixpoint parse_class (first : bool) (s : pystr) : option (list citem * pystr) :=
  match s with
  | [] => None
  | c :: r =>
      if (c =? chr "]")%N && negb first then Some ([], r)
      else if (c =? chr "\")%N then
        match r with
        | e :: r1 =>
            match parse_class false r1 with
            | Some (items, rest) => Some (escape_item e :: items, rest)
            | None => None
            end
        | [] => None
        end
      else
        match r with
        | d :: hi :: r2 =>
            if (d =? chr "-")%N && negb (hi =? chr "]")%N
            then match parse_class false r2 with
                 | Some (items, rest) => Some (CRange c hi :: items, rest)
                 | None => None
                 end
            else match parse_class false r with
                 | Some (items, rest) => Some (CChar c :: items, rest)
                 | None => None
                 end
        | _ =>
            match parse_class false r with
            | Some (items, rest) => Some (CChar c :: items, rest)
            | None => None
            end
        end
  end.

Fixpoint parse_nat (acc : nat) (s : pystr) : nat * pystr :=
  match s with
  | c :: r =>
      if is_digit c then parse_nat (10 * acc + N.to_nat (c - 48)) r
      else (acc, s)
  | [] => (acc, s)
  end.

(** The bounds of a quantifier at the head of [s], if there is one. *)
Definition parse_bounds (s : pystr) : option (nat * option nat * pystr) :=
  match s with
  | c :: r =>
      if (c =? chr "?")%N then Some (0, Some 1, r)
      else if (c =? chr "*")%N then Some (0, None, r)
      else if (c =? chr "+")%N then Some (1, None, r)
      else if (c =? chr "{")%N then
        match r with
        | d :: _ =>
            if is_digit d then
              let '(lo, r1) := parse_nat 0 r in
              match r1 with
              | x :: r2 =>
                  if (x =? chr "}")%N then Some (lo, Some lo, r2)
                  else if (x =? chr ",")%N then
                    match r2 with
                    | y :: r3 =>
                        if (y =? chr "}")%N then Some (lo, None, r3)
                        else if is_digit y then
                          let '(hi, r4) := parse_nat 0 r2 in
                          match r4 with
                          | z :: r5 =>
                              if (z =? chr "}")%N then Some (lo, Some hi, r5)
                              else None
                          | [] => None
                          end
                        else None
                    | [] => None
                    end
                  else None
              | [] => None
              end
            else None
        | [] => None
        end
      else None
  | [] => None
  end.

Definition quantified (a : regex) (s : pystr) : regex * pystr :=
  match parse_bounds s with
  | Some (lo, hi, r) =>
      match r with
      | c :: r' =>
          if (c =? chr "?")%N then (Rep lo hi false a, r') else (Rep lo hi true a, r)
      | [] => (Rep lo hi true a, r)
      end
  | None => (a, s)
  end.

Definition then_ (a b : regex) : regex :=
  match b with
  | Empty => a
  | _ => Seq a b
  end.

(** [parse_alt] reads alternatives up to an unmatched closing
    parenthesis or the end; [parse_seq] reads one alternative. [gid] is
    the number of groups opened so far. *)
Fixpoint parse_alt (fuel : nat) (s : pystr) (gid : nat) {struct fuel}
    : option (regex * pystr * nat) :=
  match fuel with
  | O => None
  | S f =>
      match parse_seq f s gid with
      | Some (r1, rest, g) =>
          match rest with
          | c :: rest' =>
              if (c =? chr "|")%N then
                match parse_alt f rest' g with
                | Some (r2, rest2, g2) => Some (Alt r1 r2, rest2, g2)
                | None => None
                end
              else Some (r1, rest, g)
          | [] => Some (r1, rest, g)
          end
      | None => None
      end
  end
with parse_seq (fuel : nat) (s : pystr) (gid : nat) {struct fuel}
    : option (regex * pystr * nat) :=
  match fuel with
  | O => None
  | S f =>
      let continue (a : regex) (after : pystr) (g : nat) :=
        let '(qa, after') := quantified a after in
        match parse_seq f after' g with
        | Some (tail, rest, g') => Some (then_ qa tail, rest, g')
        | None => None
        end in
      let closed (wrap : regex -> regex) (inner : pystr) (g : nat) :=
        match parse_alt f inner g with
        | Some (body, c :: after, g') =>
            if (c =? chr ")")%N then continue (wrap body) after g' else None
        | _ => None
        end in
      match s with
      | [] => Some (Empty, [], gid)
      | c :: r =>
          if (c =? chr ")")%N || (c =? chr "|")%N then Some (Empty, s, gid)
          else if (c =? chr "(")%N then
            match r with
            | q :: x :: inner =>
                if (q =? chr "?")%N && (x =? chr ":")%N
                then closed (fun b => b) inner gid
                else if (q =? chr "?")%N && (x =? chr "=")%N
                then closed Look inner gid
                else if (q =? chr "?")%N then None
                else closed (Group (S gid)) r (S gid)
            | _ => closed (Group (S gid)) r (S gid)
            end
          else if (c =? chr "[")%N then
            match r with
            | x :: r1 =>
                let neg := (x =? chr "^")%N in
                match parse_class true (if neg then r1 else r) with
                | Some (items, after) => continue (Set_ neg items) after gid
                | None => None
                end
            | [] => None
            end
          else if (c =? chr "\")%N then
            match r with
            | e :: after =>
                if (e =? chr "b")%N then continue WordB after gid
                else continue (Set_ false [escape_item e]) after gid
            | [] => None
            end
          else if (c =? chr "^")%N then continue Bol r gid
          else if (c =? chr "$")%N then continue Eol r gid
          else if (c =? chr ".")%N || (c =? chr "*")%N || (c =? chr "+")%N
                  || (c =? chr "?")%N then None
          else continue (Set_ false [CChar c]) r gid
      end
  end.

Definition compile (pattern : pystr) : option regex :=
  match parse_alt (2 * S (length pattern)) pattern 0 with
  | Some (r, [], _) => Some r
  | _ => None
  end.

(** [flags]: [true] for [re.IGNORECASE]. A pattern outside the syntax
    above has no match. *)
Definition re_search (pattern : string) (flags : bool) (s : pystr) : option match_obj :=
  match compile (py pattern) with
  | Some r => search flags r s
  | None => None
  end.
Arguments re_search pattern%_string flags s.

Definition re_sub (pattern : string) (flags : bool) (repl : match_obj -> pystr)
    (s : pystr) : pystr :=
  match compile (py pattern) with
  | Some r => sub flags r repl s
  | None => s
  end.
Arguments re_sub pattern%_string flags repl s.

End Re.

Import Re.

(** ** Identity resolver ([AdaptiveModuleScanner]) *)

Module Scanner.

(** A user entry of the file metadata. A field is [None] when its key is
    absent or null; the source treats both alike. *)
Record user : Type := User {
  emailAddress : option pystr;
  displayName : option pystr
}.

(** The metadata of one file as the storage client returns it; a field
    is [None] when its key is absent. *)
Record file_data : Type := FileData {
  fd_id : option pystr;
  fd_name : option pystr;
  mimeType : option pystr;
  size : option pystr;
  createdTime : option pystr;
  modifiedTime : option pystr;
  lastModifyingUser : option user;
  owners : option (list user)
}.

Definition email_pattern : string :=
  "\b[A-Za-z0-9._%+-]+@[A-Za-z0-9.-]+\.[A-Z|a-z]{2,}\b".

(** [s.split('@')[0]]. *)
Definition local_part (s : pystr) : pystr :=
  match split_chr (chr "@") s with
  | h :: _ => h
  | [] => []
  end.

Definition camel_repl (mo : match_obj) : pystr :=
  group 1 mo ++ py " " ++ group 2 mo.

Definition extract_name_patterns : list string :=
  [ "[Mm][óo]?dulo?\s*\d+[_\s-]+([A-Za-zÀ-ÿ]+(?:[A-Z][a-z]+)?)";
    "[Mm][óo]?dulo?[_\s-]*\d+[_\s-]+([a-zA-ZÀ-ÿ]+)" ]%string.

Definition clean_extracted (mo : match_obj) : pystr :=
  let name := group 1 mo in
  let name := re_sub "([a-z])([A-Z])" false camel_repl name in
  let name := strip (replace (py "-") (py " ") (replace (py "_") (py " ") name)) in
  join (py " ") (map capitalize (split_ws name)).

Fixpoint extract_loop (patterns : list string) (filename : pystr) : option pystr :=
  match patterns with
  | [] => None
  | pattern :: patterns' =>
      match re_search pattern true filename with
      | Some mo => Some (clean_extracted mo)
      | None => extract_loop patterns' filename
      end
  end.

Definition _extract_name_from_filename (filename : pystr) : option pystr :=
  extract_loop extract_name_patterns filename.

(** [email and '@' in email]. *)
Definition valid_email (email : pystr) : bool :=
  negb (str_eqb email []) && contains (py "@") email.

(** The name that goes with a metadata email: the name read from the
    file name when it has more than 3 characters, else the display name,
    else the local part of the email. *)
Definition metadata_name (filename : pystr) (display_name email : pystr) : pystr :=
  let fallback :=
    match display_name with
    | [] => local_part email
    | _ :: _ => display_name
    end in
  match _extract_name_from_filename filename with
  | Some better_name =>
      if bool_decide (3 < length better_name) then better_name else fallback
  | None => fallback
  end.

Definition name_patterns : list string :=
  [ "[Mm][óo]dulo?\s*\d+[_\s-]+([A-Za-zÀ-ÿ]{3,}[A-Za-zÀ-ÿ\s]*?)(?:[_\s-]+\d+)?\.?[a-zA-Z]*$";
    "[Mm]odulo?\s*\d+[_\s-]+([A-Za-zÀ-ÿ]{3,}[A-Za-zÀ-ÿ\s]*?)(?:[_\s-]+\d+)?\.?[a-zA-Z]*$";
    "[Mm][óo]?dulo?\s*\d+[_\s-]+([A-Za-zÀ-ÿ]+(?:[_\s][A-Za-zÀ-ÿ]+){1,3})(?:[_\s-]+\d+)?";
    "[Mm][óo]?dulo?\s*\d+[_\s-]+([A-Za-zÀ-ÿ\s]{4,}?)(?:[_\s-]+\d+)?\.?[a-zA-Z]*$";
    "^([A-Za-zÀ-ÿ]+[_\s-]+[A-Za-zÀ-ÿ]+)";
    "^([A-Za-zÀ-ÿ\s]{3,}?)[-_\.]";
    "([A-Za-zÀ-ÿ\s]{3,}?)(?=\d)" ]%string.

Definition palabras_invalidas : list pystr :=
  [py "modulo"; py "módulo"; py "dulo"; py "ejercicio"; py "tarea"; py "test"].

Definition module_words : list pystr := [py "modulo"; py "módulo"; py "dulo"].

(** The candidate of one pattern after the module prefix and the
    trailing number are removed. *)
Definition candidate_of (mo : match_obj) : pystr :=
  let name := strip (replace (py "-") (py " ") (replace (py "_") (py " ") (group 1 mo))) in
  let name := re_sub "^[Mm][óo]?dulo?\s*\d+[_\s-]*" true (fun _ => []) name in
  let name := re_sub "[_\s-]*\d+[_\s-]*$" false (fun _ => []) name in
  strip name.

(** The test that accepts a candidate as a name. *)
Definition name_accepted (name : pystr) : bool :=
  bool_decide (2 < length name)
  && negb (existsb (fun word => str_eqb word (lower name)) palabras_invalidas)
  && negb (existsb (fun word => contains word (lower name)) module_words)
  && negb (bool_decide (lower name ∈ palabras_invalidas)).

Definition temp_email (name : pystr) : pystr :=
  let email_name :=
    replace (py "ú") (py "u") (replace (py "ó") (py "o") (replace (py "í") (py "i")
      (replace (py "é") (py "e") (replace (py "á") (py "a") (replace (py "ñ") (py "n")
        (replace (py " ") (py ".") (lower name))))))) in
  email_name ++ py "@extracted.temp".

Fixpoint name_loop (patterns : list string) (filename : pystr) : option (pystr * pystr) :=
  match patterns with
  | [] => None
  | pattern :: patterns' =>
      match re_search pattern true filename with
      | Some mo =>
          let name := candidate_of mo in
          if name_accepted name
          then let name := join (py " ") (split_ws name) in
               Some (name, temp_email name)
          else name_loop patterns' filename
      | None => name_loop patterns' filename
      end
  end.

(** Steps 3 and 4 of the cascade, which read the file name only. *)
Definition from_filename (filename : pystr) : option (pystr * pystr) :=
  match re_search email_pattern false filename with
  | Some email_match =>
      let email := group 0 email_match in
      Some (local_part email, email)
  | None => name_loop name_patterns filename
  end.

(** Step 2 of the cascade and what follows it. *)
Definition from_owners (file_data : file_data) (filename : pystr) : option (pystr * pystr) :=
  match owners file_data with
  | Some (owner :: _) =>
      let email := default [] (emailAddress owner) in
      let display_name := default [] (displayName owner) in
      if valid_email email
      then Some (metadata_name filename display_name email, email)
      else from_filename filename
  | _ => from_filename filename
  end.

(** [identify_student_from_file]: [Some (name, email)], or [None] for
    "not identified". No call in its body raises on these types, so the
    handler that turns an exception into [None] is never entered. *)
Definition identify_student_from_file (file_data : file_data) : option (pystr * pystr) :=
  let filename := default [] (fd_name file_data) in
  match lastModifyingUser file_data with
  | Some user =>
      let email := default [] (emailAddress user) in
      let display_name := default [] (displayName user) in
      if valid_email email
      then Some (metadata_name filename display_name email, email)
      else from_owners file_data filename
  | None => from_owners file_data filename
  end.

Definition bare_file (name : string) : file_data :=
  FileData None (Some (py name)) None None None None None None.
Arguments bare_file name%_string.

End Scanner.

Import Scanner.

(** ** Adaptive DAO: values, discovered schema, statement builder *)

(** The values the DAO binds to statement parameters and reads from
    rows. [VMb b] is the float [round(b / (1024 * 1024), 2)] and
    [VDumpsErrors], [VDumpsFailure] are the strings that [json.dumps]
    returns for the two documents the scanner builds; they are kept as
    the data they are computed from. *)
Inductive value : Type :=
  | VNone
  | VStr (s : pystr)
  | VInt (n : Z)
  | VTime (t : Z)
  | VMb (bytes : Z)
  | VDumpsErrors (errors : list pystr)
  | VDumpsFailure (error : pystr) (timestamp : Z).

Global Instance value_eq_dec : EqDecision value.
Proof. solve_decision. Defined.

(** [value is not None]. *)
Definition is_not_none (v : value) : bool :=
  match v with
  | VNone => false
  | _ => true
  end.

Definition of_opt_str (o : option pystr) : value :=
  match o with
  | Some s => VStr s
  | None => VNone
  end.

(** An insertion-ordered [dict] with [str] keys. *)
Abbreviation dict := (list (pystr * value)).

(** [d[k] = v]: a new key goes last, a known key keeps its place. *)
Fixpoint dict_set (k : pystr) (v : value) (d : dict) : dict :=
  match d with
  | [] => [(k, v)]
  | (k', v') :: d' =>
      if str_eqb k' k then (k, v) :: d' else (k', v') :: dict_set k v d'
  end.

(** [d.get(k)], with [VNone] for a missing key. *)
Fixpoint dict_get (k : pystr) (d : dict) : value :=
  match d with
  | [] => VNone
  | (k', v) :: d' => if str_eqb k' k then v else dict_get k d'
  end.

(** [k in d]. *)
Definition dict_has (k : pystr) (d : dict) : bool :=
  existsb (fun kv => str_eqb kv.1 k) d.

(** One row of [information_schema.columns]. *)
Record column_info : Type := ColumnInfo {
  column_name : pystr;
  data_type : pystr;
  is_nullable : pystr;
  column_default : value
}.

(** An entry of [table_schemas]. *)
Record table_schema : Type := TableSchema {
  columns : list (pystr * column_info);
  column_names : list pystr
}.

(** ** The relational store

    A model of the part of PostgreSQL and psycopg2 that the DAO relies
    on: tables with columns, unique indexes and an id sequence; the
    statement forms the DAO emits, read from their text; transactions
    that commit or roll back as a whole. *)

Module Store.

(** *** Statement text *)

Inductive token : Type :=
  | TWord (w : pystr)
  | TSym (c : N)
  | TParam.

Global Instance token_eq_dec : EqDecision token.
Proof. solve_decision. Defined.

Definition is_sym (c : N) : bool :=
  bool_decide (c ∈ [chr "("; chr ")"; chr ","; chr "="; chr "."; chr "*"; chr "+"]).

Definition flush (cur : pystr) (ts : list token) : list token :=
  match cur with
  | [] => ts
  | _ :: _ => TWord (rev cur) :: ts
  end.

(** Words are separated by white space and by the symbols; [%s] is a
    parameter. [cur] is the word being read, last character first. *)
Fixpoint lex (cur : pystr) (s : pystr) : list token :=
  match s with
  | [] => flush cur []
  | c :: r =>
      if is_space c then flush cur (lex [] r)
      else if is_sym c then flush cur (TSym c :: lex [] r)
      else if (c =? chr "%")%N then
        match r with
        | d :: r' =>
            if (d =? chr "s")%N then flush cur (TParam :: lex [] r')
            else lex (c :: cur) r
        | [] => lex (c :: cur) r
        end
      else lex (c :: cur) r
  end.

Definition tokens (s : pystr) : list token := lex [] s.

Inductive sexpr : Type :=
  | EParam
  | EExcluded (col : pystr)
  | ENow.

Global Instance sexpr_eq_dec : EqDecision sexpr.
Proof. solve_decision. Defined.

(** The statement forms of the DAO. An insert returns the id of the row
    it wrote. [SCount t distinct newer] is [SELECT COUNT( * ) as count
    FROM t], or [COUNT(DISTINCT c)] for [distinct = Some c], over all
    rows or, for [newer = Some (c, n)], over those with [c > NOW() -
    INTERVAL 'n days']; [SCatalogTables] and [SCatalogColumns] are the
    two queries of schema discovery on [information_schema]; [SSelectOne]
    is [SELECT 1]. *)
Inductive statement : Type :=
  | SInsert (table : pystr) (cols : list pystr) (params : nat)
      (on_conflict : option (pystr * list (pystr * sexpr)))
  | SUpdate (table : pystr) (sets : list (pystr * sexpr)) (where_col : pystr)
  | SSelect (table : pystr) (where_col : option pystr) (order_by : option pystr)
  | SNextOrder (table : pystr) (col : pystr)
  | SCount (table : pystr) (distinct : option pystr) (newer : option (pystr * Z))
  | SCatalogTables
  | SCatalogColumns
  | SSelectOne.

Global Instance statement_eq_dec : EqDecision statement.
Proof. solve_decision. Defined.

Definition word (w : string) : token := TWord (py w).
Arguments word w%_string.
Definition sym (c : string) : token := TSym (chr c).
Arguments sym c%_string.

Definition is_tok (t u : token) : bool := bool_decide (t = u).

(** [name {, name} )] *)
Fixpoint parse_names (ts : list token) : option (list pystr * list token) :=
  match ts with
  | TWord w :: t :: r =>
      if is_tok t (sym ")") then Some ([w], r)
      else if is_tok t (sym ",") then
        match parse_names r with
        | Some (ws, r') => Some (w :: ws, r')
        | None => None
        end
      else None
  | _ => None
  end.

(** [%s {, %s} )] *)
Fixpoint parse_params (ts : list token) : option (nat * list token) :=
  match ts with
  | TParam :: t :: r =>
      if is_tok t (sym ")") then Some (1, r)
      else if is_tok t (sym ",") then
        match parse_params r with
        | Some (n, r') => Some (S n, r')
        | None => None
        end
      else None
  | _ => None
  end.

(** [col = expr] with [expr] one of [%s], [EXCLUDED.col], [NOW()]. *)
Definition parse_assign (ts : list token) : option (pystr * sexpr * list token) :=
  match ts with
  | TWord c :: eq :: TParam :: r =>
      if is_tok eq (sym "=") then Some (c, EParam, r) else None
  | TWord c :: eq :: TWord f :: t1 :: t2 :: r =>
      if is_tok eq (sym "=") then
        if is_tok (TWord f) (word "EXCLUDED") && is_tok t1 (sym ".") then
          match t2 with
          | TWord x => Some (c, EExcluded x, r)
          | _ => None
          end
        else if is_tok (TWord f) (word "NOW") && is_tok t1 (sym "(")
                && is_tok t2 (sym ")")
        then Some (c, ENow, r)
        else None
      else None
  | _ => None
  end.

(** [col = expr {, col = expr}] *)
Fixpoint parse_sets (fuel : nat) (ts : list token)
    : option (list (pystr * sexpr) * list token) :=
  match fuel with
  | O => None
  | S f =>
      match parse_assign ts with
      | Some (c, e, r) =>
          match r with
          | t :: r' =>
              if is_tok t (sym ",") then
                match parse_sets f r' with
                | Some (l, r'') => Some ((c, e) :: l, r'')
                | None => None
                end
              else Some ([(c, e)], r)
          | [] => Some ([(c, e)], r)
          end
      | None => None
      end
  end.

(** The rest of [ts] after the tokens [pre]. *)
Fixpoint after (pre ts : list token) : option (list token) :=
  match pre, ts with
  | [], _ => Some ts
  | p :: pre', t :: ts' => if is_tok p t then after pre' ts' else None
  | _ :: _, [] => None
  end.

Definition returning_id : list token := [word "RETURNING"; word "id"].

(** The end of an insert: [RETURNING id], with or without an
    [ON CONFLICT (col) DO UPDATE SET ...] before it. *)
Definition parse_on_conflict (r4 : list token)
    : option (option (pystr * list (pystr * sexpr))) :=
  if bool_decide (r4 = returning_id) then Some None
  else
    r5 ← after [word "ON"; word "CONFLICT"; sym "("] r4;
    match r5 with
    | TWord c :: r6 =>
        r7 ← after [sym ")"; word "DO"; word "UPDATE"; word "SET"] r6;
        '(sets, r8) ← parse_sets (length r7) r7;
        if bool_decide (r8 = returning_id) then Some (Some (c, sets)) else None
    | _ => None
    end.

Definition parse_insert (ts : list token) : option statement :=
  match ts with
  | TWord t :: r0 =>
      r1 ← after [sym "("] r0;
      '(cols, r2) ← parse_names r1;
      r3 ← after [word "VALUES"; sym "("] r2;
      '(n, r4) ← parse_params r3;
      on_conflict ← parse_on_conflict r4;
      Some (SInsert t cols n on_conflict)
  | _ => None
  end.

Definition parse_update (ts : list token) : option statement :=
  match ts with
  | TWord t :: r0 =>
      r1 ← after [word "SET"] r0;
      '(sets, r2) ← parse_sets (length r1) r1;
      match r2 with
      | [w; TWord c; e; TParam] =>
          if is_tok w (word "WHERE") && is_tok e (sym "=")
          then Some (SUpdate t sets c) else None
      | _ => None
      end
  | _ => None
  end.

(** The tokens of the two catalogue queries after [SELECT]. *)
Definition catalog_tables : list token :=
  [ word "table_name"; word "FROM"; word "information_schema"; sym "."; word "tables";
    word "WHERE"; word "table_schema"; sym "="; word "'public'";
    word "AND"; word "table_type"; sym "="; word "'BASE"; word "TABLE'";
    word "ORDER"; word "BY"; word "table_name;" ].

Definition catalog_columns : list token :=
  [ word "column_name"; sym ","; word "data_type"; sym ","; word "is_nullable"; sym ",";
    word "column_default"; word "FROM"; word "information_schema"; sym "."; word "columns";
    word "WHERE"; word "table_name"; sym "="; TParam;
    word "ORDER"; word "BY"; word "ordinal_position;" ].

(** A run of decimal digits. *)
Fixpoint number (acc : Z) (s : pystr) : option Z :=
  match s with
  | [] => Some acc
  | c :: r => if is_digit c then number (10 * acc + Z.of_N (c - 48)) r else None
  end.

(** The two words of an interval literal ['n days']. *)
Definition parse_days (n d : pystr) : option Z :=
  match n with
  | q :: (_ :: _) as digits =>
      if (q =? chr "'")%N && str_eqb d (py "days'") then number 0 digits else None
  | _ => None
  end.

(** Nothing, or [WHERE col > NOW() - INTERVAL 'n days']. *)
Definition parse_newer (ts : list token) : option (option (pystr * Z)) :=
  match ts with
  | [] => Some None
  | [w; TWord c; gt; nw; lp; rp; minus; iv; TWord n; TWord d] =>
      if is_tok w (word "WHERE") && is_tok gt (word ">") && is_tok nw (word "NOW")
         && is_tok lp (sym "(") && is_tok rp (sym ")") && is_tok minus (word "-")
         && is_tok iv (word "INTERVAL")
      then days ← parse_days n d; Some (Some (c, days))
      else None
  | _ => None
  end.

(** [COUNT( * ) as count FROM t ...] and [COUNT(DISTINCT c) as count
    FROM t ...]. *)
Definition parse_count (ts : list token) : option statement :=
  r0 ← after [word "COUNT"; sym "("] ts;
  '(distinct, r1) ←
    match r0 with
    | s :: r =>
        if is_tok s (sym "*") then Some (None, r)
        else if is_tok s (word "DISTINCT") then
          match r with
          | TWord c :: r' => Some (Some c, r')
          | _ => None
          end
        else None
    | [] => None
    end;
  r2 ← after [sym ")"; word "as"; word "count"; word "FROM"] r1;
  match r2 with
  | TWord t :: r3 => newer ← parse_newer r3; Some (SCount t distinct newer)
  | _ => None
  end.

(** The reads that are not a [SELECT *]. *)
Definition parse_read (ts : list token) : option statement :=
  if bool_decide (ts = [word "1"]) then Some SSelectOne
  else if bool_decide (ts = catalog_tables) then Some SCatalogTables
  else if bool_decide (ts = catalog_columns) then Some SCatalogColumns
  else parse_count ts.

Definition parse_select (ts : list token) : option statement :=
  match after [sym "*"; word "FROM"] ts with
  | Some [TWord t] => Some (SSelect t None None)
  | Some [TWord t; w; TWord c; e; TParam] =>
      if is_tok w (word "WHERE") && is_tok e (sym "=")
      then Some (SSelect t (Some c) None) else None
  | Some [TWord t; o; b; TWord c] =>
      if is_tok o (word "ORDER") && is_tok b (word "BY")
      then Some (SSelect t None (Some c)) else None
  | Some _ => None
  | None =>
      match after [word "COALESCE"; sym "("; word "MAX"; sym "("] ts with
      | Some (TWord c :: r) =>
          match after [sym ")"; sym ","; word "0"; sym ")"; sym "+"; word "1";
                       word "as"; word "next_order"; word "FROM"] r with
          | Some [TWord t] => Some (SNextOrder t c)
          | _ => None
          end
      | _ => parse_read ts
      end
  end.

(** The statement a text stands for, when it has one of the forms. *)
Definition parse_sql (q : pystr) : option statement :=
  match tokens q with
  | TWord k :: ts =>
      if str_eqb k (py "INSERT") then
        match after [word "INTO"] ts with
        | Some r => parse_insert r
        | None => None
        end
      else if str_eqb k (py "UPDATE") then parse_update ts
      else if str_eqb k (py "SELECT") then parse_select ts
      else None
  | _ => None
  end.

(** *** Tables *)

Abbreviation row := (gmap pystr value).

Record table : Type := Table {
  t_columns : list pystr;
  t_unique : list pystr;
  t_rows : list row;
  t_next_id : Z
}.

Abbreviation database := (gmap pystr table).

(** A cell of a row; a null cell is an absent key. *)
Definition cell (r : row) (c : pystr) : value := default VNone (r !! c).

Definition set_cell (c : pystr) (v : value) (r : row) : row :=
  match v with
  | VNone => delete c r
  | _ => <[c := v]> r
  end.

(** [SELECT *]: the row as a dict over the columns of its table. *)
Definition render (t : table) (r : row) : dict :=
  map (fun c => (c, cell r c)) (t_columns t).

(** Two rows collide on a column when both hold the same non-null
    value there. *)
Definition collide (u : pystr) (r r' : row) : bool :=
  match r !! u with
  | Some v => bool_decide (r' !! u = Some v)
  | None => false
  end.

Definition unique_ok (uniques : list pystr) (r : row) (others : list row) : bool :=
  forallb (fun u => negb (existsb (collide u r) others)) uniques.

Fixpoint find_collision (u : pystr) (r : row) (rows : list row) : option nat :=
  match rows with
  | [] => None
  | r' :: rows' =>
      if collide u r r' then Some 0
      else S <$> find_collision u r rows'
  end.

Fixpoint all_unique (uniques : list pystr) (rows : list row) : bool :=
  match rows with
  | [] => true
  | r :: rows' => unique_ok uniques r rows' && all_unique uniques rows'
  end.

Definition undefined_table (t : pystr) : exn :=
  ProgrammingError (py "relation " ++ t ++ py " does not exist").
Definition undefined_column (c : pystr) : exn :=
  ProgrammingError (py "column " ++ c ++ py " does not exist").
Definition unique_violation : exn :=
  IntegrityError (py "duplicate key value violates unique constraint").
Definition no_arbiter : exn :=
  ProgrammingError
    (py "there is no unique or exclusion constraint matching the ON CONFLICT specification").
Definition bad_arguments : exn :=
  TypeError (py "not all arguments converted during string formatting").

Definition first_missing (cols : list pystr) (t : table) : option pystr :=
  head (filter (fun c => c ∉ t_columns t) cols).

(** The row an insert proposes: the given cells, and the next value of
    the id sequence when the table has an id column that is not given. *)
Definition id_col : pystr := py "id".

Definition proposed (t : table) (cols : list pystr) (args : list value) : row :=
  let r := foldr (fun cv acc => set_cell cv.1 cv.2 acc) ∅ (zip cols args) in
  if bool_decide (id_col ∈ t_columns t) && negb (bool_decide (id_col ∈ cols))
  then <[id_col := VInt (t_next_id t)]> r
  else r.

Definition excluded_cols (sets : list (pystr * sexpr)) : list pystr :=
  omap (fun ce => match ce.2 with EExcluded x => Some x | _ => None end) sets.

(** One assignment of [DO UPDATE SET] on the row in conflict. *)
Definition assign_conflict (now : Z) (prop : row) (old : row) (ce : pystr * sexpr) : row :=
  match ce.2 with
  | EExcluded x => set_cell ce.1 (cell prop x) old
  | ENow => set_cell ce.1 (VTime now) old
  | EParam => old
  end.

Definition returning (t : table) (r : row) : result (list dict) :=
  if bool_decide (id_col ∈ t_columns t)
  then Return [[(id_col, cell r id_col)]]
  else Raise (undefined_column id_col).

Definition with_rows (t : table) (rows : list row) (next : Z) : table :=
  Table (t_columns t) (t_unique t) rows next.

Definition exec_insert (now : Z) (name : pystr) (cols : list pystr) (params : nat)
    (on_conflict : option (pystr * list (pystr * sexpr))) (args : list value)
    (db : database) : result (list dict * database) :=
  match db !! name with
  | None => Raise (undefined_table name)
  | Some t =>
      if negb (bool_decide (length cols = params ∧ length args = params))
      then Raise bad_arguments
      else if negb (bool_decide (NoDup cols))
      then Raise (ProgrammingError (py "column specified more than once"))
      else
      match first_missing cols t with
      | Some c => Raise (undefined_column c)
      | None =>
          let prop := proposed t cols args in
          let next := (t_next_id t + 1)%Z in
          let plain :=
            if unique_ok (t_unique t) prop (t_rows t)
            then bind (returning t prop) (fun out =>
                   Return (out, <[name := with_rows t (t_rows t ++ [prop]) next]> db))
            else Raise unique_violation in
          match on_conflict with
          | None => plain
          | Some (target, sets) =>
              if negb (bool_decide (target ∈ t_unique t)) then Raise no_arbiter
              else
              match first_missing (target :: sets.*1 ++ excluded_cols sets) t with
              | Some c => Raise (undefined_column c)
              | None =>
                  match find_collision target prop (t_rows t) with
                  | None => plain
                  | Some i =>
                      match t_rows t !! i with
                      | None => plain
                      | Some old =>
                          let new := fold_left (assign_conflict now prop) sets old in
                          if unique_ok (t_unique t) new (delete i (t_rows t))
                          then bind (returning t new) (fun out =>
                                 Return (out,
                                   <[name := with_rows t (<[i := new]> (t_rows t)) next]> db))
                          else Raise unique_violation
                      end
                  end
              end
          end
      end
  end.

(** The assignments of an update take their parameters in order. *)
Fixpoint assign_params (sets : list (pystr * sexpr)) (args : list value) (now : Z)
    (r : row) : row :=
  match sets with
  | [] => r
  | (c, EParam) :: sets' =>
      match args with
      | v :: args' => assign_params sets' args' now (set_cell c v r)
      | [] => r
      end
  | (c, ENow) :: sets' => assign_params sets' args now (set_cell c (VTime now) r)
  | (c, EExcluded _) :: sets' => assign_params sets' args now r
  end.

Definition count_params (sets : list (pystr * sexpr)) : nat :=
  length (filter (fun ce => ce.2 = EParam) sets).

Definition matches (c : pystr) (v : value) (r : row) : bool :=
  is_not_none v && bool_decide (r !! c = Some v).

Definition exec_update (now : Z) (name : pystr) (sets : list (pystr * sexpr))
    (where_col : pystr) (args : list value) (db : database)
    : result (list dict * database) :=
  match db !! name with
  | None => Raise (undefined_table name)
  | Some t =>
      if negb (bool_decide (length args = S (count_params sets)))
      then Raise bad_arguments
      else
      match first_missing (where_col :: sets.*1) t with
      | Some c => Raise (undefined_column c)
      | None =>
          let key := default VNone (last args) in
          let rows :=
            map (fun r => if matches where_col key r
                          then assign_params sets args now r else r) (t_rows t) in
          if all_unique (t_unique t) rows
             || negb (existsb (fun c => bool_decide (c ∈ t_unique t)) sets.*1)
          then Return ([], <[name := with_rows t rows (t_next_id t)]> db)
          else Raise unique_violation
      end
  end.

(** The order of [ORDER BY]: code point order on strings, nulls last. *)
Fixpoint str_leb (a b : pystr) : bool :=
  match a, b with
  | [], _ => true
  | _ :: _, [] => false
  | x :: a', y :: b' => (x <? y)%N || ((x =? y)%N && str_leb a' b')
  end.

Definition value_leb (a b : value) : bool :=
  match a, b with
  | _, VNone => true
  | VNone, _ => false
  | VStr x, VStr y => str_leb x y
  | VInt x, VInt y | VTime x, VTime y | VMb x, VMb y => (x <=? y)%Z
  | _, _ => true
  end.

Fixpoint insert_sorted (c : pystr) (r : row) (rows : list row) : list row :=
  match rows with
  | [] => [r]
  | r' :: rows' =>
      if value_leb (cell r c) (cell r' c) then r :: rows
      else r' :: insert_sorted c r rows'
  end.

Definition order_by (c : pystr) (rows : list row) : list row :=
  foldr (insert_sorted c) [] rows.

Definition exec_select (name : pystr) (where_col order : option pystr)
    (args : list value) (db : database) : result (list dict * database) :=
  match db !! name with
  | None => Raise (undefined_table name)
  | Some t =>
      match first_missing (option_list where_col ++ option_list order) t with
      | Some c => Raise (undefined_column c)
      | None =>
          let found :=
            match where_col, args with
            | Some c, [v] => Return (filter (fun r => matches c v r) (t_rows t))
            | None, [] => Return (t_rows t)
            | _, _ => Raise bad_arguments
            end in
          bind found (fun rows =>
            let rows := match order with Some c => order_by c rows | None => rows end in
            Return (map (render t) rows, db))
      end
  end.

Definition int_cell (r : row) (c : pystr) : option Z :=
  match r !! c with
  | Some (VInt n) => Some n
  | _ => None
  end.

(** [SELECT COALESCE(MAX(col), 0) + 1 as next_order FROM t] *)
Definition exec_next_order (name col : pystr) (db : database)
    : result (list dict * database) :=
  match db !! name with
  | None => Raise (undefined_table name)
  | Some t =>
      match first_missing [col] t with
      | Some c => Raise (undefined_column c)
      | None =>
          let m := match omap (fun r => int_cell r col) (t_rows t) with
                   | [] => 0%Z
                   | x :: xs => foldr Z.max x xs
                   end in
          Return ([[(py "next_order", VInt (m + 1))]], db)
      end
  end.

(** The clock counts microseconds. *)
Definition day : Z := 86400000000.

(** [col > NOW() - INTERVAL 'n days'] on a row; a null cell is not
    newer than anything. *)
Definition newer_than (now : Z) (newer : option (pystr * Z)) (r : row) : bool :=
  match newer with
  | None => true
  | Some (c, n) =>
      match r !! c with
      | Some (VTime t) => (now - n * day <? t)%Z
      | _ => false
      end
  end.

(** [COUNT( * )] counts rows, [COUNT(DISTINCT c)] the different non-null
    values of [c]. *)
Definition exec_count (now : Z) (name : pystr) (distinct : option pystr)
    (newer : option (pystr * Z)) (args : list value) (db : database)
    : result (list dict * database) :=
  match db !! name with
  | None => Raise (undefined_table name)
  | Some t =>
      match first_missing (option_list distinct ++ option_list (fst <$> newer)) t with
      | Some c => Raise (undefined_column c)
      | None =>
          match args with
          | [] =>
              let rows := filter (fun r => newer_than now newer r) (t_rows t) in
              let n :=
                match distinct with
                | None => length rows
                | Some c => length (remove_dups (omap (fun r : row => r !! c) rows))
                end in
              Return ([[(py "count", VInt (Z.of_nat n))]], db)
          | _ :: _ => Raise bad_arguments
          end
      end
  end.

(** The names of the tables in the order of [ORDER BY table_name]. *)
Fixpoint insert_name (n : pystr) (names : list pystr) : list pystr :=
  match names with
  | [] => [n]
  | m :: names' => if str_leb n m then n :: names else m :: insert_name n names'
  end.

Definition table_names (db : database) : list pystr :=
  foldr insert_name [] (map_to_list db).*1.

(** [information_schema.tables]: the tables of the database are the
    base tables of the schema [public]. *)
Definition exec_catalog_tables (args : list value) (db : database)
    : result (list dict * database) :=
  match args with
  | [] => Return (map (fun n => [(py "table_name", VStr n)]) (table_names db), db)
  | _ :: _ => Raise bad_arguments
  end.

(** [information_schema.columns] for one table, in the order of the
    columns. The store keeps no types, constraints or defaults of
    columns: the catalogue shows each column as nullable text without
    default. A table that does not exist has no rows here. *)
Definition catalog_row (c : pystr) : dict :=
  [ (py "column_name", VStr c); (py "data_type", VStr (py "text"));
    (py "is_nullable", VStr (py "YES")); (py "column_default", VNone) ].

Definition exec_catalog_columns (args : list value) (db : database)
    : result (list dict * database) :=
  match args with
  | [VStr name] =>
      match db !! name with
      | Some t => Return (map catalog_row (t_columns t), db)
      | None => Return ([], db)
      end
  | [_] => Return ([], db)
  | _ => Raise bad_arguments
  end.

(** [SELECT 1] *)
Definition exec_select_one (args : list value) (db : database)
    : result (list dict * database) :=
  match args with
  | [] => Return ([[(py "?column?", VInt 1)]], db)
  | _ :: _ => Raise bad_arguments
  end.

Definition exec (now : Z) (st : statement) (args : list value) (db : database)
    : result (list dict * database) :=
  match st with
  | SInsert t cols n oc => exec_insert now t cols n oc args db
  | SUpdate t sets c => exec_update now t sets c args db
  | SSelect t w o => exec_select t w o args db
  | SNextOrder t c => exec_next_order t c db
  | SCount t distinct newer => exec_count now t distinct newer args db
  | SCatalogTables => exec_catalog_tables args db
  | SCatalogColumns => exec_catalog_columns args db
  | SSelectOne => exec_select_one args db
  end.

(** *** Cursors *)

Record cursor : Type := Cursor {
  cur_now : Z;
  cur_db : database;
  cur_rows : list dict
}.

(** A computation on a state that can raise; the state at the raise is
    kept. *)
Definition M (S A : Type) : Type := S -> result A * S.

Definition ret {S A} (a : A) : M S A := fun s => (Return a, s).
Definition raise {S A} (e : exn) : M S A := fun s => (Raise e, s).
Definition bindM {S A B} (c : M S A) (k : A -> M S B) : M S B :=
  fun s =>
    match c s with
    | (Return a, s') => k a s'
    | (Raise e, s') => (Raise e, s')
    end.

(** [try: c except Exception as e: h e] *)
Definition try_except {S A} (c : M S A) (h : exn -> M S A) : M S A :=
  fun s =>
    match c s with
    | (Return a, s') => (Return a, s')
    | (Raise e, s') => h e s'
    end.

Definition lift {S A} (r : result A) : M S A := fun s => (r, s).

(** [cur.execute(query, values)] *)
Definition execute (query : pystr) (values : list value) : M cursor unit :=
  fun cur =>
    match parse_sql query with
    | None => (Raise (ProgrammingError (py "syntax error")), cur)
    | Some st =>
        match exec (cur_now cur) st values (cur_db cur) with
        | Return (rows, db) => (Return tt, Cursor (cur_now cur) db rows)
        | Raise e => (Raise e, cur)
        end
    end.

(** [cur.fetchone()] *)
Definition fetchone : M cursor (option dict) :=
  fun cur =>
    match cur_rows cur with
    | r :: rows => (Return (Some r), Cursor (cur_now cur) (cur_db cur) rows)
    | [] => (Return None, cur)
    end.

(** [cur.fetchall()] *)
Definition fetchall : M cursor (list dict) :=
  fun cur => (Return (cur_rows cur), Cursor (cur_now cur) (cur_db cur) []).

(** [row[key]] on the result of [fetchone]. *)
Definition subscript {S} (r : option dict) (key : pystr) : M S value :=
  match r with
  | None => raise (TypeError (py "'NoneType' object is not subscriptable"))
  | Some d => if dict_has key d then ret (dict_get key d) else raise (KeyError key)
  end.

(** *** Connections

    The world outside the process: the committed database, the clock,
    whether the n-th connection can be opened, whether its commit goes
    through and whether it can be rolled back, and the trace of what was
    done to connections. *)

Inductive event : Type :=
  | EvConnect
  | EvCommit
  | EvRollback
  | EvLogError (msg : pystr)
  | EvClose.

Record world : Type := World {
  committed : database;
  clock : Z;
  attempts : nat;
  connect_fault : nat -> option exn;
  commit_fault : nat -> option exn;
  rollback_fault : nat -> option exn;
  trace : list event
}.

(** [datetime.now()] *)
Definition datetime_now : M world Z :=
  fun w =>
    (Return (clock w),
     World (committed w) (clock w + 1) (attempts w) (connect_fault w)
       (commit_fault w) (rollback_fault w) (trace w)).

Definition record (evs : list event) (w : world) : world :=
  World (committed w) (clock w) (attempts w) (connect_fault w) (commit_fault w)
    (rollback_fault w) (trace w ++ evs).

Definition store (db : database) (w : world) : world :=
  World db (clock w) (attempts w) (connect_fault w) (commit_fault w) (rollback_fault w)
    (trace w).

(** [psycopg2.connect(self.database_url)] *)
Definition connect : M world nat :=
  fun w =>
    let n := attempts w in
    let w' := World (committed w) (clock w + 1) (S n) (connect_fault w)
                (commit_fault w) (rollback_fault w) (trace w) in
    match connect_fault w n with
    | Some e => (Raise e, w')
    | None => (Return n, record [EvConnect] w')
    end.

(** [get_connection]: the body runs on the transaction's view of the
    database, which starts as the committed one. [conn.rollback()] can
    raise, as it does on a connection that was lost, and its error is
    then the one that leaves the [except] block, before the log line;
    [conn.close()] of psycopg2 does not raise, also on a connection that
    is closed already. What a connection neither committed nor rolled
    back is dropped by the store when the connection is closed. *)
Definition get_connection {A} (body : Z -> database -> result A * database)
    : M world A :=
  fun w =>
    match connect w with
    | (Raise e, w1) => (Raise e, w1)
    | (Return n, w1) =>
        let failed (e : exn) :=
          match rollback_fault w1 n with
          | None =>
              (Raise e,
               record [EvRollback; EvLogError (py "Database error: " ++ str_exn e); EvClose]
                 w1)
          | Some e' => (Raise e', record [EvClose] w1)
          end in
        match body (clock w) (committed w1) with
        | (Return a, db) =>
            match commit_fault w1 n with
            | None => (Return a, record [EvCommit; EvClose] (store db w1))
            | Some e => failed e
            end
        | (Raise e, _) => failed e
        end
    end.

(** [get_cursor] *)
Definition get_cursor {A} (body : M cursor A) : M world A :=
  get_connection (fun now db =>
    let '(r, cur) := body (Cursor now db []) in (r, cur_db cur)).

End Store.

Notation "x <- c ;; k" := (Store.bindM c (fun x => k))
  (at level 100, c at next level, right associativity).

Module Dao.

Import Store.

Section Methods.

(** The discovered schema, read-only after construction. *)
Variable table_schemas : gmap pystr table_schema.

(** [dateutil.parser.parse(s).replace(tzinfo=None)], [None] when it
    raises. *)
Variable parse_date : pystr -> option Z.

(** [self.table_schemas.get(t, {}).get('column_names', [])]. *)
Definition columns_of (t : pystr) : list pystr :=
  match table_schemas !! t with
  | Some sch => column_names sch
  | None => []
  end.

(** One turn of the loop of [_build_insert_query] on the three lists it
    fills. *)
Definition insert_step (available_columns : list pystr)
    (acc : list pystr * list value * list pystr) (item : pystr * value)
    : list pystr * list value * list pystr :=
  let '(insert_columns, insert_values, placeholders) := acc in
  let '(column, value) := item in
  if bool_decide (column ∈ available_columns) && is_not_none value
  then (insert_columns ++ [column], insert_values ++ [value], placeholders ++ [py "%s"])
  else acc.

Definition _build_insert_query (table_name : pystr) (data : dict)
    : result (pystr * list value) :=
  match table_schemas !! table_name with
  | None => Raise (ValueError (py "Tabla " ++ table_name ++ py " no encontrada en schema"))
  | Some sch =>
      let available_columns := column_names sch in
      let '(insert_columns, insert_values, placeholders) :=
        fold_left (insert_step available_columns) data ([], [], []) in
      match insert_columns with
      | [] =>
          Raise (ValueError (py "No hay columnas válidas para insertar en " ++ table_name))
      | _ :: _ =>
          let query :=
            nl ++ spaces 12 ++ py "INSERT INTO " ++ table_name ++ py " ("
               ++ join (py ", ") insert_columns ++ py ")"
               ++ nl ++ spaces 12 ++ py "VALUES (" ++ join (py ", ") placeholders ++ py ")"
               ++ nl ++ spaces 12 ++ py "RETURNING id"
               ++ nl ++ spaces 8 in
          Return (query, insert_values)
      end
  end.

(** [int(s)] for a [str]: optional white space and sign around decimal
    digits, single underscores between digits. *)
Fixpoint digits_value (acc : Z) (after_digit : bool) (s : pystr) : option Z :=
  match s with
  | [] => if after_digit then Some acc else None
  | c :: r =>
      if is_digit c then digits_value (10 * acc + Z.of_N (c - 48)) true r
      else if (c =? chr "_")%N && after_digit then
        match r with
        | d :: _ => if is_digit d then digits_value acc false r else None
        | [] => None
        end
      else None
  end.

Definition py_int (s : pystr) : option Z :=
  match strip s with
  | c :: r =>
      if (c =? chr "-")%N then Z.opp <$> digits_value 0 false r
      else if (c =? chr "+")%N then digits_value 0 false r
      else digits_value 0 false (c :: r)
  | [] => None
  end.

(** [s.split('.')[-1]] *)
Definition last_part (s : pystr) : pystr := default [] (last (split_chr (chr ".") s)).

(** *** Modules *)

Definition get_all_modules : M world (list dict) :=
  get_cursor (
    _ <- execute (py "SELECT * FROM modules ORDER BY name") [] ;;
    fetchall).

Definition get_module_by_id (module_id : value) : M world (option dict) :=
  get_cursor (
    _ <- execute (py "SELECT * FROM modules WHERE id = %s") [module_id] ;;
    fetchone).

Definition get_module_by_drive_folder (drive_folder_id : pystr) : M world (option dict) :=
  get_cursor (
    _ <- execute (py "SELECT * FROM modules WHERE drive_folder_id = %s")
           [VStr drive_folder_id] ;;
    fetchone).

Definition special_codes : list (pystr * pystr) :=
  [ (py "correcciones", py "CORR");
    (py "dibujos", py "DRAW");
    (py "lives", py "LIVE");
    (py "evaluacion", py "EVAL");
    (py "autoevaluacion", py "AUTO");
    (py "examen", py "EXAM");
    (py "tarea", py "TASK") ].

Fixpoint special_code (name_lower : pystr) (codes : list (pystr * pystr)) : option pystr :=
  match codes with
  | [] => None
  | (keyword, code) :: codes' =>
      if contains keyword name_lower then Some code
      else special_code name_lower codes'
  end.

Definition _generate_module_code (name : pystr) : pystr :=
  match re_search "[Mm]odulo?\s*(\d+)" false name with
  | Some module_match =>
      let module_num := zfill 2 (group 1 module_match) in
      py "MOD" ++ module_num
  | None =>
      let name_lower := lower name in
      match special_code name_lower special_codes with
      | Some code => code
      | None =>
          let clean_name := re_sub "[^A-Za-z]" false (fun _ => []) name in
          match upper (slice_to 4 clean_name) with
          | [] => py "MOD0"
          | code => code
          end
      end
  end.

Definition create_module (name drive_folder_id : pystr) (description : option pystr)
    : M world value :=
  let code := _generate_module_code name in
  next_order <- get_cursor (
    _ <- execute (py "SELECT COALESCE(MAX(order_index), 0) + 1 as next_order FROM modules") [] ;;
    result <- fetchone ;;
    subscript result (py "next_order")) ;;
  let module_data :=
    [ (py "name", VStr name);
      (py "description", of_opt_str description);
      (py "code", VStr code);
      (py "drive_folder_id", VStr drive_folder_id);
      (py "order_index", next_order);
      (py "drive_folder_url",
       VStr (py "https://drive.google.com/drive/folders/" ++ drive_folder_id)) ] in
  qv <- lift (_build_insert_query (py "modules") module_data) ;;
  get_cursor (
    _ <- execute qv.1 qv.2 ;;
    result <- fetchone ;;
    subscript result (py "id")).

(** *** Students *)

Definition get_all_students : M world (list dict) :=
  get_cursor (
    _ <- execute (py "SELECT * FROM students ORDER BY full_name") [] ;;
    fetchall).

Definition get_student_by_email (email : pystr) : M world (option dict) :=
  get_cursor (
    _ <- execute (py "SELECT * FROM students WHERE email = %s") [VStr email] ;;
    fetchone).

Definition student_conflict_clause : pystr :=
  nl ++ spaces 16 ++ py "ON CONFLICT (email) DO UPDATE "
     ++ nl ++ spaces 16 ++ py "SET full_name = EXCLUDED.full_name, updated_at = NOW()"
     ++ nl ++ spaces 16 ++ py "RETURNING id"
     ++ nl ++ spaces 12.

(** [email and "@" in email] for an argument that is a [str] or [None]. *)
Definition usable_email (email : option pystr) : bool :=
  match email with
  | Some e => negb (str_eqb e []) && contains (py "@") e
  | None => false
  end.

(** The statement and parameters of [create_student]. *)
Definition student_query (name email : option pystr) : result (pystr * list value) :=
  let student_data :=
    [ (py "full_name", of_opt_str name); (py "email", of_opt_str email) ] in
  let student_columns := columns_of (py "students") in
  if bool_decide (py "email" ∈ student_columns) && usable_email email
  then bind (_build_insert_query (py "students") student_data) (fun qv =>
         Return (replace (py "RETURNING id") student_conflict_clause qv.1, qv.2))
  else _build_insert_query (py "students") student_data.

Definition create_student (name email : option pystr) : M world value :=
  qv <- lift (student_query name email) ;;
  get_cursor (
    _ <- execute qv.1 qv.2 ;;
    result <- fetchone ;;
    subscript result (py "id")).

(** *** Submissions *)

Definition _parse_drive_timestamp (timestamp_str : option pystr) : value :=
  match timestamp_str with
  | None | Some [] => VNone
  | Some s =>
      match parse_date s with
      | Some t => VTime t
      | None => VNone
      end
  end.

Definition submission_conflict_clause : pystr :=
  nl ++ spaces 16 ++ py "ON CONFLICT (file_id) DO UPDATE "
     ++ nl ++ spaces 16 ++ py "SET filename = EXCLUDED.filename,"
     ++ nl ++ spaces 20 ++ py "size_bytes = EXCLUDED.size_bytes,"
     ++ nl ++ spaces 20 ++ py "modified_time = EXCLUDED.modified_time,"
     ++ nl ++ spaces 20 ++ py "detected_at = NOW()"
     ++ nl ++ spaces 16 ++ py "RETURNING id"
     ++ nl ++ spaces 12.

(** [str(x)] inside an f-string, for a field that is a [str] or absent. *)
Definition fmt_opt (o : option pystr) : pystr := default (py "None") o.

Definition file_extension_of (filename : pystr) : pystr :=
  if contains (py ".") filename then
    match lower (last_part filename) with
    | [] => py "unknown"
    | extension => slice_to 50 extension
    end
  else py "noext".

(** The mapping from the file metadata to candidate columns, as
    [create_submission] fills it; [now] is the reading of the clock
    taken for [detected_at]. *)
Definition drive_mapping_of (file_data : file_data) (size_bytes now : Z) : dict :=
  let m :=
    [ (py "file_id", of_opt_str (fd_id file_data));
      (py "filename", of_opt_str (fd_name file_data));
      (py "mime_type", of_opt_str (mimeType file_data));
      (py "size_bytes", VInt size_bytes);
      (py "drive_url",
       VStr (py "https://drive.google.com/file/d/" ++ fmt_opt (fd_id file_data) ++ py "/view"));
      (py "created_time", _parse_drive_timestamp (createdTime file_data));
      (py "modified_time", _parse_drive_timestamp (modifiedTime file_data));
      (py "detected_at", VTime now) ] in
  let m :=
    match lastModifyingUser file_data with
    | Some user => dict_set (py "uploaded_by_email") (of_opt_str (emailAddress user)) m
    | None => m
    end in
  let m :=
    match owners file_data with
    | Some (owner :: _) => dict_set (py "owner_email") (of_opt_str (emailAddress owner)) m
    | _ => m
    end in
  let m :=
    if bool_decide (size_bytes = 0%Z) then m
    else dict_set (py "size_mb") (VMb size_bytes) m in
  match fd_name file_data with
  | Some (c :: filename') =>
      dict_set (py "file_extension") (VStr (file_extension_of (c :: filename'))) m
  | _ => m
  end.

(** [int(file_data.get('size', 0))] *)
Definition size_of (file_data : file_data) : result Z :=
  match size file_data with
  | None => Return 0%Z
  | Some s =>
      match py_int s with
      | Some n => Return n
      | None =>
          Raise (ValueError (py "invalid literal for int() with base 10: '" ++ s ++ py "'"))
      end
  end.

(** The mapping handed to the builder: the two references, then the
    entries of the drive mapping whose key is a column of the table. *)
Definition submission_data_of (module_id student_id : value) (drive_mapping : dict) : dict :=
  let submission_columns := columns_of (py "submissions") in
  fold_left (fun submission_data kv =>
               if bool_decide (kv.1 ∈ submission_columns)
               then dict_set kv.1 kv.2 submission_data
               else submission_data)
    drive_mapping
    [ (py "module_id", module_id); (py "student_id", student_id) ].

(** The statement and parameters of [create_submission]. *)
Definition submission_query (module_id student_id : value) (file_data : file_data)
    (size_bytes now : Z) : result (pystr * list value) :=
  let submission_data :=
    submission_data_of module_id student_id (drive_mapping_of file_data size_bytes now) in
  bind (_build_insert_query (py "submissions") submission_data) (fun qv =>
    if bool_decide (py "file_id" ∈ columns_of (py "submissions"))
    then Return (replace (py "RETURNING id") submission_conflict_clause qv.1, qv.2)
    else Return qv).

Definition create_submission (module_id student_id : value) (file_data : file_data)
    : M world value :=
  size_bytes <- lift (size_of file_data) ;;
  now <- datetime_now ;;
  qv <- lift (submission_query module_id student_id file_data size_bytes now) ;;
  get_cursor (
    _ <- execute qv.1 qv.2 ;;
    result <- fetchone ;;
    subscript result (py "id")).

(** *** Sync logs *)

Definition create_sync_log (sync_type : pystr) : M world value :=
  now <- datetime_now ;;
  let sync_data :=
    [ (py "sync_type", VStr sync_type);
      (py "status", VStr (py "running"));
      (py "started_at", VTime now) ] in
  qv <- lift (_build_insert_query (py "sync_logs") sync_data) ;;
  get_cursor (
    _ <- execute qv.1 qv.2 ;;
    result <- fetchone ;;
    subscript result (py "id")).

(** One turn of the loop of [update_sync_log]. *)
Definition update_step (sync_columns : list pystr)
    (acc : list pystr * list value) (item : pystr * value) : list pystr * list value :=
  let '(update_fields, values) := acc in
  let '(field, value) := item in
  if bool_decide (field ∈ sync_columns) && is_not_none value
  then (update_fields ++ [field ++ py " = %s"], values ++ [value])
  else acc.

Definition closes_run (status : pystr) : bool :=
  bool_decide (status ∈ [py "completed"; py "failed"]).

(** The dict [optional_fields]; [completed_at] is its entry of that
    name. *)
Definition optional_fields (kwargs : dict) (completed_at : value) : dict :=
  [ (py "files_processed", dict_get (py "files_processed") kwargs);
    (py "errors", dict_get (py "errors") kwargs);
    (py "error_details", dict_get (py "error_details") kwargs);
    (py "completed_at", completed_at) ].

(** The statement and parameters of [update_sync_log]. *)
Definition sync_update_query (sync_id : value) (status : pystr) (kwargs : dict)
    (completed_at : value) : pystr * list value :=
  let sync_columns := columns_of (py "sync_logs") in
  let '(update_fields, values) :=
    fold_left (update_step sync_columns) (optional_fields kwargs completed_at)
      ([py "status = %s"], [VStr status]) in
  let values := values ++ [sync_id] in
  let query :=
    nl ++ spaces 12 ++ py "UPDATE sync_logs "
       ++ nl ++ spaces 12 ++ py "SET " ++ join (py ", ") update_fields
       ++ nl ++ spaces 12 ++ py "WHERE id = %s"
       ++ nl ++ spaces 8 in
  (query, values).

Definition update_sync_log (sync_id : value) (status : pystr) (kwargs : dict)
    : M world unit :=
  completed_at <-
    (if closes_run status
     then (now <- datetime_now ;; ret (VTime now))
     else ret VNone) ;;
  let qv := sync_update_query sync_id status kwargs completed_at in
  get_cursor (execute qv.1 qv.2).

(** *** Schema discovery, statistics and the connection test *)

(** The text in a cell of a catalogue row. *)
Definition text_of (v : value) : pystr :=
  match v with
  | VStr s => s
  | _ => []
  end.

Definition column_info_of (col : dict) : column_info :=
  ColumnInfo (text_of (dict_get (py "column_name") col))
    (text_of (dict_get (py "data_type") col))
    (text_of (dict_get (py "is_nullable") col))
    (dict_get (py "column_default") col).

(** [{col['column_name']: col for col in columns}] *)
Fixpoint columns_dict (acc : list (pystr * column_info)) (columns : list dict)
    : list (pystr * column_info) :=
  match columns with
  | [] => acc
  | col :: columns' =>
      let name := text_of (dict_get (py "column_name") col) in
      let info := column_info_of col in
      columns_dict
        (if bool_decide (name ∈ acc.*1)
         then map (fun kv => if str_eqb kv.1 name then (name, info) else kv) acc
         else acc ++ [(name, info)])
        columns'
  end.

Definition tables_query : pystr :=
  nl ++ spaces 20 ++ py "SELECT table_name "
     ++ nl ++ spaces 20 ++ py "FROM information_schema.tables "
     ++ nl ++ spaces 20 ++ py "WHERE table_schema = 'public' "
     ++ nl ++ spaces 20 ++ py "AND table_type = 'BASE TABLE'"
     ++ nl ++ spaces 20 ++ py "ORDER BY table_name;"
     ++ nl ++ spaces 16.

Definition columns_query : pystr :=
  nl ++ spaces 24 ++ py "SELECT column_name, data_type, is_nullable, column_default"
     ++ nl ++ spaces 24 ++ py "FROM information_schema.columns "
     ++ nl ++ spaces 24 ++ py "WHERE table_name = %s "
     ++ nl ++ spaces 24 ++ py "ORDER BY ordinal_position;"
     ++ nl ++ spaces 20.

(** One turn of the loop of [_discover_schema] over the tables. *)
Definition discover_table (schemas : gmap pystr table_schema) (table_name : pystr)
    : M cursor (gmap pystr table_schema) :=
  _ <- execute columns_query [VStr table_name] ;;
  columns <- fetchall ;;
  ret (<[table_name :=
           TableSchema (columns_dict [] columns)
             (map (fun col => text_of (dict_get (py "column_name") col)) columns)]> schemas).

Fixpoint discover_tables (schemas : gmap pystr table_schema) (tables : list pystr)
    : M cursor (gmap pystr table_schema) :=
  match tables with
  | [] => ret schemas
  | table_name :: tables' =>
      schemas' <- discover_table schemas table_name ;;
      discover_tables schemas' tables'
  end.

(** [_discover_schema] fills [self.table_schemas], which is the result
    here. Its handler logs and raises again; [__init__] is its only
    caller and lets the error through, so the entries written before an
    error are never read. *)
Definition _discover_schema : M world (gmap pystr table_schema) :=
  get_cursor (
    _ <- execute tables_query [] ;;
    rows <- fetchall ;;
    let tables := map (fun row => text_of (dict_get (py "table_name") row)) rows in
    discover_tables table_schemas tables).

(** [cur.fetchone()['count']] *)
Definition fetch_count : M cursor value :=
  result <- fetchone ;;
  subscript result (py "count").

Definition recent_query (counted time_col days : pystr) : pystr :=
  nl ++ spaces 24 ++ py "SELECT COUNT(" ++ counted ++ py ") as count "
     ++ nl ++ spaces 24 ++ py "FROM submissions "
     ++ nl ++ spaces 24 ++ py "WHERE " ++ time_col ++ py " > NOW() - INTERVAL '"
     ++ days ++ py " days'"
     ++ nl ++ spaces 20.

Definition get_statistics : M world dict :=
  get_cursor (
    let stats : dict := [] in
    stats <-
      (if bool_decide (is_Some (table_schemas !! py "students")) then
         _ <- execute (py "SELECT COUNT(*) as count FROM students") [] ;;
         count <- fetch_count ;;
         ret (dict_set (py "total_students") count stats)
       else ret stats) ;;
    stats <-
      (if bool_decide (is_Some (table_schemas !! py "modules")) then
         _ <- execute (py "SELECT COUNT(*) as count FROM modules") [] ;;
         count <- fetch_count ;;
         ret (dict_set (py "total_modules") count stats)
       else ret stats) ;;
    stats <-
      (if bool_decide (is_Some (table_schemas !! py "submissions")) then
         _ <- execute (py "SELECT COUNT(*) as count FROM submissions") [] ;;
         count <- fetch_count ;;
         let stats := dict_set (py "total_submissions") count stats in
         let submission_cols := columns_of (py "submissions") in
         let time_columns :=
           filter (fun col => col ∈ submission_cols)
             [py "detected_at"; py "modified_time"; py "created_time"] in
         match time_columns with
         | time_col :: _ =>
             _ <- execute (recent_query (py "*") time_col (py "7")) [] ;;
             count <- fetch_count ;;
             let stats := dict_set (py "submissions_last_week") count stats in
             _ <- execute (recent_query (py "DISTINCT student_id") time_col (py "30")) [] ;;
             count <- fetch_count ;;
             ret (dict_set (py "active_students_last_month") count stats)
         | [] => ret stats
         end
       else ret stats) ;;
    ret stats).

Definition test_connection : M world bool :=
  try_except
    (get_cursor (
       _ <- execute (py "SELECT 1") [] ;;
       ret true))
    (fun e => ret false).

End Methods.

(** The fields of a mapping that the builder keeps for a column list:
    known column and value not null, in the order of the mapping. *)
Definition surviving (available_columns : list pystr) (data : dict) : dict :=
  filter (fun item => bool_decide (item.1 ∈ available_columns) && is_not_none item.2) data.

(** The text of an insert statement for a column list, one placeholder
    per column. *)
Definition insert_statement (table_name : pystr) (cols : list pystr) : pystr :=
  nl ++ spaces 12 ++ py "INSERT INTO " ++ table_name ++ py " ("
     ++ join (py ", ") cols ++ py ")"
     ++ nl ++ spaces 12 ++ py "VALUES (" ++ join (py ", ") (map (fun _ => py "%s") cols) ++ py ")"
     ++ nl ++ spaces 12 ++ py "RETURNING id"
     ++ nl ++ spaces 8.

End Dao.


(** ** Scan orchestrator ([AdaptiveModuleScanner]) *)

Module Orchestrator.

Import Store.

(** A folder as the storage client lists it. *)
Record folder : Type := Folder {
  folder_id : pystr;
  folder_name : pystr
}.

(** The collaborators of the scanner: the DAO ([self.dao]), the storage
    client ([self.drive_client]) and the clock, over the state [W] of the
    world they act on. *)
Record services (W : Type) : Type := Services {
  create_sync_log : pystr -> M W value;
  update_sync_log : value -> pystr -> dict -> M W unit;
  get_all_modules : M W (list dict);
  get_module_by_drive_folder : value -> M W (option dict);
  create_module : pystr -> pystr -> option pystr -> M W value;
  create_student : option pystr -> option pystr -> M W value;
  get_student_by_email : pystr -> M W (option dict);
  create_submission : value -> value -> file_data -> M W value;
  list_folders_in_root : M W (list folder);
  list_files_in_folder : value -> list pystr -> M W (list file_data);
  now : M W Z
}.
Arguments create_sync_log {W}.
Arguments update_sync_log {W}.
Arguments get_all_modules {W}.
Arguments get_module_by_drive_folder {W}.
Arguments create_module {W}.
Arguments create_student {W}.
Arguments get_student_by_email {W}.
Arguments create_submission {W}.
Arguments list_folders_in_root {W}.
Arguments list_files_in_folder {W}.
Arguments now {W}.

Definition valid_mime_types : list pystr :=
  [ py "image/jpeg"; py "image/jpg"; py "image/png"; py "image/gif"; py "image/bmp";
    py "application/pdf";
    py "application/vnd.openxmlformats-officedocument.wordprocessingml.document";
    py "application/msword";
    py "text/plain" ].

(** [str(v)] in an f-string. The text of a timestamp, of a float and of
    a serialised document is not modelled; each prints as a tag around
    its data. *)
Definition str_of_Z (n : Z) : pystr := py (NilEmpty.string_of_int (Z.to_int n)).

Definition str_value (v : value) : pystr :=
  match v with
  | VNone => py "None"
  | VStr s => s
  | VInt n => str_of_Z n
  | VTime t => py "<datetime " ++ str_of_Z t ++ py ">"
  | VMb b => py "<mb " ++ str_of_Z b ++ py ">"
  | VDumpsErrors errors => py "<json " ++ join (py "|") errors ++ py ">"
  | VDumpsFailure error t => py "<json " ++ error ++ py "|" ++ str_of_Z t ++ py ">"
  end.

(** [d[key]] *)
Definition dict_subscript {S} (d : dict) (key : pystr) : M S value :=
  if dict_has key d then ret (dict_get key d) else raise (KeyError key).

(** [d.get(key, 'Unknown')] as it prints. *)
Definition get_or_unknown (d : dict) (key : pystr) : pystr :=
  if dict_has key d then str_value (dict_get key d) else py "Unknown".

(** The truth value of a row returned by [fetchone]. *)
Definition row_truthy (r : option dict) : bool :=
  match r with
  | Some (_ :: _) => true
  | _ => false
  end.

(** The truth value of [a or b] picks [a] unless it is falsy. *)
Definition value_truthy (v : value) : bool :=
  match v with
  | VNone | VStr [] | VDumpsErrors [] => false
  | VInt n | VTime n | VMb n => negb (bool_decide (n = 0%Z))
  | _ => true
  end.

(** The outcome of a computation as a value: [inl e] when it raised. *)
Definition attempt {S A} (c : M S A) : M S (exn + A) :=
  fun s =>
    match c s with
    | (Return a, s') => (Return (inr a), s')
    | (Raise e, s') => (Return (inl e), s')
    end.

(** [for x in l: acc = body x acc] *)
Fixpoint for_each {S A B} (l : list A) (body : A -> B -> M S B) (acc : B) : M S B :=
  match l with
  | [] => ret acc
  | x :: l' => acc' <- body x acc ;; for_each l' body acc'
  end.

(** *** [sync_modules_to_db] *)

Record sync_results : Type := SyncResults {
  modules_processed : nat;
  modules_created : nat;
  modules_existing : nat;
  sync_errors : list pystr
}.

Inductive sync_outcome : Type :=
  | SyncOk (results : sync_results)
  | SyncError (error : pystr).

Definition sync_add_error (msg : pystr) (r : sync_results) : sync_results :=
  SyncResults (modules_processed r) (modules_created r) (modules_existing r)
    (sync_errors r ++ [msg]).

Section Scan.

Context {W : Type} (sv : services W).

Definition sync_folder (module_folder : folder) (results : sync_results)
    : M W sync_results :=
  let module_name := folder_name module_folder in
  let drive_folder_id := folder_id module_folder in
  try_except
    (existing_module <- get_module_by_drive_folder sv (VStr drive_folder_id) ;;
     results <-
       (if row_truthy existing_module then
          _ <- dict_subscript (default [] existing_module) (py "id") ;;
          ret (SyncResults (modules_processed results) (modules_created results)
                 (S (modules_existing results)) (sync_errors results))
        else
          r <- attempt (create_module sv module_name drive_folder_id
                          (Some (py "Módulo desde Google Drive: " ++ module_name))) ;;
          match r with
          | inr _ =>
              ret (SyncResults (modules_processed results) (S (modules_created results))
                     (modules_existing results) (sync_errors results))
          | inl e =>
              ret (sync_add_error
                     (py "Error creando " ++ module_name ++ py ": " ++ str_exn e) results)
          end) ;;
     ret (SyncResults (S (modules_processed results)) (modules_created results)
            (modules_existing results) (sync_errors results)))
    (fun e =>
       ret (sync_add_error
              (py "Error procesando " ++ module_name ++ py ": " ++ str_exn e) results)).

Definition sync_modules_to_db : M W sync_outcome :=
  try_except
    (drive_modules <- list_folders_in_root sv ;;
     results <- for_each drive_modules sync_folder (SyncResults 0 0 0 []) ;;
     ret (SyncOk results))
    (fun e => ret (SyncError (py "Error en sincronización: " ++ str_exn e))).

(** *** [scan_module_smart] *)

Record module_results : Type := ModuleResults {
  module_id : value;
  module_name : value;
  drive_folder_id : value;
  files_found : nat;
  files_processed : nat;
  students_created : nat;
  submissions_created : nat;
  submissions_updated : nat;
  errors : list pystr
}.

Inductive module_outcome : Type :=
  | ModuleOk (results : module_results)
  | ModuleError (error : pystr).

Definition add_error (msg : pystr) (r : module_results) : module_results :=
  ModuleResults (module_id r) (module_name r) (drive_folder_id r) (files_found r)
    (files_processed r) (students_created r) (submissions_created r)
    (submissions_updated r) (errors r ++ [msg]).

Definition count_processed (r : module_results) : module_results :=
  ModuleResults (module_id r) (module_name r) (drive_folder_id r) (files_found r)
    (S (files_processed r)) (students_created r) (submissions_created r)
    (submissions_updated r) (errors r).

Definition count_student (r : module_results) : module_results :=
  ModuleResults (module_id r) (module_name r) (drive_folder_id r) (files_found r)
    (files_processed r) (S (students_created r)) (submissions_created r)
    (submissions_updated r) (errors r).

Definition count_submission (r : module_results) : module_results :=
  ModuleResults (module_id r) (module_name r) (drive_folder_id r) (files_found r)
    (files_processed r) (students_created r) (S (submissions_created r))
    (submissions_updated r) (errors r).

(** [file_data['name']] *)
Definition file_name (file_data : file_data) : M W pystr :=
  match fd_name file_data with
  | Some n => ret n
  | None => raise (KeyError (py "name"))
  end.

(** One turn of the loop over the files of a module. *)
Definition process_file (module_id : value) (file_data : file_data)
    (results : module_results) : M W module_results :=
  try_except
    (name <- file_name file_data ;;
     match identify_student_from_file file_data with
     | None => ret results
     | Some (student_name, student_email) =>
         r <- attempt (
                student_id <- create_student sv (Some student_name) (Some student_email) ;;
                found <- get_student_by_email sv student_email ;;
                ret (student_id, row_truthy found)) ;;
         match r with
         | inl e =>
             ret (add_error
                    (py "Error estudiante " ++ student_name ++ py ": " ++ str_exn e) results)
         | inr (student_id, known) =>
             let results := if known then results else count_student results in
             r <- attempt (create_submission sv module_id student_id file_data) ;;
             match r with
             | inl e =>
                 ret (add_error
                        (py "Error submission " ++ name ++ py ": " ++ str_exn e) results)
             | inr _ => ret (count_processed (count_submission results))
             end
         end
     end)
    (fun e =>
       ret (count_processed
              (add_error
                 (py "Error archivo " ++ default (py "Unknown") (fd_name file_data)
                    ++ py ": " ++ str_exn e) results))).

(** The string a value must be to be passed as a module name. *)
Definition as_name (v : value) : M W pystr :=
  match v with
  | VStr s => ret s
  | _ => raise (TypeError (py "expected string or bytes-like object"))
  end.

Definition scan_module_smart (module_data : dict) : M W module_outcome :=
  try_except
    (located <-
       (if dict_has (py "drive_folder_id") module_data
           || dict_has (py "folder_id") module_data then
          module_name <- dict_subscript module_data (py "name") ;;
          let drive_folder_id :=
            if value_truthy (dict_get (py "drive_folder_id") module_data)
            then dict_get (py "drive_folder_id") module_data
            else dict_get (py "folder_id") module_data in
          module_id <- dict_subscript module_data (py "id") ;;
          ret (module_name, drive_folder_id, module_id)
        else
          module_name <- dict_subscript module_data (py "name") ;;
          drive_folder_id <- dict_subscript module_data (py "id") ;;
          existing_module <- get_module_by_drive_folder sv drive_folder_id ;;
          module_id <-
            (if row_truthy existing_module
             then dict_subscript (default [] existing_module) (py "id")
             else
               name <- as_name module_name ;;
               folder <- as_name drive_folder_id ;;
               create_module sv name folder
                 (Some (py "Auto-creado durante escaneo: " ++ name))) ;;
          ret (module_name, drive_folder_id, module_id)) ;;
     let '(module_name, drive_folder_id, module_id) := located in
     files <- list_files_in_folder sv drive_folder_id valid_mime_types ;;
     let results :=
       ModuleResults module_id module_name drive_folder_id (length files) 0 0 0 0 [] in
     results <- for_each files (process_file module_id) results ;;
     ret (ModuleOk results))
    (fun e =>
       ret (ModuleError
              (py "Error escaneando módulo " ++ get_or_unknown module_data (py "name")
                 ++ py ": " ++ str_exn e))).

(** *** [full_adaptive_scan] *)

Record module_detail : Type := ModuleDetail {
  md_name : value;
  md_files : nat;
  md_submissions : nat;
  md_students : nat;
  md_errors : nat
}.

Record full_results : Type := FullResults {
  sync_id : value;
  fr_sync_results : sync_outcome;
  total_modules : nat;
  modules_scanned : nat;
  total_files : nat;
  total_submissions : nat;
  total_students : nat;
  fr_errors : list pystr;
  module_details : list module_detail
}.

Inductive scan_outcome : Type :=
  | ScanResults (results : full_results)
  | ScanError (error : pystr).

Definition fr_add_error (msg : pystr) (r : full_results) : full_results :=
  FullResults (sync_id r) (fr_sync_results r) (total_modules r) (modules_scanned r)
    (total_files r) (total_submissions r) (total_students r) (fr_errors r ++ [msg])
    (module_details r).

Definition fr_add_module (s : module_results) (r : full_results) : full_results :=
  FullResults (sync_id r) (fr_sync_results r) (total_modules r) (S (modules_scanned r))
    (total_files r + files_found s) (total_submissions r + submissions_created s)
    (total_students r + students_created s) (fr_errors r)
    (module_details r ++
       [ModuleDetail (module_name s) (files_found s) (submissions_created s)
          (students_created s) (length (errors s))]).

(** One turn of the loop over the modules. *)
Definition process_module (module : dict) (full : full_results) : M W full_results :=
  try_except
    (_ <- dict_subscript module (py "name") ;;
     scan_result <- scan_module_smart module ;;
     match scan_result with
     | ModuleOk s => ret (fr_add_module s full)
     | ModuleError error => ret (fr_add_error error full)
     end)
    (fun e =>
       ret (fr_add_error
              (py "Error módulo " ++ get_or_unknown module (py "name")
                 ++ py ": " ++ str_exn e) full)).

(** [sync_results.get('errors', [])] *)
Definition errors_of_sync (s : sync_outcome) : list pystr :=
  match s with
  | SyncOk r => sync_errors r
  | SyncError _ => []
  end.

(** The list [full_results['errors']] is the list object
    [sync_results['errors']] when that key exists, so what the loop
    appends shows in both. *)
Definition share_errors (s : sync_outcome) (errs : list pystr) : sync_outcome :=
  match s with
  | SyncOk r =>
      SyncOk (SyncResults (modules_processed r) (modules_created r)
                (modules_existing r) errs)
  | SyncError e => SyncError e
  end.

Definition shared (r : full_results) : full_results :=
  FullResults (sync_id r) (share_errors (fr_sync_results r) (fr_errors r))
    (total_modules r) (modules_scanned r) (total_files r) (total_submissions r)
    (total_students r) (fr_errors r) (module_details r).

Definition final_status (errs : list pystr) : pystr :=
  match errs with
  | [] => py "completed"
  | _ :: _ => py "completed_with_errors"
  end.

Definition final_kwargs (full : full_results) : dict :=
  [ (py "files_processed", VInt (Z.of_nat (total_files full)));
    (py "errors", VInt (Z.of_nat (length (fr_errors full))));
    (py "error_details",
     match fr_errors full with
     | [] => VNone
     | errs => VDumpsErrors (take 3 errs)
     end) ].

(** The body of the [try] after the sync log is created. *)
Definition run (sync_id : value) : M W scan_outcome :=
  sync_results <- sync_modules_to_db ;;
  modules <- get_all_modules sv ;;
  let full :=
    FullResults sync_id sync_results (length modules) 0 0 0 0
      (errors_of_sync sync_results) [] in
  full <- for_each modules process_module full ;;
  let status := final_status (fr_errors full) in
  _ <- update_sync_log sv sync_id status (final_kwargs full) ;;
  ret (ScanResults (shared full)).

(** The [except] clause; [sync_id] is [Some] when the local variable is
    bound. *)
Definition failed (sync_id : option value) (e : exn) : M W scan_outcome :=
  let error_msg := py "Error en escaneo completo: " ++ str_exn e in
  _ <- match sync_id with
       | Some id =>
           t <- now sv ;;
           update_sync_log sv id (py "failed")
             [(py "error_details", VDumpsFailure error_msg t)]
       | None => ret tt
       end ;;
  ret (ScanError error_msg).

Definition full_adaptive_scan : M W scan_outcome :=
  created <- attempt (create_sync_log sv (py "full_adaptive_scan")) ;;
  match created with
  | inl e => failed None e
  | inr sync_id => try_except (run sync_id) (failed (Some sync_id))
  end.

End Scan.

(** The scanner on the DAO above and a storage client that answers
    [folders] and [files]. *)
Definition on_store (table_schemas : gmap pystr table_schema)
    (parse_date : pystr -> option Z)
    (folders : result (list folder)) (files : value -> result (list file_data))
    : services world :=
  Services world
    (Dao.create_sync_log table_schemas)
    (Dao.update_sync_log table_schemas)
    Dao.get_all_modules
    (fun id => match id with
               | VStr s => Dao.get_module_by_drive_folder s
               | _ => raise (TypeError (py "expected str"))
               end)
    (Dao.create_module table_schemas)
    (Dao.create_student table_schemas)
    Dao.get_student_by_email
    (Dao.create_submission table_schemas parse_date)
    (lift folders)
    (fun id _ => lift (files id))
    datetime_now.

End Orchestrator.


(** ** Cloud job ([AutomatedReportJob] of main_job.py)

    The job opens a run in the sync log, has the report built and
    mailed, and closes the run. The report generator and the mailer are
    collaborators of the job; its log lines are left out. *)

Module Job.

Import Store.

(** The names in the message of a call that leaves parameters without
    an argument: ['a'], ['a' and 'b'], ['a', 'b', and 'c']. *)
Definition missing_names (missing : list pystr) : pystr :=
  let quoted := map (fun p => py "'" ++ p ++ py "'") missing in
  match quoted with
  | [] => []
  | [a] => a
  | [a; b] => a ++ py " and " ++ b
  | _ => join (py ", ") (removelast quoted) ++ py ", and " ++ default [] (last quoted)
  end.

(** A call [f(k1=v1, ..., kn=vn)] of a method that takes the parameters
    [params] and [**kwargs]: the arguments are evaluated by then; every
    parameter takes the keyword of its name, and the call raises
    [TypeError] before the body runs when a parameter has none. *)
Definition keyword_call {A} (fname : pystr) (params : list pystr) (keywords : dict)
    (body : M world A) : M world A :=
  match filter (fun p => negb (dict_has p keywords)) params with
  | [] => body
  | missing =>
      raise (TypeError
               (fname ++ py "() missing " ++ Orchestrator.str_of_Z (Z.of_nat (length missing))
                  ++ py " required positional argument"
                  ++ (if bool_decide (length missing = 1) then [] else py "s")
                  ++ py ": " ++ missing_names missing))
  end.

(** The keywords of a call that go to [**kwargs]. *)
Definition other_keywords (params : list pystr) (keywords : dict) : dict :=
  filter (fun kv => negb (bool_decide (kv.1 ∈ params))) keywords.

Section Methods.

Variable table_schemas : gmap pystr table_schema.

(** [self._generate_excel_report()] and [self._send_email_report(path)]. *)
Variable _generate_excel_report : M world pystr.
Variable _send_email_report : pystr -> M world bool.

Definition _create_sync_log : M world value :=
  try_except
    (Dao.create_sync_log table_schemas (py "automated_cloud_report"))
    (fun e => ret VNone).

(** A call of [adaptive_dao.update_sync_log] with the keyword arguments
    [keywords], of which [status] is the one named [status]. *)
Definition call_update_sync_log (status : pystr) (keywords : dict) : M world unit :=
  keyword_call (py "AdaptiveDatabaseDAO.update_sync_log") [py "sync_id"; py "status"] keywords
    (Dao.update_sync_log table_schemas (dict_get (py "sync_id") keywords) status
       (other_keywords [py "sync_id"; py "status"] keywords)).

Definition _update_sync_log_success (sync_log_id : value) (excel_file_path : pystr)
    : M world unit :=
  if negb (Orchestrator.value_truthy sync_log_id) then ret tt
  else
    try_except
      (now <- datetime_now ;;
       call_update_sync_log (py "completed")
         [ (py "sync_log_id", sync_log_id);
           (py "status", VStr (py "completed"));
           (py "files_processed", VInt 1);
           (py "completed_at", VTime now) ])
      (fun e => ret tt).

Definition _update_sync_log_failure (sync_log_id : value) (error_message : pystr)
    : M world unit :=
  if negb (Orchestrator.value_truthy sync_log_id) then ret tt
  else
    try_except
      (now <- datetime_now ;;
       call_update_sync_log (py "failed")
         [ (py "sync_log_id", sync_log_id);
           (py "status", VStr (py "failed"));
           (py "error_details", VStr error_message);
           (py "completed_at", VTime now) ])
      (fun e => ret tt).

(** The steps of [run_full_report_cycle] after the run is opened. *)
Definition report_steps (sync_log_id : value) : M world bool :=
  excel_file_path <- _generate_excel_report ;;
  email_sent <- _send_email_report excel_file_path ;;
  if email_sent : bool then
    _ <- _update_sync_log_success sync_log_id excel_file_path ;;
    ret true
  else
    _ <- _update_sync_log_failure sync_log_id (py "Error enviando email") ;;
    ret false.

(** The handler of [run_full_report_cycle], with the value that
    [sync_log_id] has when the exception arrives. *)
Definition report_failed (sync_log_id : value) (e : exn) : M world bool :=
  let error_msg := py "Error en ciclo de reporte: " ++ str_exn e in
  _ <- (if Orchestrator.value_truthy sync_log_id
        then _update_sync_log_failure sync_log_id error_msg
        else ret tt) ;;
  ret false.

Definition run_full_report_cycle : M world bool :=
  fun w =>
    match _create_sync_log w with
    | (Raise e, w1) => report_failed VNone e w1
    | (Return sync_log_id, w1) =>
        try_except (report_steps sync_log_id) (report_failed sync_log_id) w1
    end.

End Methods.

End Job.

(** ** Vocabulary of the properties *)

Import Store.

(** The metadata of a file gives no email: there is no last modifying
    user with an email that contains "@", and no first owner with one. *)
Definition no_metadata_email (fd : file_data) : Prop :=
  match lastModifyingUser fd with
  | Some user => valid_email (default [] (emailAddress user)) = false
  | None => True
  end /\
  match owners fd with
  | Some (owner :: _) => valid_email (default [] (emailAddress owner)) = false
  | _ => True
  end.

(** A file with an email in its metadata and another in its name. *)
Definition both_emails : file_data :=
  FileData (Some (py "F1")) (Some (py "pedro@gmail.com tarea.pdf")) None None None None
    (Some (User (Some (py "ana@uni.edu")) (Some (py "Ana")))) None.

(** The events of transactional units: each opens a connection, then
    commits, or rolls back and logs the error, or fails to roll back,
    and closes the connection. *)
Inductive units : list event -> Prop :=
  | units_none : units []
  | units_commit (evs : list event) :
      units evs -> units (evs ++ [EvConnect; EvCommit; EvClose])
  | units_rollback (msg : pystr) (evs : list event) :
      units evs -> units (evs ++ [EvConnect; EvRollback; EvLogError msg; EvClose])
  | units_lost (evs : list event) :
      units evs -> units (evs ++ [EvConnect; EvClose]).

(** What a transactional unit whose body runs to [run] makes of the
    world [w], and what its caller gets. A refused connection raises
    with nothing opened. When the body returns and the commit goes
    through, the caller gets the result and the body's database is the
    committed one. When the body or the commit raises [e], the committed
    database stays; the caller gets [e], after the rollback and the log
    line, unless the rollback raises, and then it gets the error of the
    rollback. The connection that was opened is closed in each case. *)
Definition unit_outcome {A} (run : result A * Store.database) (w : world)
    (out : result A * world) : Prop :=
  match Store.connect_fault w (Store.attempts w) with
  | Some e =>
      out.1 = Raise e /\ Store.committed out.2 = Store.committed w /\
      trace out.2 = trace w
  | None =>
      match run, Store.commit_fault w (Store.attempts w) with
      | (Return a, db), None =>
          out.1 = Return a /\ Store.committed out.2 = db /\
          trace out.2 = trace w ++ [EvConnect; EvCommit; EvClose]
      | (Return _, _), Some e | (Raise e, _), _ =>
          Store.committed out.2 = Store.committed w /\
          match Store.rollback_fault w (Store.attempts w) with
          | None =>
              out.1 = Raise e /\
              trace out.2 =
                trace w ++ [EvConnect; EvRollback;
                            EvLogError (py "Database error: " ++ str_exn e); EvClose]
          | Some e' =>
              out.1 = Raise e' /\ trace out.2 = trace w ++ [EvConnect; EvClose]
          end
      end
  end.

(** One move of the world: a reading of the clock, or a transactional
    unit around some body. *)
Inductive move : world -> world -> Prop :=
  | move_clock (w : world) : move w (Store.datetime_now w).2
  | move_unit {A} (body : Z -> Store.database -> result A * Store.database) (w : world) :
      move w (Store.get_connection body w).2.

(** A computation whose store interactions all happen in transactional
    units: it takes the world where such moves take it. *)
Definition scoped {A} (c : Store.M world A) : Prop :=
  forall w, rtc move w (c w).2.

Import Orchestrator.

(** Sample stores and runs for the properties below. *)
Definition names (l : list string) : list pystr := map py l.

Definition empty_table (cols uniques : list string) : table :=
  Table (names cols) (names uniques) [] 1.

Definition modules_table : table :=
  empty_table ["id"; "name"; "description"; "code"; "drive_folder_id"; "order_index";
               "drive_folder_url"]%string ["id"; "drive_folder_id"]%string.

Definition students_table : table :=
  empty_table ["id"; "full_name"; "email"; "updated_at"]%string ["id"; "email"]%string.

Definition submissions_table : table :=
  empty_table ["id"; "module_id"; "student_id"; "file_id"; "filename"; "mime_type";
               "size_bytes"; "modified_time"; "detected_at"; "file_extension"]%string
    ["id"; "file_id"]%string.

Definition sync_logs_table : table :=
  empty_table ["id"; "sync_type"; "status"; "started_at"; "completed_at";
               "files_processed"; "errors"; "error_details"]%string ["id"]%string.

(** The schema that discovery reads off a list of tables. *)
Definition discovered (tables : list (pystr * table)) : gmap pystr table_schema :=
  list_to_map
    (map (fun kt =>
            (kt.1,
             TableSchema
               (map (fun c => (c, ColumnInfo c (py "text") (py "YES") VNone))
                  (t_columns kt.2))
               (t_columns kt.2))) tables).

Definition full_store : list (pystr * table) :=
  [ (py "modules", modules_table); (py "students", students_table);
    (py "submissions", submissions_table); (py "sync_logs", sync_logs_table) ].

(** A store in which the submissions table was never created. *)
Definition store_without_submissions : list (pystr * table) :=
  [ (py "modules", modules_table); (py "students", students_table);
    (py "sync_logs", sync_logs_table) ].

(** A world whose connections all open, commit and roll back. *)
Definition healthy (tables : list (pystr * table)) : world :=
  World (list_to_map tables) 1000 0 (fun _ => None) (fun _ => None) (fun _ => None) [].

(** A world whose first connection works and whose later ones are
    refused: the store goes away during the run. *)
Definition store_lost_after_first (tables : list (pystr * table)) : world :=
  World (list_to_map tables) 1000 0
    (fun n => match n with
              | 0%nat => None
              | 1%nat | 2%nat =>
                  Some (OperationalError (py "server closed the connection unexpectedly"))
              | _ => Some (OperationalError (py "could not connect to server"))
              end)
    (fun _ => None) (fun _ => None) [].

(** A world whose connections open and are lost before the commit: the
    commit raises, and so does the rollback on the closed connection. *)
Definition store_lost_at_commit (tables : list (pystr * table)) : world :=
  World (list_to_map tables) 1000 0 (fun _ => None)
    (fun _ => Some (OperationalError (py "server closed the connection unexpectedly")))
    (fun _ => Some (InterfaceError (py "connection already closed"))) [].

Definition no_dates (s : pystr) : option Z := None.

Definition one_folder : result (list folder) :=
  Return [Folder (py "FOLDER1") (py "Modulo 7")].

Definition file_of_edu : file_data :=
  FileData (Some (py "F123")) (Some (py "Modulo7_EduardoMoreno_01.jpg"))
    (Some (py "image/jpeg")) (Some (py "2048")) None None
    (Some (User (Some (py "edu@gmail.com")) (Some (py "Edu")))) None.

Definition one_file (id : value) : result (list file_data) := Return [file_of_edu].

(** The [status] cells of the sync logs of a world. *)
Definition sync_statuses (w : world) : list value :=
  match committed w !! py "sync_logs" with
  | Some t => map (fun r => cell r (py "status")) (t_rows t)
  | None => []
  end.

(** A store with one run in progress, and that run's row. *)
Definition running_world : world :=
  (Dao.create_sync_log (discovered full_store) (py "full_adaptive_scan")
     (healthy full_store)).2.

Definition running_logs : table :=
  default sync_logs_table (committed running_world !! py "sync_logs").

Definition running_row : row := default ∅ (t_rows running_logs !! 0%nat).

Definition sample_counters : dict :=
  [ (py "files_processed", VInt 5); (py "errors", VInt 2) ].

(** The full scan over a store that lacks the submissions table: the
    one file of the one folder fails at [create_submission]. *)
Definition scan_without_submissions : result scan_outcome * world :=
  full_adaptive_scan
    (on_store (discovered store_without_submissions) no_dates one_folder one_file)
    (healthy store_without_submissions).

(** The full scan over a store that is lost once the sync log is
    created. *)
Definition scan_store_lost : result scan_outcome * world :=
  full_adaptive_scan
    (on_store (discovered full_store) no_dates one_folder one_file)
    (store_lost_after_first full_store).

(** The body of that scan, after the creation of the sync log. *)
Definition body_store_lost : result scan_outcome :=
  let sv := on_store (discovered full_store) no_dates one_folder one_file in
  match create_sync_log sv (py "full_adaptive_scan") (store_lost_after_first full_store) with
  | (Return sync_id, w1) => (run sv sync_id w1).1
  | (Raise e, _) => Raise e
  end.

(** The email of a row when it is a string with an "@". *)
Definition valid_email_of (r : row) : option pystr :=
  match r !! py "email" with
  | Some (VStr e) => if contains (py "@") e then Some e else None
  | _ => None
  end.

(** The valid emails of the students table, one entry per row that has
    one. *)
Definition student_emails (db : database) : list pystr :=
  match db !! py "students" with
  | Some t => omap valid_email_of (t_rows t)
  | None => []
  end.

(** What the conflict clause of [create_student] parses to. *)
Definition student_conflict : option (pystr * list (pystr * sexpr)) :=
  Some (py "email",
        [ (py "full_name", EExcluded (py "full_name")); (py "updated_at", ENow) ]).

(** What the conflict clause of [create_submission] parses to. *)
Definition submission_conflict : option (pystr * list (pystr * sexpr)) :=
  Some (py "file_id",
        [ (py "filename", EExcluded (py "filename"));
          (py "size_bytes", EExcluded (py "size_bytes"));
          (py "modified_time", EExcluded (py "modified_time"));
          (py "detected_at", ENow) ]).

(** Names made of lower-case letters and underscores, as the keys of
    the mappings of the DAO are. *)
Definition ident_char (c : N) : bool := between 97 122 c || (c =? 95)%N.

Definition identifier (w : pystr) : bool :=
  match w with
  | [] => false
  | _ :: _ => forallb ident_char w
  end.

(** A character other than the first of "RETURNING id". *)
Definition plain_char (c : N) : bool := negb (c =? chr "R")%N.

(** The text of an insert up to the closing bracket of its placeholders,
    followed by [tail]. *)
Definition insert_with (table_name : pystr) (cols : list pystr) (tail : pystr) : pystr :=
  nl ++ spaces 12 ++ py "INSERT INTO " ++ table_name ++ py " ("
     ++ join (py ", ") cols ++ py ")"
     ++ nl ++ spaces 12 ++ py "VALUES (" ++ join (py ", ") (map (fun _ => py "%s") cols) ++ py ")"
     ++ tail.

Definition returning_tail : pystr :=
  nl ++ spaces 12 ++ py "RETURNING id" ++ nl ++ spaces 8.

Definition clause_tail (clause : pystr) : pystr :=
  nl ++ spaces 12 ++ clause ++ nl ++ spaces 8.

(** A store with one student enrolled, and that student's row. *)
Definition enrolled_world : world :=
  (Dao.create_student (discovered full_store) (Some (py "Ana")) (Some (py "ana@uni.edu"))
     (healthy full_store)).2.

Definition enrolled_students : table :=
  default students_table (committed enrolled_world !! py "students").

Definition enrolled_row : row := default ∅ (t_rows enrolled_students !! 0%nat).

(** The keys that [create_submission] always puts in the drive mapping,
    and those it adds when the metadata has them. *)
Definition drive_keys : list pystr :=
  names [ "file_id"; "filename"; "mime_type"; "size_bytes"; "drive_url"; "created_time";
          "modified_time"; "detected_at" ]%string.

Definition optional_drive_keys : list pystr :=
  names [ "uploaded_by_email"; "owner_email"; "size_mb"; "file_extension" ]%string.

(** The columns that the conflict clause of [create_submission]
    assigns. *)
Definition observed_columns : list pystr :=
  names [ "filename"; "size_bytes"; "modified_time"; "detected_at" ]%string.

(** The keys that [create_submission] can hand to the builder, in the
    order in which it fills the mapping. *)
Definition submission_keys : list pystr :=
  [py "module_id"; py "student_id"] ++ drive_keys ++ optional_drive_keys.

(** The file of [file_of_edu] seen again with another size. *)
Definition file_of_edu_resized : file_data :=
  FileData (Some (py "F123")) (Some (py "Modulo7_EduardoMoreno_01.jpg"))
    (Some (py "image/jpeg")) (Some (py "4096")) None None
    (Some (User (Some (py "edu@gmail.com")) (Some (py "Edu")))) None.

(** A store with one submission, of module 1 and student 1, and that
    submission's row. *)
Definition submitted_world : world :=
  (Dao.create_submission (discovered full_store) no_dates (VInt 1) (VInt 1) file_of_edu
     (healthy full_store)).2.

Definition submitted_table : table :=
  default submissions_table (committed submitted_world !! py "submissions").

Definition submitted_row : row := default ∅ (t_rows submitted_table !! 0%nat).

(** The fields kept from [optional_fields] are picked by four tests. *)
Definition pick4 {A} (b1 b2 b3 b4 : bool) (l : list A) : list A :=
  match l with
  | [x1; x2; x3; x4] =>
      (if b1 then [x1] else []) ++ (if b2 then [x2] else [])
      ++ (if b3 then [x3] else []) ++ (if b4 then [x4] else [])
  | _ => l
  end.

(** The optional fields of [update_sync_log], in the order of the loop. *)
Definition sync_names : list pystr :=
  [py "files_processed"; py "errors"; py "error_details"; py "completed_at"].

(** Two names differ: by evaluation. *)
Ltac distinct_names := let H := fresh in intros H; vm_compute in H; discriminate H.

(** The counters of [scan_module_smart] after [n] files. *)
Definition module_counts (found n : nat) (r : module_results) : Prop :=
  (submissions_created r <= files_processed r)%nat /\
  (files_processed r <= submissions_created r + length (errors r))%nat /\
  (submissions_created r + length (errors r) <= n)%nat /\
  (students_created r <= submissions_created r + length (errors r))%nat /\
  submissions_updated r = 0%nat /\
  files_found r = found.

(** The totals of [full_adaptive_scan] after [n] modules, the first
    [n0] errors being those of the sync. *)
Definition detail_sound (d : module_detail) : Prop :=
  (md_submissions d + md_errors d <= md_files d)%nat /\
  (md_students d <= md_submissions d + md_errors d)%nat.

Definition scan_totals (modules n0 n : nat) (fr : full_results) : Prop :=
  total_modules fr = modules /\
  modules_scanned fr = length (module_details fr) /\
  (modules_scanned fr + length (fr_errors fr) = n0 + n)%nat /\
  (n0 <= length (fr_errors fr))%nat /\
  total_files fr = sum_list (map md_files (module_details fr)) /\
  total_submissions fr = sum_list (map md_submissions (module_details fr)) /\
  total_students fr = sum_list (map md_students (module_details fr)) /\
  Forall detail_sound (module_details fr).

(** The reading of the clock that [update_sync_log] takes for
    [completed_at]. *)
Definition completion (status : pystr) (w : world) : value :=
  if Dao.closes_run status then VTime (clock w) else VNone.

(** [COALESCE(MAX(order_index), 0) + 1] over the rows of a table. *)
Definition next_order_of (t : table) : Z :=
  (match omap (fun r => int_cell r (py "order_index")) (t_rows t) with
   | [] => 0
   | x :: xs => foldr Z.max x xs
   end + 1)%Z.

(** The mapping that [create_module] hands to the builder. *)
Definition module_data_of (name drive_folder_id : pystr) (description : option pystr)
    (next_order : value) : dict :=
  [ (py "name", VStr name);
    (py "description", of_opt_str description);
    (py "code", VStr (Dao._generate_module_code name));
    (py "drive_folder_id", VStr drive_folder_id);
    (py "order_index", next_order);
    (py "drive_folder_url",
     VStr (py "https://drive.google.com/drive/folders/" ++ drive_folder_id)) ].

(** A store with one module created from a folder. *)
Definition catalogued_world : world :=
  (Dao.create_module (discovered full_store) (py "Modulo 7") (py "FOLDER1") None
     (healthy full_store)).2.

(** [n] steps of a relation on positions. *)
Fixpoint iter_rel (n : nat) (R : mstate -> mstate -> Prop) (st st' : mstate) : Prop :=
  match n with
  | O => st' = st
  | Datatypes.S k => exists st1, R st st1 /\ iter_rel k R st1 st'
  end.

(** [lang ic r st st']: from the position [st], [r] can take the
    subject to the position [st']. *)
Fixpoint lang (ic : bool) (r : regex) (st st' : mstate) : Prop :=
  match r with
  | Empty => st' = st
  | Set_ neg items =>
      exists c s',
        rest st = c :: s' /\ xorb neg (set_matches ic items c) = true /\
        st' = MState (c :: before st) s' (caps st)
  | Seq r1 r2 => exists st1, lang ic r1 st st1 /\ lang ic r2 st1 st'
  | Alt r1 r2 => lang ic r1 st st' \/ lang ic r2 st st'
  | Rep lo hi greedy r1 => exists n, iter_rel n (lang ic r1) st st'
  | Group n r1 => exists st1, lang ic r1 st st1 /\ st' = close_group n st st1
  | Bol => st' = st /\ before st = []
  | Eol => st' = st
  | WordB => st' = st /\ at_word_boundary st = true
  | Look r1 =>
      exists st1, lang ic r1 st st1 /\ st' = MState (before st) (rest st) (caps st1)
  end.

(** The loop of a repeat, as [m] has it, over the matcher [mr] of the
    repeated expression. *)
Definition rep_loop (mr : mstate -> (mstate -> option mstate) -> option mstate)
    (lo : nat) (hi : option nat) (greedy : bool) (k : mstate -> option mstate)
    : nat -> nat -> mstate -> option mstate :=
  fix loop (fuel count : nat) (st0 : mstate) {struct fuel} : option mstate :=
    let more (_ : unit) :=
      match fuel with
      | O => None
      | Datatypes.S f =>
          if below count hi
          then mr st0 (fun st1 =>
                 if bool_decide (length (rest st1) < length (rest st0))
                 then loop f (Datatypes.S count) st1
                 else None)
          else None
      end in
    let stop (_ : unit) :=
      if bool_decide (lo <= count) then k st0 else None in
    if greedy
    then match more tt with Some x => Some x | None => stop tt end
    else match stop tt with Some x => Some x | None => more tt end.

(** * Properties *)

Example compile_sample :
  compile (py "[Mm]odulo?\s*(\d+)") =
  Some (Seq (Set_ false [CChar 77; CChar 109])
       (Seq (Set_ false [CChar 111]) (Seq (Set_ false [CChar 100])
       (Seq (Set_ false [CChar 117]) (Seq (Set_ false [CChar 108])
       (Seq (Rep 0 (Some 1%nat) true (Set_ false [CChar 111]))
       (Seq (Rep 0 None true (Set_ false [CSpace]))
            (Group 1 (Rep 1 None true (Set_ false [CDigit]))))))))))%N.
Proof. vm_compute. reflexivity. Qed.


Lemma insert_loop_filter available data cs vs ps :
  fold_left (Dao.insert_step available) data (cs, vs, ps) =
  (cs ++ (Dao.surviving available data).*1,
   vs ++ (Dao.surviving available data).*2,
   ps ++ map (fun _ => py "%s") (Dao.surviving available data).*1).
Proof.
  revert cs vs ps. induction data as [|[column v] data IH]; intros cs vs ps.
  - cbn. by rewrite !app_nil_r.
  - assert (Hkeep : Dao.surviving available ((column, v) :: data) =
      if bool_decide (column ∈ available) && is_not_none v
      then (column, v) :: Dao.surviving available data
      else Dao.surviving available data).
    { unfold Dao.surviving. rewrite filter_cons. cbn [fst snd].
      by destruct (bool_decide (column ∈ available) && is_not_none v). }
    rewrite Hkeep. cbn [fold_left]. unfold Dao.insert_step at 2.
    destruct (bool_decide (column ∈ available) && is_not_none v); rewrite IH.
    + cbn. by rewrite <- !app_assoc.
    + done.
Qed.

(** C1. For every table name and mapping, the insert builder returns the
    statement whose column list is the keys of the mapping that are
    discovered columns of the table and carry a non-null value, in the
    order of the mapping, with the values in the same positions; and it
    raises exactly when the table is not in the discovered schema or no
    field survives. *)
Theorem build_insert_query_columns (schemas : gmap pystr table_schema)
    (table_name : pystr) (data : dict) :
  (forall query values,
      Dao._build_insert_query schemas table_name data = Return (query, values) ->
      exists sch, schemas !! table_name = Some sch /\
        let kept := Dao.surviving (column_names sch) data in
        query = Dao.insert_statement table_name kept.*1 /\ values = kept.*2) /\
  ((exists e, Dao._build_insert_query schemas table_name data = Raise e) <->
   (schemas !! table_name = None \/
    exists sch, schemas !! table_name = Some sch /\
      Dao.surviving (column_names sch) data = [])).
Proof.
  unfold Dao._build_insert_query.
  destruct (schemas !! table_name) as [sch|] eqn:Hs.
  - rewrite insert_loop_filter. cbn [app].
    destruct (Dao.surviving (column_names sch) data) as [|[c v] kept] eqn:Hk.
    + cbn [fmap list_fmap]. split.
      * intros q vs H. discriminate.
      * split; [intros _; right; eauto | intros _; eauto].
    + cbn [fmap list_fmap map]. split.
      * intros q vs H. injection H as <- <-. exists sch. split; [done|].
        cbv zeta. rewrite Hk. split; reflexivity.
      * split.
        -- intros [e He]. discriminate.
        -- intros [H | (sch' & H1 & H2)]; [discriminate|].
           injection H1 as <-. congruence.
  - split.
    + intros q vs H. discriminate.
    + split; [intros _; by left | intros _; eauto].
Qed.

(** ** Identity resolution *)

Lemma contains_nil_at : contains (py "@") [] = false.
Proof. reflexivity. Qed.

Lemma valid_email_of_at (email : pystr) :
  contains (py "@") email = true -> valid_email email = true.
Proof.
  intros H. unfold valid_email. rewrite H.
  destruct email as [|c email]; [discriminate H|]. reflexivity.
Qed.

(** C2. When the file metadata carries a last modifying user whose email
    contains "@", identity resolution returns that email, whatever the
    file name holds: step 1 of the cascade answers and the later steps,
    among them the search for an email in the file name, are not
    consulted. *)
Theorem metadata_email_outranks_filename (fd : file_data) (user : user)
    (email : pystr) :
  lastModifyingUser fd = Some user ->
  emailAddress user = Some email ->
  contains (py "@") email = true ->
  identify_student_from_file fd =
    Some (metadata_name (default [] (fd_name fd))
            (default [] (displayName user)) email, email).
Proof.
  intros Hu He Hat. unfold identify_student_from_file.
  cbv zeta. rewrite Hu, He.
  change (default [] (Some email)) with email.
  by rewrite (valid_email_of_at _ Hat).
Qed.


Lemma metadata_email_outranks_filename_witness :
  (from_filename (py "pedro@gmail.com tarea.pdf") =
     Some (py "pedro", py "pedro@gmail.com")) /\
  identify_student_from_file both_emails = Some (py "Ana", py "ana@uni.edu").
Proof.
  split; [vm_compute; reflexivity|].
  rewrite (metadata_email_outranks_filename both_emails
             (User (Some (py "ana@uni.edu")) (Some (py "Ana"))) (py "ana@uni.edu")
             eq_refl eq_refl eq_refl).
  vm_compute. reflexivity.
Defined.

Lemma startswith_spec (p s : pystr) : startswith p s = true <-> exists t, s = p ++ t.
Proof.
  revert s. induction p as [|a p IH]; intros s; cbn [startswith app].
  - split; [intros _; by exists s|done].
  - destruct s as [|b s]; [split; [done|intros [t [=]]]|].
    rewrite andb_true_iff, IH, N.eqb_eq. split.
    + intros [-> [t ->]]. by exists t.
    + intros [t [= -> ->]]. eauto.
Qed.

Lemma contains_spec (sub s : pystr) :
  contains sub s = true <-> exists a b, s = a ++ sub ++ b.
Proof.
  induction s as [|c s IH]; cbn [contains]; rewrite orb_true_iff, startswith_spec.
  - split.
    + intros [[t Ht]|[=]]. by exists [], t.
    + intros (a & b & H). left. symmetry in H. apply app_eq_nil in H as [-> H].
      exists b. by rewrite H.
  - rewrite IH. split.
    + intros [[t Ht]|(a & b & ->)]; [by exists [], t|by exists (c :: a), b].
    + intros ([|x a] & b & H); [left; by exists b|].
      injection H as -> ->. right. eauto.
Qed.

(** A text that holds a word holds every stretch of the word. *)
Lemma contains_stretch (pre sub post s : pystr) :
  contains (pre ++ sub ++ post) s = true -> contains sub s = true.
Proof.
  rewrite !contains_spec. intros (a & b & ->). exists (a ++ pre), (post ++ b).
  by rewrite <- !app_assoc.
Qed.

(** The name test of step 4, in words: longer than two characters, not
    one of the six reserved words, and free of the three module words. *)
Lemma name_accepted_spec (name : pystr) :
  name_accepted name = true <->
  2 < length name /\ (lower name ∉ palabras_invalidas) /\
  (forall word, word ∈ module_words -> contains word (lower name) = false).
Proof.
  unfold name_accepted. rewrite !andb_true_iff, !negb_true_iff.
  rewrite bool_decide_eq_true, bool_decide_eq_false.
  split.
  - intros [[[H1 H2] H3] H4]. split; [done|]. split; [done|].
    intros word Hw. destruct (contains word (lower name)) eqn:E; [|done].
    assert (existsb (fun word => contains word (lower name)) module_words = true) as X.
    { apply existsb_exists. exists word. split; [by apply list_elem_of_In|done]. }
    congruence.
  - intros (H1 & H2 & H3). repeat split; try done.
    + destruct (existsb _ palabras_invalidas) eqn:E; [|done].
      apply existsb_exists in E as (word & Hin & Heq).
      unfold str_eqb in Heq. apply bool_decide_eq_true in Heq. subst word.
      by apply list_elem_of_In in Hin.
    + destruct (existsb _ module_words) eqn:E; [|done].
      apply existsb_exists in E as (word & Hin & Hc).
      apply list_elem_of_In in Hin. rewrite (H3 _ Hin) in Hc. done.
Qed.

(** The name returned by step 4 is an accepted candidate with its white
    space normalised. *)
Lemma name_loop_accepted (patterns : list string) (filename name email : pystr) :
  name_loop patterns filename = Some (name, email) ->
  exists candidate, name_accepted candidate = true /\
    name = join (py " ") (split_ws candidate).
Proof.
  induction patterns as [|p ps IH]; [discriminate|]. cbn [name_loop].
  destruct (re_search p true filename) as [mo|]; [|exact IH].
  destruct (name_accepted (candidate_of mo)) eqn:E; [|exact IH].
  intros H. exists (candidate_of mo). split; [exact E|].
  exact (eq_sym (f_equal (fun o => match o with Some (n, _) => n | None => name end) H)).
Qed.


Lemma identify_without_metadata (fd : file_data) :
  no_metadata_email fd ->
  identify_student_from_file fd = from_filename (default [] (fd_name fd)).
Proof.
  intros [H1 H2]. unfold identify_student_from_file, from_owners.
  destruct (lastModifyingUser fd) as [user|].
  - rewrite H1. destruct (owners fd) as [[|owner os]|]; try done. by rewrite H2.
  - destruct (owners fd) as [[|owner os]|]; try done. by rewrite H2.
Qed.

Lemma contains_length (sub s : pystr) :
  contains sub s = true -> length sub <= length s.
Proof.
  intros H. apply contains_spec in H as (a & b & ->). rewrite !length_app. lia.
Qed.

Lemma name_rejected_spec (name : pystr) :
  name_accepted name = false <->
  length name < 3 \/ lower name ∈ palabras_invalidas \/
  exists word, word ∈ module_words /\ contains word (lower name) = true.
Proof.
  split.
  - intros E. destruct (decide (length name < 3)) as [|Hlen]; [by left|right].
    destruct (decide (lower name ∈ palabras_invalidas)) as [|Hpal]; [by left|right].
    destruct (existsb (fun word => contains word (lower name)) module_words) eqn:Ex.
    + apply existsb_exists in Ex as (word & Hin & Hc). exists word.
      split; [by apply list_elem_of_In|done].
    + assert (name_accepted name = true) as Hacc; [|congruence].
      apply name_accepted_spec. split; [lia|]. split; [done|].
      intros word Hw. destruct (contains word (lower name)) eqn:Hc; [|done].
      assert (existsb (fun word => contains word (lower name)) module_words = true) as X.
      { apply existsb_exists. exists word. split; [by apply list_elem_of_In|done]. }
      congruence.
  - intros H. destruct (name_accepted name) eqn:E; [|done].
    apply name_accepted_spec in E as (Hlen & Hpal & Hc).
    destruct H as [H|[H|(word & Hw & Hcw)]]; [lia|done|].
    rewrite (Hc _ Hw) in Hcw. done.
Qed.

(** Step 4 gives up exactly when each pattern that matches the file
    name yields a candidate that the name test rejects. *)
Lemma name_loop_None (patterns : list string) (filename : pystr) :
  name_loop patterns filename = None <->
  forall pattern mo, pattern ∈ patterns -> re_search pattern true filename = Some mo ->
    name_accepted (candidate_of mo) = false.
Proof.
  induction patterns as [|p ps IH]; cbn [name_loop].
  - split; [intros _ pattern mo Hin; by apply elem_of_nil in Hin|done].
  - destruct (re_search p true filename) as [mo|] eqn:Hs.
    + destruct (name_accepted (candidate_of mo)) eqn:Hacc.
      * split; [done|]. intros H. specialize (H p mo (list_elem_of_here _ _) Hs). congruence.
      * rewrite IH. split.
        -- intros H pattern mo' Hin Hs'. apply elem_of_cons in Hin as [->|Hin].
           ++ congruence.
           ++ by apply (H pattern).
        -- intros H pattern mo' Hin. apply H. by right.
    + rewrite IH. split.
      * intros H pattern mo' Hin Hs'. apply elem_of_cons in Hin as [->|Hin].
        -- congruence.
        -- by apply (H pattern).
      * intros H pattern mo' Hin. apply H. by right.
Qed.

(** C8, as the code has it. The file name "Modulo7_01.jpg" without an
    email in the metadata resolves to "not identified". The name test
    of step 4 rejects a candidate exactly when it has fewer than three
    characters, or its lower-cased form is one of the six reserved
    words, or contains "modulo", "módulo" or "dulo"; so a candidate that
    contains "ejercicio", "tarea" or "test" without being one of the
    reserved words or holding a module word is accepted. Step 4 returns
    nothing exactly when every candidate it extracts is rejected, and
    every name it returns passed the test. *)
Theorem stoplist_rejection (fd : file_data) :
  fd_name fd = Some (py "Modulo7_01.jpg") ->
  no_metadata_email fd ->
  identify_student_from_file fd = None /\
  (forall candidate,
      name_accepted candidate = false <->
      length candidate < 3 \/ lower candidate ∈ palabras_invalidas \/
      exists word, word ∈ module_words /\ contains word (lower candidate) = true) /\
  (forall candidate word,
      word ∈ [py "ejercicio"; py "tarea"; py "test"] ->
      contains word (lower candidate) = true ->
      lower candidate ∉ palabras_invalidas ->
      (forall w, w ∈ module_words -> contains w (lower candidate) = false) ->
      name_accepted candidate = true) /\
  (forall patterns filename,
      name_loop patterns filename = None <->
      forall pattern mo,
        pattern ∈ patterns -> re_search pattern true filename = Some mo ->
        name_accepted (candidate_of mo) = false) /\
  (forall filename name email,
      name_loop name_patterns filename = Some (name, email) ->
      exists accepted, name_accepted accepted = true /\
        name = join (py " ") (split_ws accepted)).
Proof.
  intros Hname Hmeta. split_and!.
  - rewrite (identify_without_metadata _ Hmeta), Hname. vm_compute. reflexivity.
  - exact name_rejected_spec.
  - intros candidate word Hw Hc Hpal Hmod. apply name_accepted_spec.
    split; [|done]. apply contains_length in Hc. unfold lower in Hc.
    rewrite length_map in Hc.
    rewrite !elem_of_cons, elem_of_nil in Hw.
    destruct Hw as [->|[->|[->|[]]]];
      match type of Hc with
      | ?n <= _ => let v := eval vm_compute in n in change n with v in Hc
      end; lia.
  - exact name_loop_None.
  - intros filename name email H. by apply name_loop_accepted in H.
Qed.

Lemma stoplist_rejection_witness :
  no_metadata_email (bare_file "Modulo7_01.jpg") /\
  identify_student_from_file (bare_file "Modulo7_01.jpg") = None /\
  name_accepted (py "Modulo") = false /\
  name_accepted (py "Al") = false /\
  name_accepted (py "Tarea Juan") = true.
Proof.
  assert (no_metadata_email (bare_file "Modulo7_01.jpg")) as Hm by (split; exact I).
  split; [exact Hm|].
  destruct (stoplist_rejection (bare_file "Modulo7_01.jpg") eq_refl Hm)
    as (H1 & H2 & H3 & _).
  split; [exact H1|]. split; [|split].
  - apply H2. right. left. vm_compute. apply list_elem_of_In. left. reflexivity.
  - apply H2. left. vm_compute. lia.
  - apply (H3 (py "Tarea Juan") (py "tarea")).
    + apply list_elem_of_In. vm_compute. tauto.
    + vm_compute. reflexivity.
    + intros H. apply list_elem_of_In in H. vm_compute in H.
      repeat (destruct H as [H|H]; [discriminate H|]). exact H.
    + intros w Hw. apply list_elem_of_In in Hw. vm_compute in Hw.
      repeat (destruct Hw as [<-|Hw]; [vm_compute; reflexivity|]). destruct Hw.
Defined.

(** A candidate that contains the reserved word "tarea" is accepted. *)
Lemma stoplist_contains_tarea_accepted :
  py "tarea" ∈ palabras_invalidas /\
  contains (py "tarea") (lower (py "Tarea Juan")) = true /\
  no_metadata_email (bare_file "Tarea_Juan.jpg") /\
  identify_student_from_file (bare_file "Tarea_Juan.jpg") =
    Some (py "Tarea Juan", py "tarea.juan@extracted.temp").
Proof.
  split; [apply list_elem_of_In; vm_compute; tauto|].
  split; [vm_compute; reflexivity|].
  split; [split; exact I|].
  vm_compute. reflexivity.
Qed.

(** ** Module codes *)

(** C3. The module name "Módulo 7", written with its accent, does not
    match the module-number pattern and gets the letter fallback "MDUL";
    the unaccented "Modulo 7" gets "MOD07", "Correcciones Finales" gets
    "CORR", "xyz123" gets its letters in upper case and a name without
    letters gets "MOD0". *)
Theorem generate_module_code_samples :
  Dao._generate_module_code (py "Módulo 7") = py "MDUL" /\
  Dao._generate_module_code (py "Modulo 7") = py "MOD07" /\
  Dao._generate_module_code (py "Correcciones Finales") = py "CORR" /\
  Dao._generate_module_code (py "xyz123") = py "XYZ" /\
  Dao._generate_module_code (py "123") = py "MOD0".
Proof. repeat split; vm_compute; reflexivity. Qed.

(** ** Transactions *)

Lemma scoped_ret {A} (a : A) : scoped (Store.ret a).
Proof. intros w. apply rtc_refl. Qed.

Lemma scoped_raise {A} (e : exn) : scoped (@Store.raise world A e).
Proof. intros w. apply rtc_refl. Qed.

Lemma scoped_lift {A} (r : result A) : scoped (Store.lift r).
Proof. intros w. apply rtc_refl. Qed.

Lemma scoped_now : scoped Store.datetime_now.
Proof. intros w. apply rtc_once. constructor. Qed.

Lemma scoped_bind {A B} (c : Store.M world A) (k : A -> Store.M world B) :
  scoped c -> (forall a, scoped (k a)) -> scoped (Store.bindM c k).
Proof.
  intros Hc Hk w. unfold Store.bindM.
  pose proof (Hc w) as H1. destruct (c w) as [[a|e] w1]; cbn [snd] in *.
  - by etrans; [exact H1|apply Hk].
  - exact H1.
Qed.

Lemma scoped_try_except {A} (c : Store.M world A) (h : exn -> Store.M world A) :
  scoped c -> (forall e, scoped (h e)) -> scoped (Store.try_except c h).
Proof.
  intros Hc Hh w. unfold Store.try_except.
  pose proof (Hc w) as H1. destruct (c w) as [[a|e] w1]; cbn [snd] in *.
  - exact H1.
  - by etrans; [exact H1|apply Hh].
Qed.

Lemma scoped_get_connection {A} (body : Z -> Store.database -> result A * Store.database) :
  scoped (Store.get_connection body).
Proof. intros w. apply rtc_once. constructor. Qed.

Lemma scoped_get_cursor {A} (body : Store.M Store.cursor A) :
  scoped (Store.get_cursor body).
Proof. apply scoped_get_connection. Qed.

Lemma scoped_if {A} (b : bool) (c d : Store.M world A) :
  scoped c -> scoped d -> scoped (if b then c else d).
Proof. by destruct b. Qed.

Create HintDb scoped.
#[export] Hint Resolve scoped_ret scoped_raise scoped_lift scoped_now
  scoped_get_cursor scoped_get_connection scoped_if : scoped.
#[export] Hint Extern 2 (scoped (Store.bindM _ _)) =>
  apply scoped_bind; [|intros ?] : scoped.
#[export] Hint Extern 2 (scoped (Store.try_except _ _)) =>
  apply scoped_try_except; [|intros ?] : scoped.

Lemma get_connection_outcome {A}
    (body : Z -> Store.database -> result A * Store.database) (w : world) :
  unit_outcome (body (Store.clock w) (Store.committed w)) w (Store.get_connection body w).
Proof.
  unfold unit_outcome, Store.get_connection, Store.connect.
  destruct (Store.connect_fault w (Store.attempts w)) as [e|]; [done|].
  cbn [Store.record Store.trace Store.committed Store.commit_fault Store.rollback_fault
         Store.store Store.clock].
  destruct (body _ _) as [[a|e] db];
    destruct (Store.commit_fault w (Store.attempts w)) as [e1|];
    destruct (Store.rollback_fault w (Store.attempts w)) as [e2|];
    cbn [fst snd Store.record Store.store Store.trace Store.committed];
    by rewrite <- ?app_assoc.
Qed.

Lemma get_cursor_outcome {A} (body : Store.M Store.cursor A) (w : world) :
  unit_outcome
    (let '(r, cur) := body (Store.Cursor (Store.clock w) (Store.committed w) []) in
     (r, Store.cur_db cur))
    w (Store.get_cursor body w).
Proof.
  exact (get_connection_outcome
           (fun now db => let '(r, cur) := body (Store.Cursor now db []) in
                          (r, Store.cur_db cur)) w).
Qed.

(** What the moves of the world add to the trace are the events of
    units, and the committed database stays unless one of them
    committed. *)
Lemma moves_in_units (w w' : world) :
  rtc move w w' ->
  exists evs,
    trace w' = trace w ++ evs /\ units evs /\
    (EvCommit ∉ evs -> Store.committed w' = Store.committed w).
Proof.
  revert w'.
  apply (rtc_ind_r (fun w' => exists evs,
           trace w' = trace w ++ evs /\ units evs /\
           (EvCommit ∉ evs -> Store.committed w' = Store.committed w)) w);
    [|intros w1 w2 _ Hm IH].
  - exists []. split; [by rewrite app_nil_r|]. split; [constructor|done].
  - destruct IH as (evs & Ht & Hu & Hc). destruct Hm as [w1|A body w1].
    + exists evs. done.
    + pose proof (get_connection_outcome body w1) as Ho. unfold unit_outcome in Ho.
      destruct (Store.connect_fault w1 (Store.attempts w1)) as [e|].
      { destruct Ho as (_ & Hc' & Ht'). exists evs. rewrite Ht', Hc'. done. }
      destruct (body _ _) as [[a|e] db];
        destruct (Store.commit_fault w1 (Store.attempts w1)) as [e1|];
        destruct (Store.rollback_fault w1 (Store.attempts w1)) as [e2|];
        try destruct Ho as (Hc' & _ & Ht'); try destruct Ho as (_ & Hc' & Ht');
        eexists; (split; [rewrite Ht', Ht, <- app_assoc; reflexivity|]);
        (split; [by constructor|]); intros Hn;
        try (rewrite Hc'; apply Hc; intros Hin; apply Hn; set_solver);
        exfalso; apply Hn; set_solver.
Qed.

(** A computation that overwrites the committed database without a
    connection is not one of these. *)
Lemma overwrite_not_scoped :
  ~ scoped (fun w => (Return tt, Store.store ∅ w)).
Proof.
  intros H. destruct (moves_in_units _ _ (H (healthy full_store))) as (evs & Ht & _ & Hc).
  cbn [snd] in Ht, Hc.
  assert (evs = []) as -> by (symmetry; exact Ht).
  assert (Store.committed (Store.store ∅ (healthy full_store))
          = Store.committed (healthy full_store)) as E
    by (apply Hc; apply not_elem_of_nil).
  apply (f_equal (fun db => is_Some (db !! py "modules"))) in E.
  assert (is_Some (Store.committed (healthy full_store) !! py "modules")) as Hs
    by (vm_compute; eauto).
  rewrite <- E in Hs. cbn [Store.store Store.committed] in Hs.
  rewrite lookup_empty in Hs. by destruct Hs.
Qed.

(** C7, as the code has it. [get_connection], and [get_cursor] on top
    of it, is a transactional unit. A refused connection raises with
    nothing opened. When the body returns and the commit goes through,
    the body's writes become the committed database. When the body or
    the commit raises, the committed database is what it was, and the
    caller gets the error that was raised, after the rollback and the
    log line; but when the rollback raises too, the caller gets the
    error of the rollback and nothing is logged. The connection, once
    opened, is closed on each of these paths. [get_cursor] runs its body
    on a cursor that starts from the committed database. Every method of
    the DAO that talks to the store moves the world by such units and by
    readings of the clock only; what such a computation adds to the
    trace are the events of units, and it leaves the committed database
    as it was unless one of its units committed. *)
Theorem get_connection_transactional :
  (forall A (body : Z -> Store.database -> result A * Store.database) (w : world),
      unit_outcome (body (Store.clock w) (Store.committed w)) w
        (Store.get_connection body w)) /\
  (forall A (body : Store.M Store.cursor A) (w : world),
      unit_outcome
        (let '(r, cur) := body (Store.Cursor (Store.clock w) (Store.committed w) []) in
         (r, Store.cur_db cur))
        w (Store.get_cursor body w)) /\
  (forall schemas parse_date,
      scoped (Dao._discover_schema schemas) /\
      scoped Dao.get_all_modules /\
      (forall id, scoped (Dao.get_module_by_id id)) /\
      (forall id, scoped (Dao.get_module_by_drive_folder id)) /\
      (forall name id description, scoped (Dao.create_module schemas name id description)) /\
      scoped Dao.get_all_students /\
      (forall email, scoped (Dao.get_student_by_email email)) /\
      (forall name email, scoped (Dao.create_student schemas name email)) /\
      (forall m s fd, scoped (Dao.create_submission schemas parse_date m s fd)) /\
      (forall sync_type, scoped (Dao.create_sync_log schemas sync_type)) /\
      (forall id status kwargs, scoped (Dao.update_sync_log schemas id status kwargs)) /\
      scoped (Dao.get_statistics schemas) /\
      scoped Dao.test_connection) /\
  (forall A (c : Store.M world A) (w : world),
      scoped c ->
      exists evs,
        trace (c w).2 = trace w ++ evs /\ units evs /\
        (EvCommit ∉ evs -> Store.committed (c w).2 = Store.committed w)).
Proof.
  split; [intros A body w; apply get_connection_outcome|].
  split; [intros A body w; apply get_cursor_outcome|].
  split.
  - intros schemas parse_date.
    unfold Dao._discover_schema, Dao.get_all_modules, Dao.get_module_by_id,
      Dao.get_module_by_drive_folder, Dao.create_module, Dao.get_all_students,
      Dao.get_student_by_email, Dao.create_student, Dao.create_submission,
      Dao.create_sync_log, Dao.update_sync_log, Dao.get_statistics, Dao.test_connection.
    repeat split; intros; auto 10 with scoped.
  - intros A c w Hc. apply moves_in_units, Hc.
Qed.

(** A run in which the caller does not get the error that made the
    unit fail: the connection of [create_sync_log] is lost before the
    commit, the commit raises, the rollback raises on the closed
    connection, and the error of the rollback is what reaches the
    caller. Nothing is rolled back or logged; the connection is closed
    and the store is as it was. *)
Lemma rollback_error_reaches_caller :
  Store.commit_fault (store_lost_at_commit full_store) 0
  = Some (OperationalError (py "server closed the connection unexpectedly")) /\
  (Dao.create_sync_log (discovered full_store) (py "manual")
     (store_lost_at_commit full_store)).1
  = Raise (InterfaceError (py "connection already closed")) /\
  trace (Dao.create_sync_log (discovered full_store) (py "manual")
           (store_lost_at_commit full_store)).2
  = [EvConnect; EvClose] /\
  Store.committed (Dao.create_sync_log (discovered full_store) (py "manual")
                     (store_lost_at_commit full_store)).2
  = Store.committed (store_lost_at_commit full_store).
Proof. repeat split; vm_compute; reflexivity. Qed.

(** ** Statements and their effect on the store *)

Lemma update_loop_filter (cols : list pystr) (items : dict) fs vs :
  fold_left (Dao.update_step cols) items (fs, vs) =
  (fs ++ map (fun f => f ++ py " = %s") (Dao.surviving cols items).*1,
   vs ++ (Dao.surviving cols items).*2).
Proof.
  revert fs vs. induction items as [|[field v] items IH]; intros fs vs.
  - cbn [fold_left Dao.surviving]. unfold Dao.surviving. rewrite filter_nil.
    cbn [fmap list_fmap map]. by rewrite !app_nil_r.
  - assert (Hkeep : Dao.surviving cols ((field, v) :: items) =
      if bool_decide (field ∈ cols) && is_not_none v
      then (field, v) :: Dao.surviving cols items
      else Dao.surviving cols items).
    { unfold Dao.surviving. rewrite filter_cons. cbn [fst snd].
      by destruct (bool_decide (field ∈ cols) && is_not_none v). }
    rewrite Hkeep. cbn [fold_left]. unfold Dao.update_step at 2.
    destruct (bool_decide (field ∈ cols) && is_not_none v); rewrite IH.
    + cbn [fmap list_fmap map]. by rewrite <- !app_assoc.
    + done.
Qed.

Lemma surviving_pick4 (cols : list pystr) (i1 i2 i3 i4 : pystr * value) :
  let keep (i : pystr * value) := bool_decide (i.1 ∈ cols) && is_not_none i.2 in
  Dao.surviving cols [i1; i2; i3; i4] =
  pick4 (keep i1) (keep i2) (keep i3) (keep i4) [i1; i2; i3; i4].
Proof.
  cbv zeta. unfold Dao.surviving. rewrite !filter_cons, filter_nil.
  unfold pick4.
  destruct (bool_decide (i1.1 ∈ cols) && is_not_none i1.2),
           (bool_decide (i2.1 ∈ cols) && is_not_none i2.2),
           (bool_decide (i3.1 ∈ cols) && is_not_none i3.2),
           (bool_decide (i4.1 ∈ cols) && is_not_none i4.2); reflexivity.
Qed.

Lemma sync_update_text_parses (b1 b2 b3 b4 : bool) :
  parse_sql
    (nl ++ spaces 12 ++ py "UPDATE sync_logs "
        ++ nl ++ spaces 12 ++ py "SET "
        ++ join (py ", ")
             ([py "status = %s"]
                ++ map (fun f => f ++ py " = %s") (pick4 b1 b2 b3 b4 sync_names))
        ++ nl ++ spaces 12 ++ py "WHERE id = %s"
        ++ nl ++ spaces 8) =
  Some (SUpdate (py "sync_logs")
          (map (fun f => (f, EParam)) (py "status" :: pick4 b1 b2 b3 b4 sync_names))
          (py "id")).
Proof. destruct b1, b2, b3, b4; vm_compute; reflexivity. Qed.

Lemma pick4_fst (b1 b2 b3 b4 : bool) (i1 i2 i3 i4 : pystr * value) :
  (pick4 b1 b2 b3 b4 [i1; i2; i3; i4]).*1 = pick4 b1 b2 b3 b4 [i1.1; i2.1; i3.1; i4.1].
Proof. by destruct b1, b2, b3, b4. Qed.

(** The statement of [update_sync_log] assigns [status] and the optional
    fields that survive, and its parameters are their values followed by
    the id. *)
Lemma sync_update_query_parses (schemas : gmap pystr table_schema) (sync_id : value) (status : pystr)
    (kwargs : dict) (completed_at : value) :
  let kept := Dao.surviving (Dao.columns_of schemas (py "sync_logs"))
                (Dao.optional_fields kwargs completed_at) in
  let qv := Dao.sync_update_query schemas sync_id status kwargs completed_at in
  qv.2 = VStr status :: kept.*2 ++ [sync_id] /\
  parse_sql qv.1 =
    Some (SUpdate (py "sync_logs")
            (map (fun f => (f, EParam)) (py "status" :: kept.*1)) (py "id")).
Proof.
  cbv zeta. unfold Dao.sync_update_query. rewrite update_loop_filter.
  cbn [fst snd]. split; [reflexivity|].
  unfold Dao.optional_fields. rewrite surviving_pick4. cbv zeta.
  rewrite pick4_fst. cbn [fst snd]. apply sync_update_text_parses.
Qed.

(** A transactional unit either raises and leaves the committed
    database alone, or returns what its body returned and commits what
    its body wrote. *)
Lemma get_connection_cases {A} (body : Z -> database -> result A * database) (w : world) :
  let out := get_connection body w in
  (exists e, out.1 = Raise e /\ committed out.2 = committed w) \/
  (exists a db, body (clock w) (committed w) = (Return a, db) /\
     out.1 = Return a /\ committed out.2 = db).
Proof.
  cbv zeta. pose proof (get_connection_outcome body w) as H. unfold unit_outcome in H.
  destruct (connect_fault w (attempts w)) as [e|];
    [left; exists e; by destruct H as (? & ? & _)|].
  destruct (body (clock w) (committed w)) as [[a|e] db] eqn:Eb;
    destruct (commit_fault w (attempts w)) as [e1|];
    destruct (rollback_fault w (attempts w)) as [e2|];
    try (destruct H as (Hc & Hr & _); left; eexists; split; [exact Hr|exact Hc]).
  all: destruct H as (Hr & Hc & _); right; exists a, db; done.
Qed.

(** What [get_cursor] leaves committed after one [execute]: the effect
    of the statement when the call returns, nothing when it raises. *)
Lemma get_cursor_execute (query : pystr) (values : list value) (w : world) :
  let out := get_cursor (execute query values) w in
  (exists e, out.1 = Raise e /\ committed out.2 = committed w) \/
  (exists st rows db,
      parse_sql query = Some st /\
      exec (clock w) st values (committed w) = Return (rows, db) /\
      out.1 = Return tt /\ committed out.2 = db).
Proof.
  cbv zeta. unfold get_cursor.
  destruct (get_connection_cases
              (fun now db => let '(r, cur) := execute query values (Cursor now db []) in
                             (r, cur_db cur)) w) as [H | (a & db & Hb & H1 & H2)];
    [by left|]. right.
  unfold execute in Hb. cbn [cur_now cur_db] in Hb.
  destruct (parse_sql query) as [st|]; [|discriminate].
  destruct (exec (clock w) st values (committed w)) as [[rows db']|e] eqn:Ex; [|discriminate].
  injection Hb as <- <-. exists st, rows, db'. done.
Qed.

(** The same for the insert methods, which read the id of the row. *)
Lemma get_cursor_insert (query : pystr) (values : list value) (key : pystr) (w : world) :
  let out := get_cursor (_ <- execute query values ;;
                         result <- fetchone ;; subscript result key) w in
  (exists e, out.1 = Raise e /\ committed out.2 = committed w) \/
  (exists st r rest db,
      parse_sql query = Some st /\
      exec (clock w) st values (committed w) = Return (r :: rest, db) /\
      out.1 = Return (dict_get key r) /\ committed out.2 = db).
Proof.
  cbv zeta. unfold get_cursor.
  destruct (get_connection_cases
              (fun now db =>
                 let '(r, cur) :=
                   (_ <- execute query values ;;
                    result <- fetchone ;; subscript result key) (Cursor now db []) in
                 (r, cur_db cur)) w) as [H | (a & db & Hb & H1 & H2)];
    [by left|]. right.
  unfold bindM at 1 in Hb. unfold execute in Hb. cbn [cur_now cur_db] in Hb.
  destruct (parse_sql query) as [st|]; [|discriminate].
  destruct (exec (clock w) st values (committed w)) as [[rows db']|e] eqn:Ex; [|discriminate].
  unfold bindM, fetchone in Hb. cbn [cur_rows cur_db cur_now] in Hb.
  destruct rows as [|r rows]; [discriminate|].
  unfold subscript in Hb. destruct (dict_has key r); [|discriminate].
  unfold ret in Hb. cbn [cur_db] in Hb. injection Hb as <- <-.
  exists st, r, rows, db'. done.
Qed.

Lemma set_cell_other (c c' : pystr) (v : value) (r : row) :
  c <> c' -> set_cell c v r !! c' = r !! c'.
Proof.
  intros Hne. unfold set_cell.
  destruct v; rewrite ?lookup_delete_ne, ?lookup_insert_ne; done.
Qed.

Lemma set_cell_same (c : pystr) (v : value) (r : row) :
  is_not_none v = true -> set_cell c v r !! c = Some v.
Proof. intros Hv. unfold set_cell. destruct v; try discriminate; by rewrite lookup_insert_eq. Qed.

(** An update leaves the cells it does not assign. *)
Lemma assign_params_other (sets : list (pystr * sexpr)) (args : list value) (now : Z)
    (r : row) (c : pystr) :
  c ∉ sets.*1 -> assign_params sets args now r !! c = r !! c.
Proof.
  revert args r. induction sets as [|[c' e] sets IH]; intros args r Hc; [done|].
  cbn [fmap list_fmap fst] in Hc.
  apply not_elem_of_cons in Hc as [Hne Hc].
  destruct e; cbn [assign_params].
  - destruct args as [|v args]; [done|]. rewrite IH by done. by apply set_cell_other.
  - by apply IH.
  - rewrite IH by done. by apply set_cell_other.
Qed.

(** An update with parameters only gives each field its parameter. *)
Lemma assign_params_field (fs : list pystr) (vs extra : list value) (now : Z) (r : row)
    (c : pystr) (v : value) :
  NoDup fs -> length fs = length vs -> (c, v) ∈ zip fs vs -> is_not_none v = true ->
  assign_params (map (fun f => (f, EParam)) fs) (vs ++ extra) now r !! c = Some v.
Proof.
  revert vs r. induction fs as [|f fs IH]; intros vs r Hnd Hlen Hin Hv.
  - by apply elem_of_nil in Hin.
  - destruct vs as [|v' vs]; [done|]. cbn [zip zip_with] in Hin.
    apply NoDup_cons in Hnd as [Hf Hnd].
    cbn [map app assign_params].
    apply elem_of_cons in Hin as [Heq | Hin].
    + injection Heq as -> ->. rewrite assign_params_other.
      * by apply set_cell_same.
      * rewrite <- list_fmap_compose. intros Hin.
        apply list_elem_of_fmap in Hin as (f' & -> & Hin). done.
    + apply IH; try done. cbn [length] in Hlen. lia.
Qed.

Lemma exec_update_rows (now : Z) (name : pystr) (sets : list (pystr * sexpr))
    (where_col : pystr) (args : list value) (db db' : database) (rows : list dict)
    (t : table) :
  exec_update now name sets where_col args db = Return (rows, db') ->
  db !! name = Some t ->
  db' !! name =
    Some (with_rows t
            (map (fun r => if matches where_col (default VNone (last args)) r
                           then assign_params sets args now r else r) (t_rows t))
            (t_next_id t)).
Proof.
  unfold exec_update. intros H Ht. rewrite Ht in H.
  destruct (negb _); [discriminate|].
  destruct (first_missing _ t); [discriminate|].
  destruct (_ || _); [|discriminate].
  injection H as _ <-. by rewrite lookup_insert_eq.
Qed.

Lemma zip_fst_snd_id {A B} (l : list (A * B)) : zip l.*1 l.*2 = l.
Proof. induction l as [|[a b] l IH]; [done|]. cbn. by rewrite IH. Qed.

Lemma surviving_elem (cols : list pystr) (items : dict) (f : pystr) (v : value) :
  (f, v) ∈ Dao.surviving cols items <->
  f ∈ cols /\ is_not_none v = true /\ (f, v) ∈ items.
Proof.
  unfold Dao.surviving. rewrite list_elem_of_filter. cbn [fst snd].
  rewrite andb_True, bool_decide_spec, Is_true_true. tauto.
Qed.

Lemma sync_fields_distinct (b1 b2 b3 b4 : bool) :
  NoDup (py "status" :: pick4 b1 b2 b3 b4 sync_names).
Proof. destruct b1, b2, b3, b4; apply (bool_decide_unpack _); vm_compute; exact I. Qed.

Lemma optional_fields_distinct (schemas : gmap pystr table_schema) (kwargs : dict) (completed_at : value) :
  NoDup (py "status" ::
         (Dao.surviving (Dao.columns_of schemas (py "sync_logs"))
            (Dao.optional_fields kwargs completed_at)).*1).
Proof.
  unfold Dao.optional_fields. rewrite surviving_pick4. cbv zeta.
  rewrite pick4_fst. cbn [fst snd]. apply sync_fields_distinct.
Qed.

Lemma optional_fields_completed_at (kwargs : dict) (completed_at v : value) :
  (py "completed_at", v) ∈ Dao.optional_fields kwargs completed_at -> v = completed_at.
Proof.
  unfold Dao.optional_fields. rewrite !elem_of_cons, elem_of_nil.
  intros [H|[H|[H|[H|[]]]]];
    pose proof (f_equal fst H) as H1; pose proof (f_equal snd H) as H2;
    cbn [fst snd] in H1, H2; try done;
    exfalso; revert H1; vm_compute; discriminate.
Qed.

(** C10. A call of [update_sync_log] with a status other than
    "completed" and "failed", such as "completed_with_errors", sends an
    update that has no assignment to [completed_at]; it leaves that cell
    of every sync log as it was, while the row of the run gets the new
    status and the counters [files_processed] and [errors] that the
    table has and the caller gave. *)
Theorem completed_at_only_when_run_closes (schemas : gmap pystr table_schema)
    (sync_id : value) (status : pystr)
    (kwargs : dict) (w : world) (t : table) (i : nat) (r : row) :
  Dao.closes_run status = false ->
  committed w !! py "sync_logs" = Some t ->
  t_rows t !! i = Some r ->
  let out := Dao.update_sync_log schemas sync_id status kwargs w in
  (exists fields,
      parse_sql (Dao.sync_update_query schemas sync_id status kwargs VNone).1 =
        Some (SUpdate (py "sync_logs")
                (map (fun f => (f, EParam)) (py "status" :: fields)) (py "id")) /\
      py "completed_at" ∉ fields) /\
  exists t' r',
    committed out.2 !! py "sync_logs" = Some t' /\
    t_rows t' !! i = Some r' /\
    r' !! py "completed_at" = r !! py "completed_at" /\
    (out.1 = Return tt -> r !! py "id" = Some sync_id -> is_not_none sync_id = true ->
     r' !! py "status" = Some (VStr status) /\
     forall f, f ∈ [py "files_processed"; py "errors"] ->
       f ∈ Dao.columns_of schemas (py "sync_logs") ->
       is_not_none (dict_get f kwargs) = true ->
       r' !! f = Some (dict_get f kwargs)).
Proof.
  intros Hopen Ht Hr out.
  set (kept := Dao.surviving (Dao.columns_of schemas (py "sync_logs"))
                 (Dao.optional_fields kwargs VNone)).
  destruct (sync_update_query_parses schemas sync_id status kwargs VNone) as [Hvals Hparse].
  fold kept in Hvals, Hparse.
  assert (py "completed_at" ∉ kept.*1) as Hno.
  { intros Hin. apply list_elem_of_fmap in Hin as ([f v] & Hf & Hin). cbn [fst] in Hf.
    subst f. apply surviving_elem in Hin as (_ & Hv & Hin).
    apply optional_fields_completed_at in Hin. by subst v. }
  split; [exists kept.*1; done|].
  assert (out = get_cursor (execute
            (Dao.sync_update_query schemas sync_id status kwargs VNone).1
            (Dao.sync_update_query schemas sync_id status kwargs VNone).2) w) as Hout.
  { unfold out, Dao.update_sync_log. rewrite Hopen. reflexivity. }
  clearbody out. subst out.
  destruct (Dao.sync_update_query schemas sync_id status kwargs VNone) as [q vals].
  cbn [fst snd] in *.
  change (VStr status :: kept.*2 ++ [sync_id])
    with ((VStr status :: kept.*2) ++ [sync_id]) in Hvals.
  remember (py "status" :: kept.*1) as fs eqn:Hfs.
  remember (VStr status :: kept.*2) as vs eqn:Hvs.
  assert (NoDup fs) as Hnd by (subst fs; apply optional_fields_distinct).
  assert (length fs = length vs) as Hlen.
  { subst fs vs. cbn [length]. by rewrite !length_fmap. }
  assert (py "completed_at" ∉ (map (fun f => (f, EParam)) fs).*1) as Hno'.
  { rewrite <- list_fmap_compose. intros Hin.
    apply list_elem_of_fmap in Hin as (f & Hf & Hin). cbn [fst compose] in Hf.
    subst fs. apply elem_of_cons in Hin as [Hin|Hin]; [|by subst f].
    rewrite Hin in Hf. revert Hf. vm_compute. discriminate. }
  assert ((py "status", VStr status) ∈ zip fs vs) as Hstatus.
  { subst fs vs. cbn [zip zip_with]. apply elem_of_cons. by left. }
  assert (forall f, f ∈ [py "files_processed"; py "errors"] ->
            f ∈ Dao.columns_of schemas (py "sync_logs") ->
            is_not_none (dict_get f kwargs) = true ->
            (f, dict_get f kwargs) ∈ zip fs vs) as Hcounters.
  { intros f Hf Hcol Hv. subst fs vs. cbn [zip zip_with]. apply elem_of_cons. right.
    change (zip_with pair kept.*1 kept.*2) with (zip kept.*1 kept.*2).
    rewrite zip_fst_snd_id. apply surviving_elem. split; [done|]. split; [done|].
    unfold Dao.optional_fields.
    apply elem_of_cons in Hf as [->|Hf]; [apply elem_of_cons; by left|].
    apply elem_of_cons in Hf as [->|Hf]; [|by apply elem_of_nil in Hf].
    apply elem_of_cons. right. apply elem_of_cons. by left. }
  clear Hfs Hvs. subst vals.
  destruct (get_cursor_execute q (vs ++ [sync_id]) w)
    as [(e & H1 & H2) | (st & rows & db & Hst & Hex & H1 & H2)].
  - exists t, r. rewrite H2. split; [done|]. split; [done|]. split; [done|].
    intros Hret. congruence.
  - rewrite Hparse in Hst. injection Hst as <-. cbn [exec] in Hex.
    pose proof (exec_update_rows _ _ _ _ _ _ _ _ _ Hex Ht) as Hdb.
    rewrite last_snoc in Hdb. cbn [default from_option id] in Hdb.
    rewrite H2. eexists. eexists. split; [exact Hdb|].
    cbn [with_rows t_rows]. rewrite list_lookup_fmap, Hr.
    split; [reflexivity|].
    split.
    { destruct (matches _ _ r); [|done]. by apply assign_params_other. }
    intros _ Hid Hsome. unfold matches. rewrite Hsome, Hid, bool_decide_true by done.
    cbn [andb]. split.
    + by apply assign_params_field.
    + intros f Hf Hcol Hv. apply assign_params_field; try done. by apply Hcounters.
Qed.

Lemma completed_at_only_when_run_closes_witness :
  exists t' r',
    committed
      (Dao.update_sync_log (discovered full_store) (VInt 1) (py "completed_with_errors")
         sample_counters running_world).2 !! py "sync_logs" = Some t' /\
    t_rows t' !! 0%nat = Some r' /\
    r' !! py "completed_at" = None /\
    r' !! py "status" = Some (VStr (py "completed_with_errors")) /\
    r' !! py "errors" = Some (VInt 2).
Proof.
  pose proof (completed_at_only_when_run_closes (discovered full_store) (VInt 1)
                (py "completed_with_errors") sample_counters running_world running_logs
                0%nat running_row
                ltac:(vm_compute; reflexivity) ltac:(vm_compute; reflexivity)
                ltac:(vm_compute; reflexivity)) as H.
  cbv zeta in H. destruct H as [_ (t' & r' & Ht' & Hr' & Hc & Hs)].
  exists t', r'. split; [exact Ht'|]. split; [exact Hr'|]. split.
  { rewrite Hc. vm_compute. reflexivity. }
  destruct Hs as [Hst Hf];
    [vm_compute; reflexivity | vm_compute; reflexivity | reflexivity |].
  split; [exact Hst|].
  apply (Hf (py "errors")).
  - apply list_elem_of_In. right. left. reflexivity.
  - apply list_elem_of_In. vm_compute. tauto.
  - reflexivity.
Defined.

(** ** The full scan *)

Lemma full_adaptive_scan_unfold {W} (sv : services W) (w : W) :
  full_adaptive_scan sv w =
  match create_sync_log sv (py "full_adaptive_scan") w with
  | (Raise e, w1) => failed sv None e w1
  | (Return sync_id, w1) =>
      match run sv sync_id w1 with
      | (Return out, w2) => (Return out, w2)
      | (Raise e, w2) => failed sv (Some sync_id) e w2
      end
  end.
Proof.
  unfold full_adaptive_scan, bindM, attempt, try_except.
  by destruct (create_sync_log sv (py "full_adaptive_scan") w) as [[id|e] w1].
Qed.

Lemma failed_returns_error {W} (sv : services W) (id : option value) (e : exn) (w : W)
    (fr : full_results) (w' : W) :
  failed sv id e w <> (Return (ScanResults fr), w').
Proof.
  unfold failed, bindM. destruct id as [id|].
  - destruct (now sv w) as [[t|e1] w1]; [|done].
    destruct (update_sync_log sv id (py "failed") _ w1) as [[[]|e2] w2]; done.
  - done.
Qed.

Lemma process_module_sync_id {W} (sv : services W) (module : dict) (full full' : full_results)
    (w w' : W) :
  process_module sv module full w = (Return full', w') -> sync_id full' = sync_id full.
Proof.
  unfold process_module, try_except, bindM, dict_subscript.
  destruct (dict_has (py "name") module).
  - unfold ret at 1. destruct (scan_module_smart sv module w) as [[[s|msg]|e] w1];
      unfold ret; intros H; injection H as <- _; reflexivity.
  - unfold raise, ret. intros H; injection H as <- _; reflexivity.
Qed.

Lemma for_each_sync_id {W} (sv : services W) (modules : list dict)
    (full full' : full_results) (w w' : W) :
  for_each modules (process_module sv) full w = (Return full', w') ->
  sync_id full' = sync_id full.
Proof.
  revert full w. induction modules as [|m ms IH]; intros full w.
  - cbn [for_each]. unfold ret. by intros [= <- _].
  - cbn [for_each]. unfold bindM at 1.
    destruct (process_module sv m full w) as [[full1|e] w1] eqn:E; [|done].
    intros H. rewrite (IH _ _ H). by apply process_module_sync_id in E.
Qed.

(** C6, as the code has it. A run that returns its results has ended
    with one update of its sync log, to "completed" when its error list
    is empty and to "completed_with_errors" otherwise. That list takes
    one message for a module whose scan failed as a whole, and none for
    a module whose scan returned, whatever per-file errors the module's
    own result holds. When the creation of the sync log raises, the scan
    returns an error record with the message, makes no update, and the
    committed store is the one before the call. *)
Theorem scan_terminal_status {W} (sv : services W) (w : W) :
  (forall fr w',
      full_adaptive_scan sv w = (Return (ScanResults fr), w') ->
      exists w4,
        update_sync_log sv (sync_id fr) (final_status (fr_errors fr)) (final_kwargs fr) w4
        = (Return tt, w')) /\
  final_status [] = py "completed" /\
  (forall msg errs, final_status (msg :: errs) = py "completed_with_errors") /\
  (forall module full s w',
      dict_has (py "name") module = true ->
      scan_module_smart sv module w = (Return (ModuleOk s), w') ->
      process_module sv module full w = (Return (fr_add_module s full), w') /\
      fr_errors (fr_add_module s full) = fr_errors full) /\
  (forall module full msg w',
      dict_has (py "name") module = true ->
      scan_module_smart sv module w = (Return (ModuleError msg), w') ->
      process_module sv module full w = (Return (fr_add_error msg full), w') /\
      fr_errors (fr_add_error msg full) = fr_errors full ++ [msg]) /\
  (forall e w1,
      create_sync_log sv (py "full_adaptive_scan") w = (Raise e, w1) ->
      full_adaptive_scan sv w =
        (Return (ScanError (py "Error en escaneo completo: " ++ str_exn e)), w1)) /\
  (forall schemas sync_type (sw sw1 : world) e,
      Dao.create_sync_log schemas sync_type sw = (Raise e, sw1) ->
      committed sw1 = committed sw).
Proof.
  split; [|split; [reflexivity|split; [reflexivity|split; [|split; [|split]]]]].
  - intros fr w' H. rewrite full_adaptive_scan_unfold in H.
    destruct (create_sync_log sv (py "full_adaptive_scan") w) as [[id|e] w1];
      [|by apply failed_returns_error in H].
    destruct (run sv id w1) as [[out|e] w2] eqn:Hrun;
      [|by apply failed_returns_error in H].
    injection H as -> ->.
    unfold run, bindM in Hrun.
    destruct (sync_modules_to_db sv w1) as [[s|e] w3]; [|done].
    destruct (get_all_modules sv w3) as [[ms|e] w4]; [|done].
    destruct (for_each ms (process_module sv) _ w4) as [[full|e] w5] eqn:Hloop; [|done].
    destruct (update_sync_log sv id (final_status (fr_errors full)) (final_kwargs full) w5)
      as [[[]|e] w6] eqn:Hup; [|done].
    unfold ret in Hrun. injection Hrun as <- <-.
    apply for_each_sync_id in Hloop. cbn [sync_id] in Hloop.
    exists w5. destruct full; cbn [shared sync_id fr_errors] in *. subst. exact Hup.
  - intros module full s w' Hname Hscan.
    unfold process_module, try_except, bindM, dict_subscript. rewrite Hname.
    unfold ret at 1. rewrite Hscan. split; [reflexivity|]. by destruct full.
  - intros module full msg w' Hname Hscan.
    unfold process_module, try_except, bindM, dict_subscript. rewrite Hname.
    unfold ret at 1. rewrite Hscan. split; [reflexivity|]. by destruct full.
  - intros e w1 H. rewrite full_adaptive_scan_unfold, H. reflexivity.
  - intros schemas sync_type sw sw1 e. unfold Dao.create_sync_log.
    unfold bindM at 1. unfold datetime_now at 1. unfold bindM at 1.
    destruct (lift _ _) as [[qv|e1] sw2] eqn:Hl.
    + unfold lift in Hl. injection Hl as _ <-.
      pose proof (get_cursor_insert qv.1 qv.2 (py "id")
                    (World (committed sw) (clock sw + 1) (attempts sw) (connect_fault sw)
                       (commit_fault sw) (rollback_fault sw) (trace sw))) as Hc.
      cbv zeta in Hc. intros H. rewrite H in Hc. cbn [fst snd] in Hc.
      destruct Hc as [(e' & _ & Hc) | (st & rows & db & id & _ & _ & Hc & _)]; [done|done].
    + unfold lift in Hl. injection Hl as _ <-. intros H. by injection H as _ <-.
Qed.

(** A run in which the one file fails at [create_submission]: the
    module's result counts the error, the run's error list stays empty
    and the sync log ends "completed". *)
Lemma per_file_error_ends_completed :
  match scan_without_submissions.1 with
  | Return (ScanResults fr) =>
      map md_errors (module_details fr) = [1%nat] /\
      fr_errors fr = [] /\
      sync_statuses scan_without_submissions.2 = [VStr (py "completed")]
  | _ => False
  end.
Proof. vm_compute. repeat split; reflexivity. Qed.

Lemma failed_unfold {W} (sv : services W) (sync_id : value) (e : exn) (w : W) :
  failed sv (Some sync_id) e w =
  match now sv w with
  | (Return t, w1) =>
      match update_sync_log sv sync_id (py "failed")
              [ (py "error_details",
                 VDumpsFailure (py "Error en escaneo completo: " ++ str_exn e) t) ] w1 with
      | (Return _, w2) =>
          (Return (ScanError (py "Error en escaneo completo: " ++ str_exn e)), w2)
      | (Raise e2, w2) => (Raise e2, w2)
      end
  | (Raise e1, w1) => (Raise e1, w1)
  end.
Proof.
  unfold failed, bindM. destruct (now sv w) as [[t|e1] w1]; [|reflexivity].
  by destruct (update_sync_log sv sync_id (py "failed") _ w1) as [[[]|e2] w2].
Qed.

(** C9, as the code has it. The handler of a run-level error calls
    [update_sync_log] with status "failed" outside any [try]: when that
    call raises, its exception leaves [full_adaptive_scan] in place of
    the error record that carries the original message. In the run over
    a store lost after the creation of the sync log, the body fails with
    "server closed the connection unexpectedly", the update of the
    handler fails with "could not connect to server", and the caller
    gets the second exception; the sync log stays "running". *)
Theorem secondary_failure_escapes {W} (sv : services W) (sync_id : value) (e : exn) (w : W) :
  (forall t w1 e2 w2,
      now sv w = (Return t, w1) ->
      update_sync_log sv sync_id (py "failed")
        [ (py "error_details",
           VDumpsFailure (py "Error en escaneo completo: " ++ str_exn e) t) ] w1
      = (Raise e2, w2) ->
      failed sv (Some sync_id) e w = (Raise e2, w2)) /\
  body_store_lost = Raise (OperationalError (py "server closed the connection unexpectedly")) /\
  scan_store_lost.1 = Raise (OperationalError (py "could not connect to server")) /\
  sync_statuses scan_store_lost.2 = [VStr (py "running")].
Proof.
  split; [|split; [|split]].
  - intros t w1 e2 w2 Hnow Hup. rewrite failed_unfold, Hnow, Hup. reflexivity.
  - vm_compute. reflexivity.
  - vm_compute. reflexivity.
  - vm_compute. reflexivity.
Qed.

(** ** Inserts and their conflict clauses *)

Lemma build_insert_query_eq (schemas : gmap pystr table_schema) (table_name : pystr)
    (data : dict) :
  Dao._build_insert_query schemas table_name data =
  match schemas !! table_name with
  | None => Raise (ValueError (py "Tabla " ++ table_name ++ py " no encontrada en schema"))
  | Some sch =>
      match Dao.surviving (column_names sch) data with
      | [] => Raise (ValueError (py "No hay columnas válidas para insertar en " ++ table_name))
      | kept => Return (Dao.insert_statement table_name kept.*1, kept.*2)
      end
  end.
Proof.
  unfold Dao._build_insert_query.
  destruct (schemas !! table_name) as [sch|]; [|reflexivity].
  rewrite insert_loop_filter. cbn [app].
  by destruct (Dao.surviving (column_names sch) data) as [|[c v] kept].
Qed.

Lemma surviving_sublist (cols : list pystr) (data : dict) :
  sublist (Dao.surviving cols data).*1 data.*1.
Proof. apply fmap_sublist. unfold Dao.surviving. apply sublist_filter. Qed.

(** *** The text of an insert *)

Lemma ident_char_plain (c : N) :
  ident_char c = true ->
  is_space c = false /\ is_sym c = false /\ (c =? chr "%")%N = false /\
  (c =? chr "R")%N = false.
Proof.
  intros H.
  assert (c ∈ N.of_nat <$> seq 95 28) as Hin.
  { apply list_elem_of_fmap. exists (N.to_nat c). split; [lia|].
    apply elem_of_seq. unfold ident_char, between in H.
    apply orb_true_iff in H as [H|H].
    - apply andb_true_iff in H as [H1 H2]. apply N.leb_le in H1, H2. lia.
    - apply N.eqb_eq in H. lia. }
  revert H. vm_compute in Hin.
  repeat (apply elem_of_cons in Hin as [->|Hin]; [vm_compute; try discriminate; tauto|]).
  by apply elem_of_nil in Hin.
Qed.

Lemma lex_word (w cur r : pystr) :
  forallb ident_char w = true -> lex cur (w ++ r) = lex (rev w ++ cur) r.
Proof.
  revert cur. induction w as [|c w IH]; intros cur H; [reflexivity|].
  cbn [forallb] in H. apply andb_true_iff in H as [Hc Hw].
  destruct (ident_char_plain c Hc) as (H1 & H2 & H3 & _).
  cbn [app lex]. rewrite H1, H2, H3, (IH _ Hw). cbn [rev]. by rewrite <- app_assoc.
Qed.

Lemma flush_rev (w : pystr) (ts : list token) :
  w <> [] -> flush (rev w) ts = TWord w :: ts.
Proof.
  intros Hw. destruct (rev w) as [|c r] eqn:E.
  - apply (f_equal (@rev N)) in E. rewrite rev_involutive in E. done.
  - unfold flush. by rewrite <- E, rev_involutive.
Qed.

Lemma identifier_spec (w : pystr) :
  identifier w = true -> w <> [] /\ forallb ident_char w = true.
Proof. destruct w; [discriminate|]. done. Qed.

(** An identifier before a delimiter is one word. *)
Lemma lex_identifier (w r : pystr) :
  identifier w = true -> lex [] (w ++ r) = lex (rev w) r.
Proof.
  intros H. apply identifier_spec in H as [_ H]. rewrite (lex_word _ _ _ H).
  by rewrite app_nil_r.
Qed.

Lemma lex_comma (w r : pystr) :
  w <> [] -> lex (rev w) (py ", " ++ r) = TWord w :: TSym (chr ",") :: lex [] r.
Proof. intros Hw. change (lex (rev w) (py ", " ++ r)) with (flush (rev w) (TSym (chr ",") :: lex [] r)). by apply flush_rev. Qed.

Lemma lex_close (w r : pystr) :
  w <> [] -> lex (rev w) (py ")" ++ r) = TWord w :: TSym (chr ")") :: lex [] r.
Proof. intros Hw. change (lex (rev w) (py ")" ++ r)) with (flush (rev w) (TSym (chr ")") :: lex [] r)). by apply flush_rev. Qed.

(** The column list of an insert reads back as its columns. *)
Lemma parse_names_join (cols : list pystr) (r : pystr) :
  cols <> [] -> forallb identifier cols = true ->
  parse_names (lex [] (join (py ", ") cols ++ py ")" ++ r)) = Some (cols, lex [] r).
Proof.
  induction cols as [|w cols IH]; [done|]. intros _ H.
  cbn [forallb] in H. apply andb_true_iff in H as [Hw Hcols].
  pose proof (identifier_spec _ Hw) as [Hne _].
  destruct cols as [|w2 cols].
  - cbn [join]. rewrite (lex_identifier _ _ Hw), (lex_close _ _ Hne). reflexivity.
  - change (join (py ", ") (w :: w2 :: cols))
      with (w ++ py ", " ++ join (py ", ") (w2 :: cols)).
    rewrite <- !app_assoc, (lex_identifier _ _ Hw), (lex_comma _ _ Hne).
    cbn [parse_names].
    change (is_tok (TSym (chr ",")) (sym ")")) with false.
    change (is_tok (TSym (chr ",")) (sym ",")) with true. cbv iota.
    rewrite IH; [reflexivity|done|exact Hcols].
Qed.

(** The placeholder list reads back as their number. *)
Lemma parse_params_join {A} (cols : list A) (r : pystr) :
  cols <> [] ->
  parse_params (lex [] (join (py ", ") (map (fun _ => py "%s") cols) ++ py ")" ++ r))
  = Some (length cols, lex [] r).
Proof.
  induction cols as [|w cols IH]; [done|]. intros _.
  destruct cols as [|w2 cols].
  - reflexivity.
  - change (join (py ", ") (map (fun _ => py "%s") (w :: w2 :: cols)))
      with (py "%s, " ++ join (py ", ") (map (fun _ : A => py "%s") (w2 :: cols))).
    rewrite <- !app_assoc.
    change (lex [] (py "%s, " ++ ?s)) with (TParam :: TSym (chr ",") :: lex [] s).
    cbn [parse_params].
    change (is_tok (TSym (chr ",")) (sym ")")) with false.
    change (is_tok (TSym (chr ",")) (sym ",")) with true. cbv iota.
    rewrite IH; [reflexivity|done].
Qed.

Lemma insert_statement_with (t : pystr) (cols : list pystr) :
  Dao.insert_statement t cols = insert_with t cols returning_tail.
Proof. reflexivity. Qed.

Lemma returning_skip (new A s : pystr) :
  forallb plain_char A = true ->
  replace_from (py "RETURNING id") new 0 (A ++ s) =
  A ++ replace_from (py "RETURNING id") new 0 s.
Proof.
  induction A as [|c A IH]; [done|]. cbn [forallb]. intros H.
  apply andb_true_iff in H as [Hc HA]. unfold plain_char in Hc.
  apply negb_true_iff in Hc. rewrite N.eqb_sym in Hc.
  cbn [app]. change (py "RETURNING id") with (chr "R" :: py "ETURNING id").
  cbn [replace_from startswith]. rewrite Hc. cbn [andb]. f_equal. exact (IH HA).
Qed.

Lemma plain_identifier (w : pystr) : forallb ident_char w = true -> forallb plain_char w = true.
Proof.
  induction w as [|c w IH]; [done|]. cbn [forallb]. intros H.
  apply andb_true_iff in H as [Hc Hw]. rewrite (IH Hw), andb_true_r.
  unfold plain_char. destruct (ident_char_plain c Hc) as (_ & _ & _ & ->). reflexivity.
Qed.

Lemma plain_join (sep : pystr) (l : list pystr) :
  forallb plain_char sep = true -> forallb (forallb plain_char) l = true ->
  forallb plain_char (join sep l) = true.
Proof.
  intros Hsep. induction l as [|x l IH]; [done|]. cbn [forallb]. intros H.
  apply andb_true_iff in H as [Hx Hl]. destruct l as [|y l]; [exact Hx|].
  change (join sep (x :: y :: l)) with (x ++ sep ++ join sep (y :: l)).
  rewrite !forallb_app, Hx, Hsep, (IH Hl). reflexivity.
Qed.

Lemma plain_columns (cols : list pystr) :
  forallb identifier cols = true -> forallb (forallb plain_char) cols = true.
Proof.
  induction cols as [|w cols IH]; [done|]. cbn [forallb]. intros H.
  apply andb_true_iff in H as [Hw Hcols]. rewrite (IH Hcols), andb_true_r.
  apply plain_identifier. by apply identifier_spec.
Qed.

Lemma plain_placeholders {A} (cols : list A) :
  forallb (forallb plain_char) (map (fun _ => py "%s") cols) = true.
Proof. induction cols as [|w cols IH]; [done|]. cbn [map forallb]. by rewrite IH. Qed.

(** [replace] puts the clause where "RETURNING id" stands. *)
Lemma replace_insert_with (t : pystr) (cols : list pystr) (clause : pystr) :
  identifier t = true -> forallb identifier cols = true ->
  replace (py "RETURNING id") clause (insert_with t cols returning_tail) =
  insert_with t cols (clause_tail clause).
Proof.
  intros Ht Hcols. apply identifier_spec in Ht as [_ Ht].
  change (replace (py "RETURNING id") clause (insert_with t cols returning_tail))
    with (replace_from (py "RETURNING id") clause 0 (insert_with t cols returning_tail)).
  unfold insert_with.
  change (replace_from (py "RETURNING id") clause 0
            (nl ++ spaces 12 ++ py "INSERT INTO " ++ ?s))
    with (nl ++ spaces 12 ++ py "INSERT INTO " ++ replace_from (py "RETURNING id") clause 0 s).
  do 3 f_equal.
  rewrite (returning_skip _ t) by by apply plain_identifier. f_equal.
  rewrite (returning_skip _ (py " (")) by reflexivity. f_equal.
  rewrite (returning_skip _ (join _ cols))
    by (apply plain_join; [reflexivity | by apply plain_columns]). f_equal.
  rewrite (returning_skip _ (py ")")) by reflexivity. f_equal.
  rewrite (returning_skip _ nl) by reflexivity. f_equal.
  rewrite (returning_skip _ (spaces 12)) by reflexivity. f_equal.
  rewrite (returning_skip _ (py "VALUES (")) by reflexivity. f_equal.
  rewrite (returning_skip _ (join _ _))
    by (apply plain_join; [reflexivity | apply plain_placeholders]).
  reflexivity.
Qed.

(** An insert of identifier columns reads back as the insert of these
    columns, with the conflict clause that its tail holds. *)
Lemma parse_insert_with (t : pystr) (cols : list pystr) (tail : pystr) :
  identifier t = true -> cols <> [] -> forallb identifier cols = true ->
  parse_sql (insert_with t cols tail) =
  (oc ← parse_on_conflict (tokens tail); Some (SInsert t cols (length cols) oc)).
Proof.
  intros Ht Hne Hcols. pose proof (identifier_spec _ Ht) as [Htne _].
  unfold parse_sql, tokens, insert_with.
  change (lex [] (nl ++ spaces 12 ++ py "INSERT INTO " ++ ?s))
    with (TWord (py "INSERT") :: word "INTO" :: lex [] s).
  cbv beta iota.
  change (str_eqb (py "INSERT") (py "INSERT")) with true. cbv iota.
  change (after [word "INTO"] (word "INTO" :: ?r)) with (Some r). cbv iota.
  rewrite (lex_identifier _ _ Ht).
  change (lex (rev t) (py " (" ++ ?s)) with (flush (rev t) (TSym (chr "(") :: lex [] s)).
  rewrite (flush_rev _ _ Htne). cbn [parse_insert].
  change (after [sym "("] (TSym (chr "(") :: ?r)) with (Some r).
  cbn [mbind option_bind]. rewrite (parse_names_join _ _ Hne Hcols).
  cbn [mbind option_bind].
  change (lex [] (nl ++ spaces 12 ++ py "VALUES (" ++ ?s))
    with (word "VALUES" :: sym "(" :: lex [] s).
  change (after [word "VALUES"; sym "("] (word "VALUES" :: sym "(" :: ?r)) with (Some r).
  cbn [mbind option_bind].
  rewrite (parse_params_join _ _ Hne). reflexivity.
Qed.

Lemma tails_parse :
  parse_on_conflict (tokens returning_tail) = Some None /\
  parse_on_conflict (tokens (clause_tail Dao.student_conflict_clause)) = Some student_conflict /\
  parse_on_conflict (tokens (clause_tail Dao.submission_conflict_clause))
  = Some submission_conflict.
Proof. repeat split; vm_compute; reflexivity. Qed.

(** *** What an insert does to the rows *)

Lemma find_collision_Some (u : pystr) (r : row) (rows : list row) (i : nat) :
  find_collision u r rows = Some i ->
  exists r', rows !! i = Some r' /\ collide u r r' = true.
Proof.
  revert i. induction rows as [|r0 rows IH]; intros i; cbn [find_collision]; [done|].
  destruct (collide u r r0) eqn:E.
  - intros [= <-]. eauto.
  - destruct (find_collision u r rows) as [j|]; [|done].
    intros [= <-]. exact (IH j eq_refl).
Qed.

Lemma find_collision_None (u : pystr) (r : row) (rows : list row) :
  find_collision u r rows = None -> forall r', r' ∈ rows -> collide u r r' = false.
Proof.
  induction rows as [|r0 rows IH]; cbn [find_collision]; intros H r' Hin.
  - by apply elem_of_nil in Hin.
  - destruct (collide u r r0) eqn:E; [done|].
    destruct (find_collision u r rows) as [j|]; [done|].
    apply elem_of_cons in Hin as [->|Hin]; [exact E|by apply IH].
Qed.

(** An insert that returns has either appended the proposed row, and
    then no row was in conflict with it, or assigned the conflict clause
    on the row in conflict. *)
Lemma exec_insert_cases (now : Z) (name : pystr) (cols : list pystr) (params : nat)
    (oc : option (pystr * list (pystr * sexpr))) (args : list value)
    (db db' : database) (out : list dict) :
  exec_insert now name cols params oc args db = Return (out, db') ->
  exists t, db !! name = Some t /\ NoDup cols /\
    ((out = [[(id_col, cell (proposed t cols args) id_col)]] /\
      db' = <[name := with_rows t (t_rows t ++ [proposed t cols args]) (t_next_id t + 1)]> db /\
      forall target sets, oc = Some (target, sets) ->
        find_collision target (proposed t cols args) (t_rows t) = None) \/
     (exists target sets i old,
        oc = Some (target, sets) /\ t_rows t !! i = Some old /\
        collide target (proposed t cols args) old = true /\
        let new := fold_left (assign_conflict now (proposed t cols args)) sets old in
        out = [[(id_col, cell new id_col)]] /\
        db' = <[name := with_rows t (<[i := new]> (t_rows t)) (t_next_id t + 1)]> db)).
Proof.
  unfold exec_insert. intros H.
  destruct (db !! name) as [t|]; [|done]. exists t. split; [done|].
  destruct (bool_decide (length cols = params ∧ length args = params)); [|done].
  destruct (bool_decide (NoDup cols)) eqn:Hnd; [|done].
  apply bool_decide_eq_true in Hnd. split; [done|].
  cbn [negb] in H.
  destruct (first_missing cols t); [done|]. cbv zeta in H.
  assert (
    (if unique_ok (t_unique t) (proposed t cols args) (t_rows t)
     then bind (returning t (proposed t cols args)) (fun out0 =>
            Return (out0, <[name := with_rows t (t_rows t ++ [proposed t cols args])
                                      (t_next_id t + 1)]> db))
     else Raise unique_violation) = Return (out, db') ->
    out = [[(id_col, cell (proposed t cols args) id_col)]] /\
    db' = <[name := with_rows t (t_rows t ++ [proposed t cols args]) (t_next_id t + 1)]> db)
    as Hplain.
  { intros Hp. destruct (unique_ok _ _ _); [|done]. unfold returning in Hp.
    destruct (bool_decide (id_col ∈ t_columns t)); [|done].
    cbn [bind] in Hp. by injection Hp as <- <-. }
  destruct oc as [[target sets]|].
  - destruct (bool_decide (target ∈ t_unique t)); [|done]. cbn [negb] in H.
    destruct (first_missing (target :: sets.*1 ++ excluded_cols sets) t); [done|].
    destruct (find_collision target (proposed t cols args) (t_rows t)) as [i|] eqn:Hfc.
    + destruct (find_collision_Some _ _ _ _ Hfc) as (old & Hold & Hcol).
      rewrite Hold in H. right. exists target, sets, i, old.
      split; [done|]. split; [done|]. split; [done|]. cbv zeta.
      destruct (unique_ok _ _ _); [|done]. unfold returning in H.
      destruct (bool_decide (id_col ∈ t_columns t)); [|done].
      cbn [bind] in H. by injection H as <- <-.
    + left. destruct (Hplain H) as [-> ->]. split; [done|]. split; [done|].
      by intros ?? [= <- <-].
  - left. destruct (Hplain H) as [-> ->]. split; [done|]. split; [done|]. done.
Qed.

(** The cells of the proposed row are the fields handed to the insert. *)
Lemma cells_lookup_elem (kept : dict) (c : pystr) (v : value) :
  foldr (fun cv acc => set_cell cv.1 cv.2 acc) (∅ : row) kept !! c = Some v ->
  (c, v) ∈ kept.
Proof.
  induction kept as [|[c' v'] kept IH]; cbn [foldr fst snd].
  - by rewrite lookup_empty.
  - destruct (decide (c' = c)) as [->|Hne].
    + unfold set_cell. destruct v'.
      1: by rewrite lookup_delete_eq.
      all: rewrite lookup_insert_eq; intros [= <-]; apply list_elem_of_here.
    + rewrite set_cell_other by done. intros H. apply list_elem_of_further. by apply IH.
Qed.

Lemma cells_lookup_in (kept : dict) (c : pystr) (v : value) :
  NoDup kept.*1 -> (c, v) ∈ kept -> is_not_none v = true ->
  foldr (fun cv acc => set_cell cv.1 cv.2 acc) (∅ : row) kept !! c = Some v.
Proof.
  induction kept as [|[c' v'] kept IH]; cbn [foldr fst snd fmap list_fmap];
    intros Hnd Hin Hv.
  - by apply elem_of_nil in Hin.
  - apply NoDup_cons in Hnd as [Hc' Hnd].
    apply elem_of_cons in Hin as [[= -> ->]|Hin].
    + by apply set_cell_same.
    + rewrite set_cell_other; [by apply IH|].
      intros ->. apply Hc'. apply list_elem_of_fmap. by exists (c, v).
Qed.

Lemma proposed_lookup (t : table) (cols : list pystr) (args : list value) (c : pystr) :
  c <> id_col ->
  proposed t cols args !! c =
  foldr (fun cv acc => set_cell cv.1 cv.2 acc) (∅ : row) (zip cols args) !! c.
Proof.
  intros Hne. unfold proposed.
  destruct (bool_decide (id_col ∈ t_columns t) && negb (bool_decide (id_col ∈ cols)));
    [|done]. by rewrite lookup_insert_ne.
Qed.

(** ** Students *)


Lemma identifier_surviving (cols : list pystr) (data : dict) :
  forallb identifier data.*1 = true ->
  forallb identifier (Dao.surviving cols data).*1 = true.
Proof.
  induction data as [|[k v] data IH]; [done|]. cbn [fmap list_fmap forallb fst].
  intros H. apply andb_true_iff in H as [Hk Hd]. unfold Dao.surviving.
  rewrite filter_cons. cbn [fst snd]. fold (Dao.surviving cols data).
  destruct (decide _) as [_|_]; [|by apply IH].
  cbn [fmap list_fmap forallb fst]. by rewrite Hk, (IH Hd).
Qed.

(** The statement of an insert built for identifier keys, with the
    clause [clause] or without one. *)
Lemma insert_query_parses (schemas : gmap pystr table_schema) (t : pystr) (data : dict)
    (q : pystr) (vs : list value) :
  identifier t = true -> forallb identifier data.*1 = true ->
  Dao._build_insert_query schemas t data = Return (q, vs) ->
  let kept := Dao.surviving (Dao.columns_of schemas t) data in
  kept <> [] /\ vs = kept.*2 /\ q = insert_with t kept.*1 returning_tail /\
  (forall tail,
      parse_sql (insert_with t kept.*1 tail) =
      (oc ← parse_on_conflict (tokens tail); Some (SInsert t kept.*1 (length kept.*1) oc))) /\
  (forall clause,
      replace (py "RETURNING id") clause q = insert_with t kept.*1 (clause_tail clause)).
Proof.
  intros Ht Hd. rewrite build_insert_query_eq. unfold Dao.columns_of.
  destruct (schemas !! t) as [sch|]; [|done].
  pose proof (identifier_surviving (column_names sch) data Hd) as Hk.
  destruct (Dao.surviving (column_names sch) data) as [|kv kept] eqn:E; [done|].
  intros [= <- <-]. cbv zeta. split; [done|]. split; [done|].
  rewrite insert_statement_with. split; [done|]. split.
  - intros tail. by apply parse_insert_with.
  - intros clause. by apply replace_insert_with.
Qed.

Lemma student_query_parses (schemas : gmap pystr table_schema) (name email : option pystr)
    (q : pystr) (vs : list value) :
  Dao.student_query schemas name email = Return (q, vs) ->
  let kept := Dao.surviving (Dao.columns_of schemas (py "students"))
                [ (py "full_name", of_opt_str name); (py "email", of_opt_str email) ] in
  kept <> [] /\ vs = kept.*2 /\
  parse_sql q =
    Some (SInsert (py "students") kept.*1 (length kept.*1)
            (if bool_decide (py "email" ∈ Dao.columns_of schemas (py "students"))
                && Dao.usable_email email
             then student_conflict else None)).
Proof.
  unfold Dao.student_query. cbv zeta.
  destruct (Dao._build_insert_query schemas (py "students") _) as [[q0 vs0]|e] eqn:Hb.
  2: { by destruct (_ && _). }
  apply insert_query_parses in Hb as (Hne & Hvs & Hq & Hparse & Hrep); [|reflexivity..].
  destruct (_ && _); cbn [bind fst snd]; intros [= <- <-];
    (split; [exact Hne|]); (split; [exact Hvs|]).
  - etransitivity; [exact (f_equal parse_sql (Hrep _))|]. rewrite Hparse.
    destruct tails_parse as (_ & -> & _). reflexivity.
  - rewrite Hq, Hparse. destruct tails_parse as (-> & _). reflexivity.
Qed.

Lemma valid_email_of_Some (r : row) (e : pystr) :
  valid_email_of r = Some e <-> r !! py "email" = Some (VStr e) /\ contains (py "@") e = true.
Proof.
  unfold valid_email_of. destruct (r !! py "email") as [[]|]; try (split; [done|by intros [??]]).
  destruct (contains (py "@") s) eqn:E; split.
  - by intros [= ->].
  - by intros [[= ->] _].
  - done.
  - intros [[= ->] ?]. congruence.
Qed.

Lemma valid_email_of_ext (r r' : row) :
  r' !! py "email" = r !! py "email" -> valid_email_of r' = valid_email_of r.
Proof. unfold valid_email_of. by intros ->. Qed.

Lemma omap_insert_same {A B} (f : A -> option B) (l : list A) (i : nat) (x y : A) :
  l !! i = Some x -> f y = f x -> omap f (<[i := y]> l) = omap f l.
Proof.
  revert i. induction l as [|a l IH]; intros [|i]; try done.
  - intros [= ->] Hf.
    change (omap f (y :: l) = omap f (x :: l)).
    change (omap f (?a :: l)) with (match f a with Some b => b :: omap f l | None => omap f l end).
    by rewrite Hf.
  - intros Hl Hf.
    change (omap f (a :: <[i := y]> l) = omap f (a :: l)).
    change (omap f (a :: ?k)) with (match f a with Some b => b :: omap f k | None => omap f k end).
    by rewrite (IH i Hl Hf).
Qed.

Lemma collide_spec (u : pystr) (r r' : row) :
  collide u r r' = true <-> exists v, r !! u = Some v /\ r' !! u = Some v.
Proof.
  unfold collide. destruct (r !! u) as [v|].
  - rewrite bool_decide_eq_true. split; [eauto|]. by intros (v' & [= ->] & ?).
  - split; [done|]. by intros (v' & ? & ?).
Qed.

(** The row that the conflict clause of [create_student] leaves. *)
Lemma student_conflict_row (now : Z) (prop old : row) (target : pystr)
    (sets : list (pystr * sexpr)) :
  student_conflict = Some (target, sets) ->
  target = py "email" /\
  fold_left (assign_conflict now prop) sets old =
  set_cell (py "updated_at") (VTime now)
    (set_cell (py "full_name") (cell prop (py "full_name")) old).
Proof. intros [= <- <-]. split; reflexivity. Qed.

(** An insert into students that either carries the conflict clause on
    the email or proposes no valid email keeps the valid emails free of
    duplicates. *)
Lemma insert_keeps_emails (now : Z) (cols : list pystr) (params : nat)
    (oc : option (pystr * list (pystr * sexpr))) (args : list value)
    (db db' : database) (out : list dict) :
  exec_insert now (py "students") cols params oc args db = Return (out, db') ->
  oc = student_conflict \/
    (oc = None /\ forall t, valid_email_of (proposed t cols args) = None) ->
  NoDup (student_emails db) -> NoDup (student_emails db').
Proof.
  intros Hex Hoc Hnd. apply exec_insert_cases in Hex as (t & Ht & _ & Hcase).
  unfold student_emails in *. rewrite Ht in Hnd.
  destruct Hcase as [(_ & -> & Hfree) | (target & sets & i & old & -> & Hold & Hcol & Hnew)].
  - rewrite lookup_insert_eq. cbn [t_rows with_rows]. rewrite omap_app.
    change (omap valid_email_of [?x])
      with (match valid_email_of x with Some b => [b] | None => [] end).
    destruct (valid_email_of (proposed t cols args)) as [e|] eqn:Hp.
    2: { by rewrite app_nil_r. }
    destruct Hoc as [-> | [_ Hnone]]; [|by rewrite Hnone in Hp].
    apply NoDup_app. split; [done|]. split; [|apply NoDup_singleton].
    intros x Hx Hxe. apply list_elem_of_singleton in Hxe as ->.
    apply list_elem_of_omap in Hx as (r & Hr & Hre).
    apply valid_email_of_Some in Hp as [Hp _]. apply valid_email_of_Some in Hre as [Hre _].
    pose proof (find_collision_None _ _ _ (Hfree _ _ eq_refl) r Hr) as Hc.
    assert (collide (py "email") (proposed t cols args) r = true) as Hc'
      by (apply collide_spec; eauto).
    congruence.
  - cbv zeta in Hnew. destruct Hnew as [_ ->].
    rewrite lookup_insert_eq. cbn [t_rows with_rows].
    destruct Hoc as [Hoc | [Hoc _]]; [|done].
    destruct (student_conflict_row now (proposed t cols args) old _ _ (eq_sym Hoc))
      as [_ ->].
    rewrite (omap_insert_same _ _ _ old); [done|done|].
    apply valid_email_of_ext.
    rewrite !set_cell_other by distinct_names. done.
Qed.

Lemma create_student_unfold (schemas : gmap pystr table_schema) (name email : option pystr)
    (w : world) :
  Dao.create_student schemas name email w =
  match Dao.student_query schemas name email with
  | Return qv =>
      get_cursor (_ <- execute qv.1 qv.2 ;;
                  result <- fetchone ;; subscript result (py "id")) w
  | Raise e => (Raise e, w)
  end.
Proof.
  unfold Dao.create_student. unfold bindM at 1, lift.
  by destruct (Dao.student_query schemas name email).
Qed.

Lemma usable_email_at (e : pystr) :
  contains (py "@") e = true -> Dao.usable_email (Some e) = true.
Proof.
  intros H. unfold Dao.usable_email. rewrite H.
  destruct e; [by rewrite contains_nil_at in H|reflexivity].
Qed.

Lemma proposed_cell_in (t : table) (kept : dict) (c : pystr) (v : value) :
  c <> id_col -> NoDup kept.*1 -> (c, v) ∈ kept -> is_not_none v = true ->
  proposed t kept.*1 kept.*2 !! c = Some v.
Proof.
  intros Hc Hnd Hin Hv. rewrite (proposed_lookup _ _ _ _ Hc), zip_fst_snd_id.
  by apply cells_lookup_in.
Qed.

Lemma proposed_cell_elem (t : table) (kept : dict) (c : pystr) (v : value) :
  c <> id_col -> proposed t kept.*1 kept.*2 !! c = Some v -> (c, v) ∈ kept.
Proof.
  intros Hc. rewrite (proposed_lookup _ _ _ _ Hc), zip_fst_snd_id.
  apply cells_lookup_elem.
Qed.

(** C5. When the email has an "@" and the students table has an email
    column, the statement of [create_student] is an insert with the
    clause ON CONFLICT (email) that assigns [full_name] from the new row
    and [updated_at]. A call that returns for an email that a row
    already holds adds no row: a row with that email now has the new
    name, and its id is the one returned. Every call leaves the valid
    emails of the students table free of duplicates when they were. *)
Theorem create_student_keeps_emails_unique (schemas : gmap pystr table_schema)
    (name email : option pystr) (w : world) :
  let out := Dao.create_student schemas name email w in
  (forall e q vs,
      email = Some e -> contains (py "@") e = true ->
      py "email" ∈ Dao.columns_of schemas (py "students") ->
      Dao.student_query schemas name email = Return (q, vs) ->
      exists cols,
        py "email" ∈ cols /\
        parse_sql q = Some (SInsert (py "students") cols (length cols) student_conflict)) /\
  (forall e n t i r id,
      email = Some e -> contains (py "@") e = true -> name = Some n ->
      py "email" ∈ Dao.columns_of schemas (py "students") ->
      py "full_name" ∈ Dao.columns_of schemas (py "students") ->
      committed w !! py "students" = Some t ->
      t_rows t !! i = Some r -> r !! py "email" = Some (VStr e) ->
      out.1 = Return id ->
      exists t' j r',
        committed out.2 !! py "students" = Some t' /\
        length (t_rows t') = length (t_rows t) /\
        t_rows t' !! j = Some r' /\
        r' !! py "email" = Some (VStr e) /\
        r' !! py "full_name" = Some (VStr n) /\
        id = cell r' (py "id")) /\
  (NoDup (student_emails (committed w)) -> NoDup (student_emails (committed out.2))).
Proof.
  cbv zeta. split; [|split].
  - intros e q vs -> He Hcol Hq.
    apply student_query_parses in Hq as (_ & _ & Hparse). cbv zeta in Hparse.
    rewrite (bool_decide_eq_true_2 _ Hcol), (usable_email_at _ He) in Hparse.
    eexists. split; [|exact Hparse].
    apply list_elem_of_fmap. exists (py "email", VStr e). split; [done|].
    apply surviving_elem. split; [done|]. split; [done|].
    apply list_elem_of_further, list_elem_of_here.
  - intros e n t i r id -> He -> Hcol Hname Ht Hr Hre Hout.
    rewrite create_student_unfold in Hout |- *.
    destruct (Dao.student_query schemas (Some n) (Some e)) as [[q vs]|e0] eqn:Hq; [|done].
    apply student_query_parses in Hq as (_ & -> & Hparse). cbv zeta in Hparse.
    rewrite (bool_decide_eq_true_2 _ Hcol), (usable_email_at _ He) in Hparse.
    cbn [andb fst snd of_opt_str] in *.
    set (kept := Dao.surviving (Dao.columns_of schemas (py "students"))
                   [(py "full_name", VStr n); (py "email", VStr e)]) in *.
    pose proof (get_cursor_insert q kept.*2 (py "id") w) as Hc. cbv zeta in Hc.
    destruct Hc as [(e1 & Hc & _) | (st & r0 & rest & db & Hst & Hex & Hid & Hdb)];
      [congruence|].
    rewrite Hparse in Hst. injection Hst as <-. cbn [exec] in Hex.
    apply exec_insert_cases in Hex as (t0 & Ht0 & Hnd & Hcase).
    rewrite Ht in Ht0. injection Ht0 as <-.
    assert ((py "email", VStr e) ∈ kept) as Hkept_email.
    { apply surviving_elem. split; [done|]. split; [done|].
      apply list_elem_of_further, list_elem_of_here. }
    assert ((py "full_name", VStr n) ∈ kept) as Hkept_name.
    { apply surviving_elem. split; [done|]. split; [done|]. apply list_elem_of_here. }
    assert (proposed t kept.*1 kept.*2 !! py "email" = Some (VStr e)) as Hpe
      by (apply proposed_cell_in; [distinct_names|done..]).
    assert (proposed t kept.*1 kept.*2 !! py "full_name" = Some (VStr n)) as Hpn
      by (apply proposed_cell_in; [distinct_names|done..]).
    destruct Hcase as [(_ & _ & Hfree) | (target & sets & j & old & Hoc & Hold & Hcol' & Hnew)].
    + pose proof (find_collision_None _ _ _ (Hfree _ _ eq_refl) r
                    (list_elem_of_lookup_2 _ _ _ Hr)) as Hno.
      assert (collide (py "email") (proposed t kept.*1 kept.*2) r = true) as Hyes
        by (apply collide_spec; eauto).
      congruence.
    + cbv zeta in Hnew.
      destruct (student_conflict_row (clock w) (proposed t kept.*1 kept.*2) old _ _ Hoc)
        as [-> Hrow].
      rewrite Hrow in Hnew. destruct Hnew as [Hout' ->].
      set (new := set_cell (py "updated_at") (VTime (clock w))
                    (set_cell (py "full_name")
                       (cell (proposed t kept.*1 kept.*2) (py "full_name")) old)) in *.
      apply collide_spec in Hcol' as (v & Hv & Hov). rewrite Hpe in Hv. injection Hv as <-.
      exists (with_rows t (<[j := new]> (t_rows t)) (t_next_id t + 1)), j, new.
      split; [by rewrite Hdb, lookup_insert_eq|].
      split; [by cbn [t_rows with_rows]; rewrite length_insert|].
      split; [cbn [t_rows with_rows]; apply list_lookup_insert_eq;
              by apply lookup_lt_Some in Hold|].
      split; [unfold new; by rewrite !set_cell_other by distinct_names|].
      split.
      * unfold new. rewrite set_cell_other by distinct_names.
        unfold cell at 1. rewrite Hpn. by apply set_cell_same.
      * rewrite Hid in Hout. injection Hout as <-.
        injection Hout' as ->. reflexivity.
  - intros Hnd. rewrite create_student_unfold.
    destruct (Dao.student_query schemas name email) as [[q vs]|e0] eqn:Hq; [|done].
    apply student_query_parses in Hq as (_ & -> & Hparse). cbv zeta in Hparse.
    cbn [fst snd].
    set (kept := Dao.surviving (Dao.columns_of schemas (py "students"))
                   [(py "full_name", of_opt_str name); (py "email", of_opt_str email)]) in *.
    pose proof (get_cursor_insert q kept.*2 (py "id") w) as Hc. cbv zeta in Hc.
    destruct Hc as [(e1 & _ & ->) | (st & r0 & rest & db & Hst & Hex & _ & ->)]; [done|].
    rewrite Hparse in Hst. injection Hst as <-. cbn [exec] in Hex.
    apply (insert_keeps_emails _ _ _ _ _ _ _ _ Hex); [|done].
    destruct (bool_decide (py "email" ∈ Dao.columns_of schemas (py "students"))
              && Dao.usable_email email) eqn:Hcond; [by left|right].
    split; [done|]. intros t.
    destruct (valid_email_of (proposed t kept.*1 kept.*2)) as [e|] eqn:Hv; [|done].
    exfalso. apply valid_email_of_Some in Hv as [Hv He].
    apply proposed_cell_elem in Hv; [|distinct_names].
    apply surviving_elem in Hv as (Hcol & _ & Hin).
    apply elem_of_cons in Hin as [Hin|Hin].
    { apply (f_equal fst) in Hin. revert Hin. distinct_names. }
    apply list_elem_of_singleton in Hin. apply (f_equal snd) in Hin. cbn [snd] in Hin.
    destruct email as [e'|]; [|done]. injection Hin as <-.
    by rewrite (bool_decide_eq_true_2 _ Hcol), (usable_email_at _ He) in Hcond.
Qed.

Lemma create_student_keeps_emails_unique_witness :
  exists t' j r',
    committed
      (Dao.create_student (discovered full_store) (Some (py "Ana Maria"))
         (Some (py "ana@uni.edu")) enrolled_world).2 !! py "students" = Some t' /\
    length (t_rows t') = length (t_rows enrolled_students) /\
    t_rows t' !! j = Some r' /\
    r' !! py "email" = Some (VStr (py "ana@uni.edu")) /\
    r' !! py "full_name" = Some (VStr (py "Ana Maria")) /\
    VInt 1 = cell r' (py "id").
Proof.
  pose proof (create_student_keeps_emails_unique (discovered full_store)
                (Some (py "Ana Maria")) (Some (py "ana@uni.edu")) enrolled_world) as H.
  cbv zeta in H. destruct H as (_ & H & _).
  apply (H (py "ana@uni.edu") (py "Ana Maria") enrolled_students 0%nat enrolled_row (VInt 1)).
  - reflexivity.
  - vm_compute. reflexivity.
  - reflexivity.
  - apply list_elem_of_In. vm_compute. tauto.
  - apply list_elem_of_In. vm_compute. tauto.
  - vm_compute. reflexivity.
  - vm_compute. reflexivity.
  - vm_compute. reflexivity.
  - vm_compute. reflexivity.
Defined.

(** ** Submissions *)

Lemma forallb_sublist {A} (f : A -> bool) (l k : list A) :
  sublist l k -> forallb f k = true -> forallb f l = true.
Proof.
  induction 1 as [|x l k _ IH|x l k _ IH]; cbn [forallb]; [done| |];
    intros H; apply andb_true_iff in H as [Hx Hk]; [|by apply IH].
  by rewrite Hx, IH.
Qed.

Lemma dict_set_new (k : pystr) (v : value) (d : dict) :
  k ∉ d.*1 -> dict_set k v d = d ++ [(k, v)].
Proof.
  induction d as [|[k' v'] d IH]; [done|]. cbn [fmap list_fmap fst]. intros H.
  apply not_elem_of_cons in H as [Hne Hd]. cbn [dict_set app]. unfold str_eqb.
  rewrite bool_decide_eq_false_2 by congruence. by rewrite IH.
Qed.

(** The loop of [create_submission] over a mapping with fresh, distinct
    keys appends the entries whose key is a column. *)
Lemma fold_dict_set_filter (cols : list pystr) (dm base : dict) :
  NoDup (base.*1 ++ dm.*1) ->
  fold_left (fun submission_data kv =>
               if bool_decide (kv.1 ∈ cols)
               then dict_set kv.1 kv.2 submission_data
               else submission_data) dm base =
  base ++ filter (fun kv => bool_decide (kv.1 ∈ cols)) dm.
Proof.
  revert base. induction dm as [|[k v] dm IH]; intros base Hnd.
  - by rewrite filter_nil, app_nil_r.
  - cbn [fold_left fst snd]. rewrite filter_cons. cbn [fst].
    cbn [fmap list_fmap fst] in Hnd.
    pose proof Hnd as Hnd'. apply NoDup_app in Hnd' as (Hb & Hdis & Hd).
    apply NoDup_cons in Hd as [Hk Hd].
    destruct (bool_decide (k ∈ cols)) eqn:E.
    + rewrite dict_set_new.
      2: { intros Hin. apply (Hdis k Hin). apply list_elem_of_here. }
      rewrite IH.
      2: { rewrite fmap_app, <- app_assoc. exact Hnd. }
      destruct (decide _) as [_|Hn]; [|by destruct Hn].
      by rewrite <- app_assoc.
    + rewrite IH.
      2: { apply NoDup_app. split; [done|]. split; [|done].
           intros x Hx Hx'. apply (Hdis x Hx). by apply list_elem_of_further. }
      by destruct (decide _) as [Hy|_]; [destruct Hy|].
Qed.

Lemma dict_set_extra (base extra : dict) (k : pystr) (v : value) :
  k ∉ base.*1 -> k ∉ extra.*1 ->
  dict_set k v (base ++ extra) = base ++ (extra ++ [(k, v)]).
Proof.
  intros Hb He. rewrite dict_set_new; [by rewrite app_assoc|].
  rewrite fmap_app. by apply not_elem_of_app.
Qed.

(** The drive mapping holds the eight fixed entries, then those of the
    optional keys that the metadata gives. *)
Lemma drive_mapping_shape (parse_date : pystr -> option Z) (fd : file_data) (size now : Z) :
  exists extra,
    Dao.drive_mapping_of parse_date fd size now =
      [ (py "file_id", of_opt_str (fd_id fd));
        (py "filename", of_opt_str (fd_name fd));
        (py "mime_type", of_opt_str (mimeType fd));
        (py "size_bytes", VInt size);
        (py "drive_url",
         VStr (py "https://drive.google.com/file/d/" ++ Dao.fmt_opt (fd_id fd) ++ py "/view"));
        (py "created_time", Dao._parse_drive_timestamp parse_date (createdTime fd));
        (py "modified_time", Dao._parse_drive_timestamp parse_date (modifiedTime fd));
        (py "detected_at", VTime now) ] ++ extra /\
    sublist extra.*1 optional_drive_keys.
Proof.
  unfold Dao.drive_mapping_of. cbv zeta.
  set (base := [ (py "file_id", of_opt_str (fd_id fd)); _; _; _; _; _; _; _ ]).
  assert (forall k, k ∈ optional_drive_keys -> k ∉ base.*1) as Hfresh.
  { intros k Hk. change (base.*1) with drive_keys. revert k Hk.
    apply Forall_forall. apply (bool_decide_unpack _). vm_compute. exact I. }
  destruct (lastModifyingUser fd) as [u|];
  destruct (owners fd) as [[|o os]|];
  destruct (bool_decide (size = 0%Z));
  destruct (fd_name fd) as [[|c f]|];
  try (rewrite (dict_set_new _ _ base)
         by (apply Hfresh, list_elem_of_In; vm_compute; tauto));
  repeat (rewrite dict_set_extra;
          [ cbn [app]
          | apply Hfresh, list_elem_of_In; vm_compute; tauto
          | cbn [fmap list_fmap fst app]; apply (bool_decide_unpack _); vm_compute; exact I ]);
  first [ eexists; split; [reflexivity|] | exists []; split; [by rewrite app_nil_r|] ];
  cbn [fmap list_fmap fst];
  repeat first [ apply sublist_nil | apply sublist_skip | apply sublist_cons ].
Qed.

Lemma submission_keys_distinct :
  NoDup submission_keys /\ forallb identifier submission_keys = true.
Proof.
  split; [|vm_compute; reflexivity].
  apply (bool_decide_unpack _). vm_compute. exact I.
Qed.

(** The mapping handed to the builder: the two references, then the
    entries of the drive mapping whose key is a column. *)
Lemma submission_data_shape (schemas : gmap pystr table_schema)
    (parse_date : pystr -> option Z) (module_id student_id : value) (fd : file_data)
    (size now : Z) :
  let dm := Dao.drive_mapping_of parse_date fd size now in
  let data := Dao.submission_data_of schemas module_id student_id dm in
  data = [ (py "module_id", module_id); (py "student_id", student_id) ]
           ++ filter (fun kv => bool_decide (kv.1 ∈ Dao.columns_of schemas (py "submissions")))
                dm /\
  forallb identifier data.*1 = true /\
  (py "file_id", of_opt_str (fd_id fd)) ∈ dm /\
  (py "size_bytes", VInt size) ∈ dm.
Proof.
  cbv zeta. destruct (drive_mapping_shape parse_date fd size now) as (extra & -> & Hextra).
  set (base := [ (py "file_id", of_opt_str (fd_id fd)); _; _; _; _; _; _; _ ]).
  destruct submission_keys_distinct as [Hnd Hid].
  assert (sublist ([py "module_id"; py "student_id"] ++ (base ++ extra).*1) submission_keys)
    as Hsub.
  { apply sublist_app; [done|]. rewrite fmap_app. apply sublist_app; [done|exact Hextra]. }
  assert (Dao.submission_data_of schemas module_id student_id (base ++ extra) =
          [ (py "module_id", module_id); (py "student_id", student_id) ]
            ++ filter (fun kv => bool_decide (kv.1 ∈ Dao.columns_of schemas (py "submissions")))
                 (base ++ extra)) as Heq.
  { unfold Dao.submission_data_of. cbv zeta. apply fold_dict_set_filter.
    exact (sublist_NoDup _ _ Hnd Hsub). }
  split; [exact Heq|]. split; [|split].
  - rewrite Heq. apply (forallb_sublist _ _ submission_keys); [|exact Hid].
    etransitivity; [|exact Hsub]. rewrite fmap_app. apply sublist_app; [done|].
    apply fmap_sublist, sublist_filter.
  - apply elem_of_app. left. apply list_elem_of_here.
  - apply elem_of_app. left. do 3 apply list_elem_of_further. apply list_elem_of_here.
Qed.

Lemma submission_query_parses (schemas : gmap pystr table_schema)
    (parse_date : pystr -> option Z) (module_id student_id : value) (fd : file_data)
    (size now : Z) (q : pystr) (vs : list value) :
  Dao.submission_query schemas parse_date module_id student_id fd size now
  = Return (q, vs) ->
  let kept := Dao.surviving (Dao.columns_of schemas (py "submissions"))
                (Dao.submission_data_of schemas module_id student_id
                   (Dao.drive_mapping_of parse_date fd size now)) in
  kept <> [] /\ vs = kept.*2 /\
  parse_sql q =
    Some (SInsert (py "submissions") kept.*1 (length kept.*1)
            (if bool_decide (py "file_id" ∈ Dao.columns_of schemas (py "submissions"))
             then submission_conflict else None)).
Proof.
  unfold Dao.submission_query. cbv zeta.
  destruct (submission_data_shape schemas parse_date module_id student_id fd size now)
    as (_ & Hid & _). cbv zeta in Hid.
  destruct (Dao._build_insert_query schemas (py "submissions") _) as [[q0 vs0]|e] eqn:Hb;
    [|done].
  apply insert_query_parses in Hb as (Hne & Hvs & Hq & Hparse & Hrep);
    [|reflexivity|exact Hid].
  cbn [bind].
  destruct (bool_decide (py "file_id" ∈ Dao.columns_of schemas (py "submissions")));
    cbn [fst snd]; intros [= <- <-];
    (split; [exact Hne|]); (split; [exact Hvs|]).
  - etransitivity; [exact (f_equal parse_sql (Hrep _))|]. rewrite Hparse.
    destruct tails_parse as (_ & _ & ->). reflexivity.
  - rewrite Hq, Hparse. destruct tails_parse as (-> & _). reflexivity.
Qed.

(** The row that the conflict clause of [create_submission] leaves. *)
Lemma submission_conflict_row (now : Z) (prop old : row) (target : pystr)
    (sets : list (pystr * sexpr)) :
  submission_conflict = Some (target, sets) ->
  target = py "file_id" /\
  fold_left (assign_conflict now prop) sets old =
  set_cell (py "detected_at") (VTime now)
    (set_cell (py "modified_time") (cell prop (py "modified_time"))
       (set_cell (py "size_bytes") (cell prop (py "size_bytes"))
          (set_cell (py "filename") (cell prop (py "filename")) old))).
Proof. intros [= <- <-]. split; reflexivity. Qed.

Lemma observed_columns_spec (c : pystr) :
  c ∉ observed_columns ->
  c <> py "filename" /\ c <> py "size_bytes" /\ c <> py "modified_time" /\
  c <> py "detected_at".
Proof.
  intros H. repeat split; intros ->; apply H; apply list_elem_of_In; vm_compute; tauto.
Qed.

(** An insert into submissions, with the conflict clause on the file id
    or without one, leaves every cell of every stored row outside the
    observed columns. *)
Lemma insert_keeps_identity (now : Z) (cols : list pystr) (params : nat)
    (oc : option (pystr * list (pystr * sexpr))) (args : list value)
    (db db' : database) (out : list dict) (t : table) (i : nat) (r : row) :
  exec_insert now (py "submissions") cols params oc args db = Return (out, db') ->
  oc = submission_conflict \/ oc = None ->
  db !! py "submissions" = Some t -> t_rows t !! i = Some r ->
  exists t' r',
    db' !! py "submissions" = Some t' /\ t_rows t' !! i = Some r' /\
    forall c, c ∉ observed_columns -> r' !! c = r !! c.
Proof.
  intros Hex Hoc Ht Hr. apply exec_insert_cases in Hex as (t0 & Ht0 & _ & Hcase).
  rewrite Ht in Ht0. injection Ht0 as <-.
  destruct Hcase as [(_ & -> & _) | (target & sets & j & old & -> & Hold & _ & Hnew)].
  - eexists _, r. rewrite lookup_insert_eq. split; [done|]. cbn [t_rows with_rows].
    split; [by apply lookup_app_l_Some|done].
  - cbv zeta in Hnew. destruct Hnew as [_ ->].
    destruct Hoc as [Hoc|Hoc]; [|done].
    destruct (submission_conflict_row now (proposed t cols args) old _ _ (eq_sym Hoc))
      as [_ ->].
    rewrite lookup_insert_eq. cbn [t_rows with_rows].
    destruct (decide (j = i)) as [->|Hne].
    + rewrite Hr in Hold. injection Hold as <-.
      eexists _, _. split; [done|].
      split; [apply list_lookup_insert_eq; by apply lookup_lt_Some in Hr|].
      intros c Hc. apply observed_columns_spec in Hc as (H1 & H2 & H3 & H4).
      by rewrite !set_cell_other.
    + eexists _, r. split; [done|]. cbn [t_rows with_rows].
      split; [by rewrite list_lookup_insert_ne|done].
Qed.

Lemma create_submission_unfold (schemas : gmap pystr table_schema)
    (parse_date : pystr -> option Z) (module_id student_id : value) (fd : file_data)
    (w : world) :
  Dao.create_submission schemas parse_date module_id student_id fd w =
  match Dao.size_of fd with
  | Raise e => (Raise e, w)
  | Return size =>
      let w1 := World (committed w) (clock w + 1) (attempts w) (connect_fault w)
                  (commit_fault w) (rollback_fault w) (trace w) in
      match Dao.submission_query schemas parse_date module_id student_id fd size (clock w)
      with
      | Raise e => (Raise e, w1)
      | Return qv =>
          get_cursor (_ <- execute qv.1 qv.2 ;;
                      result <- fetchone ;; subscript result (py "id")) w1
      end
  end.
Proof.
  unfold Dao.create_submission. unfold bindM at 1, lift at 1.
  destruct (Dao.size_of fd) as [size|e]; [|reflexivity].
  unfold bindM at 1, datetime_now at 1. unfold bindM at 1, lift at 1. cbv zeta.
  by destruct (Dao.submission_query _ _ _ _ _ _ _).
Qed.

(** C4. With a [file_id] column in the discovered schema, the statement
    of [create_submission] is an insert with the clause ON CONFLICT
    (file_id) that assigns [filename], [size_bytes] and [modified_time]
    from the new row and [detected_at] from the clock, and nothing else.
    Whatever the call does, every stored row keeps every cell outside
    these four columns, [module_id], [student_id] and [file_id] among
    them. A call that returns for a file id that a row already holds
    adds no row: a row with that file id gets the new size and detection
    time, keeps its other cells, and its id is the one returned. *)
Theorem create_submission_keeps_identity (schemas : gmap pystr table_schema)
    (parse_date : pystr -> option Z) (module_id student_id : value) (fd : file_data)
    (w : world) :
  let out := Dao.create_submission schemas parse_date module_id student_id fd w in
  (forall size now q vs,
      py "file_id" ∈ Dao.columns_of schemas (py "submissions") ->
      Dao.submission_query schemas parse_date module_id student_id fd size now
      = Return (q, vs) ->
      exists cols,
        parse_sql q =
        Some (SInsert (py "submissions") cols (length cols)
                (Some (py "file_id",
                       [ (py "filename", EExcluded (py "filename"));
                         (py "size_bytes", EExcluded (py "size_bytes"));
                         (py "modified_time", EExcluded (py "modified_time"));
                         (py "detected_at", ENow) ])))) /\
  ((py "module_id" ∉ observed_columns) /\ (py "student_id" ∉ observed_columns) /\
   (py "file_id" ∉ observed_columns)) /\
  (forall t i r,
      committed w !! py "submissions" = Some t -> t_rows t !! i = Some r ->
      exists t' r',
        committed out.2 !! py "submissions" = Some t' /\ t_rows t' !! i = Some r' /\
        forall c, c ∉ observed_columns -> r' !! c = r !! c) /\
  (forall fid size t i r id,
      fd_id fd = Some fid -> Dao.size_of fd = Return size ->
      py "file_id" ∈ Dao.columns_of schemas (py "submissions") ->
      committed w !! py "submissions" = Some t ->
      t_rows t !! i = Some r -> r !! py "file_id" = Some (VStr fid) ->
      out.1 = Return id ->
      exists t' j old new,
        committed out.2 !! py "submissions" = Some t' /\
        length (t_rows t') = length (t_rows t) /\
        t_rows t !! j = Some old /\ old !! py "file_id" = Some (VStr fid) /\
        t_rows t' !! j = Some new /\ id = cell new (py "id") /\
        (forall c, c ∉ observed_columns -> new !! c = old !! c) /\
        new !! py "detected_at" = Some (VTime (clock w + 1)) /\
        (py "size_bytes" ∈ Dao.columns_of schemas (py "submissions") ->
         new !! py "size_bytes" = Some (VInt size))).
Proof.
  cbv zeta. split; [|split; [|split]].
  - intros size now q vs Hcol Hq.
    apply submission_query_parses in Hq as (_ & _ & Hparse). cbv zeta in Hparse.
    rewrite (bool_decide_eq_true_2 _ Hcol) in Hparse. eexists. exact Hparse.
  - repeat split; intros H; apply list_elem_of_In in H; vm_compute in H;
      repeat (destruct H as [H|H]; [discriminate H|]); exact H.
  - intros t i r Ht Hr. rewrite create_submission_unfold.
    destruct (Dao.size_of fd) as [size|e]; [|by exists t, r].
    cbv zeta.
    destruct (Dao.submission_query _ _ _ _ _ _ _) as [[q vs]|e] eqn:Hq; [|by exists t, r].
    apply submission_query_parses in Hq as (_ & _ & Hparse). cbv zeta in Hparse.
    cbn [fst snd].
    match goal with |- context [get_cursor _ ?w1] =>
      pose proof (get_cursor_insert q vs (py "id") w1) as Hc end.
    cbv zeta in Hc. cbn [committed clock] in Hc.
    destruct Hc as [(e1 & _ & ->) | (st & r0 & rest & db & Hst & Hex & _ & ->)];
      [by exists t, r|].
    rewrite Hparse in Hst. injection Hst as <-. cbn [exec] in Hex.
    eapply insert_keeps_identity; [exact Hex| |exact Ht|exact Hr].
    destruct (bool_decide _); [by left|by right].
  - intros fid size t i r id Hfid Hsize Hcol Ht Hr Hrf Hout.
    rewrite create_submission_unfold in Hout |- *. rewrite Hsize in Hout |- *.
    cbv zeta in Hout |- *.
    destruct (submission_data_shape schemas parse_date module_id student_id fd size (clock w))
      as (Hdata & _ & Hin_fid & Hin_size). cbv zeta in Hdata.
    destruct (Dao.submission_query _ _ _ _ _ _ _) as [[q vs]|e] eqn:Hq; [|done].
    apply submission_query_parses in Hq as (_ & -> & Hparse). cbv zeta in Hparse.
    rewrite (bool_decide_eq_true_2 _ Hcol) in Hparse. cbn [fst snd] in *.
    set (kept := Dao.surviving (Dao.columns_of schemas (py "submissions"))
                   (Dao.submission_data_of schemas module_id student_id
                      (Dao.drive_mapping_of parse_date fd size (clock w)))) in *.
    match type of Hout with context [get_cursor _ ?w1] =>
      pose proof (get_cursor_insert q kept.*2 (py "id") w1) as Hc end.
    cbv zeta in Hc. cbn [committed clock] in Hc.
    destruct Hc as [(e1 & Hc & _) | (st & r0 & rest & db & Hst & Hex & Hid & Hdb)];
      [congruence|].
    rewrite Hparse in Hst. injection Hst as <-. cbn [exec] in Hex.
    apply exec_insert_cases in Hex as (t0 & Ht0 & Hnd & Hcase).
    rewrite Ht in Ht0. injection Ht0 as <-.
    assert (forall k v, (k, v) ∈ Dao.drive_mapping_of parse_date fd size (clock w) ->
                        k ∈ Dao.columns_of schemas (py "submissions") ->
                        is_not_none v = true -> (k, v) ∈ kept) as Hkept.
    { intros k v Hin Hk Hv. apply surviving_elem. split; [done|]. split; [done|].
      rewrite Hdata. apply elem_of_app. right. apply list_elem_of_filter. split; [|done].
      cbn [fst]. by apply bool_decide_pack. }
    rewrite Hfid in Hin_fid. cbn [of_opt_str] in Hin_fid.
    assert (proposed t kept.*1 kept.*2 !! py "file_id" = Some (VStr fid)) as Hpf
      by (apply proposed_cell_in; [distinct_names|done|by apply Hkept|done]).
    destruct Hcase as [(_ & _ & Hfree) | (target & sets & j & old & Hoc & Hold & Hcol' & Hnew)].
    + pose proof (find_collision_None _ _ _ (Hfree _ _ eq_refl) r
                    (list_elem_of_lookup_2 _ _ _ Hr)) as Hno.
      assert (collide (py "file_id") (proposed t kept.*1 kept.*2) r = true) as Hyes
        by (apply collide_spec; eauto).
      congruence.
    + cbv zeta in Hnew.
      destruct (submission_conflict_row (clock w + 1) (proposed t kept.*1 kept.*2) old _ _ Hoc)
        as [-> Hrow].
      rewrite Hrow in Hnew. destruct Hnew as [Hout' ->].
      set (new := set_cell (py "detected_at") _ _) in *.
      apply collide_spec in Hcol' as (v & Hv & Hov). rewrite Hpf in Hv. injection Hv as <-.
      exists (with_rows t (<[j := new]> (t_rows t)) (t_next_id t + 1)), j, old, new.
      split; [by rewrite Hdb, lookup_insert_eq|].
      split; [by cbn [t_rows with_rows]; rewrite length_insert|].
      split; [done|]. split; [done|].
      split; [cbn [t_rows with_rows]; apply list_lookup_insert_eq;
              by apply lookup_lt_Some in Hold|].
      split.
      { rewrite Hid in Hout. injection Hout as <-. injection Hout' as ->. reflexivity. }
      split.
      { intros c Hc. apply observed_columns_spec in Hc as (H1 & H2 & H3 & H4).
        unfold new. by rewrite !set_cell_other. }
      split; [unfold new; by apply set_cell_same|].
      intros Hsz. unfold new. rewrite !(set_cell_other (py "detected_at")) by distinct_names.
      rewrite !(set_cell_other (py "modified_time")) by distinct_names.
      assert (proposed t kept.*1 kept.*2 !! py "size_bytes" = Some (VInt size)) as Hps
        by (apply proposed_cell_in; [distinct_names|done|by apply Hkept|done]).
      unfold cell at 1. rewrite Hps. by apply set_cell_same.
Qed.

Lemma create_submission_keeps_identity_witness :
  exists t' j new,
    committed
      (Dao.create_submission (discovered full_store) no_dates (VInt 7) (VInt 9)
         file_of_edu_resized submitted_world).2 !! py "submissions" = Some t' /\
    length (t_rows t') = 1%nat /\
    t_rows t' !! j = Some new /\
    new !! py "module_id" = Some (VInt 1) /\
    new !! py "student_id" = Some (VInt 1) /\
    new !! py "file_id" = Some (VStr (py "F123")) /\
    new !! py "size_bytes" = Some (VInt 4096).
Proof.
  pose proof (create_submission_keeps_identity (discovered full_store) no_dates (VInt 7)
                (VInt 9) file_of_edu_resized submitted_world) as H.
  cbv zeta in H. destruct H as (_ & (Hm & Hs & Hf) & _ & H).
  destruct (H (py "F123") 4096%Z submitted_table 0%nat submitted_row (VInt 1))
    as (t' & j & old & new & Ht' & Hlen & Hold & Holdf & Hnew & _ & Hframe & _ & Hsize).
  - vm_compute. reflexivity.
  - vm_compute. reflexivity.
  - apply list_elem_of_In. vm_compute. tauto.
  - vm_compute. reflexivity.
  - vm_compute. reflexivity.
  - vm_compute. reflexivity.
  - vm_compute. reflexivity.
  - assert (length (t_rows submitted_table) = 1%nat) as Hone by (vm_compute; reflexivity).
    assert (j = 0%nat) as -> by (apply lookup_lt_Some in Hold; lia).
    assert (old = submitted_row) as -> by (unfold submitted_row; by rewrite Hold).
    exists t', 0%nat, new. split; [exact Ht'|]. split; [by rewrite Hlen|].
    split; [exact Hnew|].
    rewrite (Hframe _ Hm), (Hframe _ Hs), (Hframe _ Hf).
    split; [vm_compute; reflexivity|]. split; [vm_compute; reflexivity|].
    split; [vm_compute; reflexivity|].
    apply Hsize. apply list_elem_of_In. vm_compute. tauto.
Defined.

(** ** Accounting of the scan loops *)

(** A loop whose body always returns, returns; an invariant indexed by
    the number of turns holds at the end. *)
Lemma for_each_returns {S A B} (body : A -> B -> M S B) (I : nat -> B -> Prop) :
  (forall n x acc s, I n acc ->
     exists acc' s', body x acc s = (Return acc', s') /\ I (Datatypes.S n) acc') ->
  forall l n acc s, I n acc ->
    exists acc' s', for_each l body acc s = (Return acc', s') /\ I (n + length l)%nat acc'.
Proof.
  intros Hbody. induction l as [|x l IH]; intros n acc s HI.
  - exists acc, s. split; [reflexivity|]. by rewrite Nat.add_0_r.
  - destruct (Hbody n x acc s HI) as (acc1 & s1 & Hx & HI1).
    destruct (IH (Datatypes.S n) acc1 s1 HI1) as (acc' & s' & Hl & HI').
    exists acc', s'. split.
    + cbn [for_each]. unfold bindM at 1. by rewrite Hx.
    + cbn [length]. by rewrite Nat.add_succ_r.
Qed.

(** One folder of [sync_modules_to_db] is counted once: as created, as
    existing, or by an error message. *)
Lemma sync_folder_counts {W} (sv : services W) (f : folder) (r : sync_results) (w : W) :
  exists r' w',
    sync_folder sv f r w = (Return r', w') /\
    (modules_created r' + modules_existing r' + length (sync_errors r')
     = Datatypes.S (modules_created r + modules_existing r + length (sync_errors r)))%nat /\
    (modules_processed r <= modules_processed r')%nat /\
    (modules_processed r' <= Datatypes.S (modules_processed r))%nat /\
    (modules_created r' + modules_existing r' - (modules_created r + modules_existing r)
     <= modules_processed r' - modules_processed r)%nat.
Proof.
  unfold sync_folder, try_except, bindM, attempt, dict_subscript, ret, raise.
  destruct (get_module_by_drive_folder sv _ w) as [[existing|e] w1];
    [destruct (row_truthy existing);
       [destruct (dict_has (py "id") (default [] existing))
       |destruct (create_module sv _ _ _ w1) as [[id|e] w2]]|];
    (eexists _, _; split; [reflexivity|]); destruct r;
    cbn [modules_created modules_existing modules_processed sync_errors sync_add_error];
    rewrite ?length_app; cbn [length]; lia.
Qed.

(** X1. [sync_modules_to_db] never raises. When the listing of the folders
    raises it returns the error record; otherwise every listed folder is
    counted once, as created, as existing or by an error message, and
    [modules_processed] counts the folders whose turn reached its end. *)
Theorem sync_modules_counts_every_folder {W} (sv : services W) (w : W) :
  match list_folders_in_root sv w with
  | (Raise e, w1) =>
      sync_modules_to_db sv w =
      (Return (SyncError (py "Error en sincronización: " ++ str_exn e)), w1)
  | (Return folders, w1) =>
      exists r w',
        sync_modules_to_db sv w = (Return (SyncOk r), w') /\
        (modules_created r + modules_existing r + length (sync_errors r)
         = length folders)%nat /\
        (modules_created r + modules_existing r <= modules_processed r)%nat /\
        (modules_processed r <= length folders)%nat
  end.
Proof.
  destruct (list_folders_in_root sv w) as [[folders|e] w1] eqn:Hl;
    [|unfold sync_modules_to_db, try_except, bindM; by rewrite Hl].
  destruct (for_each_returns (sync_folder sv)
              (fun n r =>
                 (modules_created r + modules_existing r + length (sync_errors r) = n)%nat /\
                 (modules_created r + modules_existing r <= modules_processed r)%nat /\
                 (modules_processed r <= n)%nat)
              ltac:(intros n f r s (H1 & H2 & H3);
                    destruct (sync_folder_counts sv f r s) as (r' & s' & Hf & Ha & Hb & Hc & Hd);
                    exists r', s'; split; [exact Hf|lia])
              folders 0%nat (SyncResults 0 0 0 []) w1
              ltac:(cbn; lia))
    as (r & w' & Hloop & Hinv).
  exists r, w'. split; [|cbn in Hinv; lia].
  unfold sync_modules_to_db, try_except, bindM. rewrite Hl, Hloop. reflexivity.
Qed.

(** What a [try] whose handler returns gives, and what a sequence that
    returned went through. *)
Lemma try_except_returns {S A} (c : M S A) (h : exn -> A) (s : S) :
  exists a s',
    try_except c (fun e => ret (h e)) s = (Return a, s') /\
    (c s = (Return a, s') \/ exists e, c s = (Raise e, s') /\ a = h e).
Proof.
  unfold try_except, ret. destruct (c s) as [[a|e] s'].
  - exists a, s'. split; [reflexivity|by left].
  - exists (h e), s'. split; [reflexivity|right; by exists e].
Qed.

Lemma bindM_returns {S A B} (c : M S A) (k : A -> M S B) (s s' : S) (b : B) :
  bindM c k s = (Return b, s') ->
  exists a s1, c s = (Return a, s1) /\ k a s1 = (Return b, s').
Proof.
  unfold bindM. destruct (c s) as [[a|e] s1]; [|discriminate]. intros H. by exists a, s1.
Qed.

Lemma process_file_counts {W} (sv : services W) (found n : nat) (mid : value)
    (fd : file_data) (r : module_results) (w : W) :
  module_counts found n r ->
  exists r' w',
    process_file sv mid fd r w = (Return r', w') /\ module_counts found (Datatypes.S n) r'.
Proof.
  unfold module_counts. intros (H1 & H2 & H3 & H4 & H5 & H6).
  unfold process_file, try_except, bindM, attempt, file_name, ret, raise.
  destruct (fd_name fd) as [name|];
    [destruct (identify_student_from_file fd) as [[sn se]|];
       [destruct (create_student sv (Some sn) (Some se) w) as [[sid|e] w1];
          [destruct (get_student_by_email sv se w1) as [[found'|e] w2];
             [destruct (row_truthy found');
                destruct (create_submission sv mid sid fd w2) as [[id|e] w3]| ]| ]| ]| ];
    (eexists _, _; split; [reflexivity|]); destruct r;
    cbn [submissions_created files_processed errors students_created submissions_updated
         files_found add_error count_processed count_student count_submission] in *;
    rewrite ?length_app; cbn [length]; lia.
Qed.

(** X2. [scan_module_smart] never raises. In the results it returns, no
    more submissions are counted than files processed, every file
    processed stands for a submission or an error, submissions and
    errors together do not exceed the files found, and
    [submissions_updated] is 0. *)
Theorem scan_module_counts {W} (sv : services W) (module_data : dict) (w : W) :
  exists out w',
    scan_module_smart sv module_data w = (Return out, w') /\
    match out with
    | ModuleOk r =>
        (submissions_created r <= files_processed r)%nat /\
        (files_processed r <= submissions_created r + length (errors r))%nat /\
        (submissions_created r + length (errors r) <= files_found r)%nat /\
        (students_created r <= submissions_created r + length (errors r))%nat /\
        submissions_updated r = 0%nat
    | ModuleError _ => True
    end.
Proof.
  unfold scan_module_smart.
  match goal with |- context [try_except ?c (fun e => ret (@?h e))] =>
    destruct (try_except_returns c h w) as (out & w' & Htry & Hcase) end.
  exists out, w'. split; [exact Htry|].
  destruct Hcase as [Hbody | (e & _ & ->)]; [|exact I].
  apply bindM_returns in Hbody as ([[mn did] mid] & w1 & _ & Hbody).
  apply bindM_returns in Hbody as (files & w2 & _ & Hbody).
  apply bindM_returns in Hbody as (r & w3 & Hloop & Hret).
  unfold ret in Hret. injection Hret as <- <-.
  destruct (for_each_returns (process_file sv mid) (module_counts (length files))
              ltac:(intros n fd acc s; apply process_file_counts)
              files 0%nat (ModuleResults mid mn did (length files) 0 0 0 0 []) w2
              ltac:(repeat split; cbn; lia))
    as (r' & w3' & Hloop' & Hinv).
  rewrite Hloop in Hloop'. injection Hloop' as <- <-.
  destruct Hinv as (H1 & H2 & H3 & H4 & H5 & H6). cbn in H3. rewrite H6. done.
Qed.

Lemma sum_list_snoc (l : list nat) (x : nat) : sum_list (l ++ [x]) = (sum_list l + x)%nat.
Proof. induction l as [|y l IH]; cbn; [lia|]. rewrite IH. lia. Qed.

Lemma process_module_totals {W} (sv : services W) (modules n0 n : nat) (module : dict)
    (fr : full_results) (w : W) :
  scan_totals modules n0 n fr ->
  exists fr' w',
    process_module sv module fr w = (Return fr', w') /\
    scan_totals modules n0 (Datatypes.S n) fr'.
Proof.
  intros (H1 & H2 & H3 & H4 & H5 & H6 & H7 & H8).
  assert (forall msg, scan_totals modules n0 (Datatypes.S n) (fr_add_error msg fr)) as Herr.
  { intros msg. unfold scan_totals. destruct fr.
    cbn [fr_add_error total_modules modules_scanned fr_errors module_details total_files
         total_submissions total_students] in *.
    rewrite length_app. cbn [length]. repeat split; try done; lia. }
  unfold process_module, try_except. unfold bindM at 1, dict_subscript.
  destruct (dict_has (py "name") module); [|eexists _, _; split; [reflexivity|apply Herr]].
  unfold ret at 1. unfold bindM at 1.
  destruct (scan_module_counts sv module w) as (out & w' & -> & Hout).
  destruct out as [s|msg]; [|eexists _, _; split; [reflexivity|apply Herr]].
  eexists _, _. split; [reflexivity|].
  destruct Hout as (Ha & Hb & Hc & Hd & _).
  unfold scan_totals. destruct fr.
  cbn [fr_add_module total_modules modules_scanned fr_errors module_details total_files
       total_submissions total_students] in *.
  rewrite !map_app, length_app. cbn [map length md_files md_submissions md_students].
  rewrite !sum_list_snoc.
  repeat split; try lia.
  apply Forall_app. split; [done|]. apply Forall_singleton. unfold detail_sound.
  cbn [md_files md_submissions md_students md_errors]. lia.
Qed.

(** X3. The record that [full_adaptive_scan] returns: [modules_scanned]
    counts the entries of [module_details] and, with the errors, covers
    the modules; the totals are the sums over [module_details], where no
    module has more submissions and errors than files; and the errors
    listed under [sync_results] are the errors of the whole run. *)
Theorem scan_results_add_up {W} (sv : services W) (w : W) :
  match full_adaptive_scan sv w with
  | (Return (ScanResults fr), _) =>
      modules_scanned fr = length (module_details fr) /\
      (modules_scanned fr <= total_modules fr)%nat /\
      (total_modules fr <= modules_scanned fr + length (fr_errors fr))%nat /\
      total_files fr = sum_list (map md_files (module_details fr)) /\
      total_submissions fr = sum_list (map md_submissions (module_details fr)) /\
      total_students fr = sum_list (map md_students (module_details fr)) /\
      Forall detail_sound (module_details fr) /\
      match fr_sync_results fr with
      | SyncOk r => sync_errors r = fr_errors fr
      | SyncError _ => True
      end
  | _ => True
  end.
Proof.
  destruct (full_adaptive_scan sv w) as [[[fr|msg]|e] w'] eqn:Hscan; try exact I.
  rewrite full_adaptive_scan_unfold in Hscan.
  destruct (create_sync_log sv (py "full_adaptive_scan") w) as [[id|e] w1];
    [|by apply failed_returns_error in Hscan].
  destruct (run sv id w1) as [[out|e] w2] eqn:Hrun;
    [|by apply failed_returns_error in Hscan].
  injection Hscan as -> ->.
  unfold run in Hrun.
  apply bindM_returns in Hrun as (sync & w3 & _ & Hrun).
  apply bindM_returns in Hrun as (modules & w4 & _ & Hrun).
  apply bindM_returns in Hrun as (full & w5 & Hloop & Hrun).
  apply bindM_returns in Hrun as ([] & w6 & _ & Hret).
  unfold ret in Hret. injection Hret as <- <-.
  assert (scan_totals (length modules) (length (errors_of_sync sync)) 0
            (FullResults id sync (length modules) 0 0 0 0 (errors_of_sync sync) [])) as H0.
  { unfold scan_totals.
    cbn [total_modules modules_scanned fr_errors module_details total_files
         total_submissions total_students length map sum_list sum_list_with].
    split_and!; try done; try lia. }
  destruct (for_each_returns (process_module sv)
              (scan_totals (length modules) (length (errors_of_sync sync)))
              ltac:(intros n x acc s; apply process_module_totals)
              modules 0%nat _ w4 H0)
    as (full' & w5' & Hloop' & Hinv).
  rewrite Hloop in Hloop'. injection Hloop' as <- <-.
  destruct Hinv as (H1 & H2 & H3 & H4 & H5 & H6 & H7 & H8).
  destruct full.
  cbn [shared total_modules modules_scanned fr_errors module_details total_files
       total_submissions total_students fr_sync_results] in *.
  repeat split; try done; try lia.
  by destruct fr_sync_results0.
Qed.

(** X4. An exception leaves [full_adaptive_scan] only from its [except]
    block: from the reading of the clock or from the update of the sync
    log to "failed" that the block makes after the body raised. *)
Theorem scan_raises_only_from_handler {W} (sv : services W) (w : W) :
  match full_adaptive_scan sv w with
  | (Raise e, w') =>
      exists sync_id w1 e0 w2,
        create_sync_log sv (py "full_adaptive_scan") w = (Return sync_id, w1) /\
        run sv sync_id w1 = (Raise e0, w2) /\
        (now sv w2 = (Raise e, w') \/
         exists t w3,
           now sv w2 = (Return t, w3) /\
           update_sync_log sv sync_id (py "failed")
             [ (py "error_details",
                VDumpsFailure (py "Error en escaneo completo: " ++ str_exn e0) t) ] w3
           = (Raise e, w'))
  | (Return _, _) => True
  end.
Proof.
  rewrite full_adaptive_scan_unfold.
  destruct (create_sync_log sv (py "full_adaptive_scan") w) as [[id|e] w1]; [|exact I].
  destruct (run sv id w1) as [[out|e0] w2] eqn:Hrun; [exact I|].
  rewrite failed_unfold.
  destruct (now sv w2) as [[t|e1] w3] eqn:Hnow.
  - destruct (update_sync_log sv id (py "failed") _ w3) as [[[]|e2] w4] eqn:Hup; [exact I|].
    exists id, w1, e0, w2. split; [done|]. split; [done|]. right. by exists t, w3.
  - exists id, w1, e0, w2. split; [done|]. split; [done|]. by left.
Qed.

(** ** Sync logs *)

(** What [update_sync_log] does to the sync logs: nothing when it
    raises; when it returns, the rows whose id is [sync_id] are assigned
    [status] and the optional fields that survive. *)
Lemma update_sync_log_effect (schemas : gmap pystr table_schema) (sync_id : value)
    (status : pystr) (kwargs : dict) (w : world) (t : table) :
  committed w !! py "sync_logs" = Some t ->
  let out := Dao.update_sync_log schemas sync_id status kwargs w in
  let kept := Dao.surviving (Dao.columns_of schemas (py "sync_logs"))
                (Dao.optional_fields kwargs (completion status w)) in
  (exists e, out.1 = Raise e /\ committed out.2 = committed w) \/
  (exists now,
      out.1 = Return tt /\
      committed out.2 !! py "sync_logs" =
        Some (with_rows t
                (map (fun r =>
                        if matches (py "id") sync_id r
                        then assign_params
                               (map (fun f => (f, EParam)) (py "status" :: kept.*1))
                               ((VStr status :: kept.*2) ++ [sync_id]) now r
                        else r) (t_rows t))
                (t_next_id t))).
Proof.
  intros Ht out kept.
  destruct (sync_update_query_parses schemas sync_id status kwargs (completion status w))
    as [Hvals Hparse].
  fold kept in Hvals, Hparse.
  set (w0 := if Dao.closes_run status
             then World (committed w) (clock w + 1) (attempts w) (connect_fault w)
                    (commit_fault w) (rollback_fault w) (trace w)
             else w).
  assert (out = get_cursor (execute
            (Dao.sync_update_query schemas sync_id status kwargs (completion status w)).1
            (Dao.sync_update_query schemas sync_id status kwargs (completion status w)).2) w0)
    as Hout.
  { unfold out, Dao.update_sync_log, completion, w0.
    by destruct (Dao.closes_run status). }
  assert (committed w0 = committed w) as Hw0 by (unfold w0; by destruct (Dao.closes_run status)).
  clearbody out. subst out.
  destruct (Dao.sync_update_query schemas sync_id status kwargs (completion status w))
    as [q vals].
  cbn [fst snd] in *. subst vals.
  destruct (get_cursor_execute q (VStr status :: kept.*2 ++ [sync_id]) w0)
    as [(e & H1 & H2) | (st & rows & db & Hst & Hex & H1 & H2)].
  - left. exists e. by rewrite H2.
  - right. exists (clock w0). split; [done|].
    rewrite Hparse in Hst. injection Hst as <-. cbn [exec] in Hex.
    rewrite Hw0 in Hex.
    pose proof (exec_update_rows _ _ _ _ _ _ _ _ _ Hex Ht) as Hdb.
    change (VStr status :: kept.*2 ++ [sync_id])
      with ((VStr status :: kept.*2) ++ [sync_id]) in Hdb.
    rewrite last_snoc in Hdb. cbn [default from_option id] in Hdb.
    by rewrite H2.
Qed.

(** X5. [update_sync_log] changes no sync log but those whose id is
    [sync_id]: the table keeps its length, and every row with another
    id, or any row when the id is null, is what it was. With an id that
    no row has, nothing changes. *)
Theorem update_sync_log_touches_one_run (schemas : gmap pystr table_schema)
    (sync_id : value) (status : pystr) (kwargs : dict) (w : world) (t : table) :
  committed w !! py "sync_logs" = Some t ->
  let out := Dao.update_sync_log schemas sync_id status kwargs w in
  exists t',
    committed out.2 !! py "sync_logs" = Some t' /\
    length (t_rows t') = length (t_rows t) /\
    (forall i r, t_rows t !! i = Some r ->
       r !! py "id" <> Some sync_id \/ sync_id = VNone ->
       t_rows t' !! i = Some r) /\
    ((forall r, r ∈ t_rows t -> r !! py "id" <> Some sync_id) -> t_rows t' = t_rows t).
Proof.
  intros Ht out.
  assert (forall r, r !! py "id" <> Some sync_id \/ sync_id = VNone ->
                    matches (py "id") sync_id r = false) as Hmiss.
  { intros r [Hne| ->]; [|reflexivity]. unfold matches.
    by rewrite (bool_decide_eq_false_2 _ Hne), andb_false_r. }
  destruct (update_sync_log_effect schemas sync_id status kwargs w t Ht)
    as [(e & _ & Hdb) | (now & _ & Hdb)]; fold out in Hdb.
  - exists t. rewrite Hdb. done.
  - eexists. split; [exact Hdb|]. cbn [t_rows with_rows].
    split; [by rewrite length_map|]. split.
    + intros i r Hr Hid. rewrite list_lookup_fmap, Hr. cbn [fmap option_fmap option_map].
      by rewrite (Hmiss r Hid).
    + intros Hnone. rewrite <- (map_id (t_rows t)) at 2. apply map_ext_in.
      intros r Hin. rewrite Hmiss; [done|]. left. apply Hnone. by apply list_elem_of_In.
Qed.

Lemma update_sync_log_touches_one_run_witness :
  exists t',
    committed
      (Dao.update_sync_log (discovered full_store) (VInt 99) (py "failed") sample_counters
         running_world).2 !! py "sync_logs" = Some t' /\
    t_rows t' !! 0%nat = Some running_row.
Proof.
  destruct (update_sync_log_touches_one_run (discovered full_store) (VInt 99) (py "failed")
              sample_counters running_world running_logs)
    as (t' & Ht' & _ & Hrow & _).
  - vm_compute. reflexivity.
  - exists t'. split; [exact Ht'|]. apply Hrow.
    + vm_compute. reflexivity.
    + left. vm_compute. discriminate.
Defined.

(** X6. [update_sync_log] with the status "completed" or "failed" writes
    the reading of the clock to [completed_at], when the table has that
    column, on the row of the run, together with the status. *)
Theorem closing_status_sets_completed_at (schemas : gmap pystr table_schema)
    (sync_id : value) (status : pystr) (kwargs : dict) (w : world) (t : table)
    (i : nat) (r : row) :
  Dao.closes_run status = true ->
  py "completed_at" ∈ Dao.columns_of schemas (py "sync_logs") ->
  committed w !! py "sync_logs" = Some t ->
  t_rows t !! i = Some r ->
  r !! py "id" = Some sync_id -> is_not_none sync_id = true ->
  let out := Dao.update_sync_log schemas sync_id status kwargs w in
  out.1 = Return tt ->
  exists t' r',
    committed out.2 !! py "sync_logs" = Some t' /\
    t_rows t' !! i = Some r' /\
    r' !! py "completed_at" = Some (VTime (clock w)) /\
    r' !! py "status" = Some (VStr status).
Proof.
  intros Hclose Hcol Ht Hr Hid Hsome out Hret.
  destruct (update_sync_log_effect schemas sync_id status kwargs w t Ht)
    as [(e & Hraise & _) | (now & _ & Hdb)]; fold out in Hraise || fold out in Hdb;
    [congruence|].
  unfold completion in Hdb. rewrite Hclose in Hdb.
  set (kept := Dao.surviving (Dao.columns_of schemas (py "sync_logs"))
                 (Dao.optional_fields kwargs (VTime (clock w)))) in *.
  eexists _, _. split; [exact Hdb|]. cbn [t_rows with_rows].
  rewrite list_lookup_fmap, Hr. cbn [fmap option_fmap option_map].
  split; [reflexivity|].
  unfold matches. rewrite Hsome, Hid, bool_decide_true by done. cbn [andb].
  assert (NoDup (py "status" :: kept.*1)) as Hnd by apply optional_fields_distinct.
  assert (length (py "status" :: kept.*1) = length (VStr status :: kept.*2)) as Hlen
    by (cbn [length]; by rewrite !length_fmap).
  split; apply assign_params_field; try done.
  - cbn [zip zip_with]. apply elem_of_cons. right.
    change (zip_with pair kept.*1 kept.*2) with (zip kept.*1 kept.*2).
    rewrite zip_fst_snd_id. apply surviving_elem. split; [done|]. split; [done|].
    unfold Dao.optional_fields. do 3 apply list_elem_of_further. apply list_elem_of_here.
  - cbn [zip zip_with]. apply elem_of_cons. by left.
Qed.

Lemma closing_status_sets_completed_at_witness :
  exists t' r',
    committed
      (Dao.update_sync_log (discovered full_store) (VInt 1) (py "completed") sample_counters
         running_world).2 !! py "sync_logs" = Some t' /\
    t_rows t' !! 0%nat = Some r' /\
    r' !! py "completed_at" = Some (VTime (clock running_world)) /\
    r' !! py "status" = Some (VStr (py "completed")).
Proof.
  apply (closing_status_sets_completed_at (discovered full_store) (VInt 1) (py "completed")
           sample_counters running_world running_logs 0%nat running_row).
  - vm_compute. reflexivity.
  - apply list_elem_of_In. vm_compute. tauto.
  - vm_compute. reflexivity.
  - vm_compute. reflexivity.
  - vm_compute. reflexivity.
  - reflexivity.
  - vm_compute. reflexivity.
Defined.

(** ** Reads *)

Lemma exec_select_spec (name : pystr) (where_col order : option pystr) (args : list value)
    (db db' : database) (rows : list dict) :
  exec_select name where_col order args db = Return (rows, db') ->
  db' = db /\
  exists t found,
    db !! name = Some t /\
    (forall c, where_col = Some c -> c ∈ t_columns t) /\
    match where_col, args with
    | Some c, [v] => found = filter (fun r => matches c v r) (t_rows t)
    | None, [] => found = t_rows t
    | _, _ => False
    end /\
    rows = map (render t)
             (match order with Some c => order_by c found | None => found end).
Proof.
  unfold exec_select. destruct (db !! name) as [t|]; [|done].
  destruct (first_missing _ t) as [c|] eqn:Hm; [done|].
  assert (forall c, where_col = Some c -> c ∈ t_columns t) as Hcol.
  { intros c ->. unfold first_missing in Hm.
    change (option_list (Some c) ++ option_list order) with (c :: option_list order) in Hm.
    rewrite filter_cons in Hm. destruct (decide (c ∉ t_columns t)) as [Hn|Hy]; [done|].
    by apply dec_stable. }
  destruct where_col as [c|]; destruct args as [|v [|v' args]]; cbn [bind]; try done;
    intros [= <- <-]; (split; [done|]); eexists t, _; done.
Qed.

(** A cursor that runs one [SELECT] and fetches leaves the committed
    store as it was. *)
Lemma get_cursor_select {A} (q : pystr) (args : list value) (fetch : M cursor A)
    (t : pystr) (where_col order : option pystr) (w : world) :
  parse_sql q = Some (SSelect t where_col order) ->
  (forall cur, cur_db (fetch cur).2 = cur_db cur) ->
  committed (get_cursor (_ <- execute q args ;; fetch) w).2 = committed w.
Proof.
  intros Hq Hfetch. unfold get_cursor.
  destruct (get_connection_cases
              (fun now db =>
                 let '(r, cur) := (_ <- execute q args ;; fetch) (Cursor now db []) in
                 (r, cur_db cur)) w) as [(e & _ & H) | (a & db & Hb & _ & H)]; [done|].
  rewrite H. unfold bindM, execute in Hb. rewrite Hq in Hb. cbn [exec cur_now cur_db] in Hb.
  destruct (exec_select t where_col order args (committed w)) as [[rows db']|e] eqn:Hex;
    [|done].
  apply exec_select_spec in Hex as [-> _].
  specialize (Hfetch (Cursor (clock w) (committed w) rows)).
  destruct (fetch _) as [r cur]. cbn [snd cur_db] in Hfetch. by injection Hb as _ <-.
Qed.

(** X7. The read methods of the DAO leave the committed store as it was,
    whatever they return or raise. *)
Theorem reads_leave_store (w : world) :
  committed (Dao.get_all_modules w).2 = committed w /\
  (forall id, committed (Dao.get_module_by_id id w).2 = committed w) /\
  (forall id, committed (Dao.get_module_by_drive_folder id w).2 = committed w) /\
  committed (Dao.get_all_students w).2 = committed w /\
  (forall email, committed (Dao.get_student_by_email email w).2 = committed w).
Proof.
  repeat split; intros;
    (eapply get_cursor_select; [vm_compute; reflexivity|intros cur; by destruct cur as [? ? []]]).
Qed.

Lemma dict_get_render (t : table) (r : row) (c : pystr) :
  c ∈ t_columns t -> dict_get c (render t r) = cell r c.
Proof.
  unfold render. induction (t_columns t) as [|c' cols IH]; intros Hin.
  - by apply elem_of_nil in Hin.
  - cbn [map dict_get]. unfold str_eqb. destruct (bool_decide (c' = c)) eqn:E.
    + apply bool_decide_eq_true in E. by subst.
    + apply bool_decide_eq_false in E.
      apply elem_of_cons in Hin as [->|Hin]; [done|by apply IH].
Qed.

(** A cursor that selects by a key and fetches one row: the row it
    returns holds the key, and it returns none only when no row does. *)
Lemma keyed_lookup (q tn c : pystr) (v : value) (w w' : world) (res : option dict) :
  parse_sql q = Some (SSelect tn (Some c) None) ->
  get_cursor (_ <- execute q [v] ;; fetchone) w = (Return res, w') ->
  exists t,
    committed w !! tn = Some t /\ c ∈ t_columns t /\
    match res with
    | Some found =>
        exists r, r ∈ t_rows t /\ r !! c = Some v /\ found = render t r /\
                  dict_get c found = v
    | None => forall r, r ∈ t_rows t -> r !! c <> Some v \/ v = VNone
    end.
Proof.
  intros Hq Hrun. unfold get_cursor in Hrun.
  destruct (get_connection_cases
              (fun now db =>
                 let '(r, cur) := (_ <- execute q [v] ;; fetchone) (Cursor now db []) in
                 (r, cur_db cur)) w) as [(e & H & _) | (a & db & Hb & H & _)];
    rewrite Hrun in H; cbn [fst] in H; [done|]. injection H as <-.
  unfold bindM, execute in Hb. rewrite Hq in Hb. cbn [exec cur_now cur_db] in Hb.
  destruct (exec_select tn (Some c) None [v] (committed w)) as [[rows db']|e] eqn:Hex;
    [|done].
  apply exec_select_spec in Hex as (-> & t & found & Ht & Hcol & -> & ->).
  specialize (Hcol c eq_refl). exists t. split; [done|]. split; [done|].
  unfold fetchone in Hb. cbn [cur_rows] in Hb.
  destruct (filter _ (t_rows t)) as [|r rs] eqn:Hf; cbn [map] in Hb; injection Hb as <- _.
  - intros r Hr.
    assert (r ∉ filter (fun r => matches c v r) (t_rows t)) as Hn
      by (rewrite Hf; apply not_elem_of_nil).
    rewrite list_elem_of_filter in Hn. unfold matches in Hn.
    destruct v; try (left; intros Heq; apply Hn; split; [|done];
                     cbn [is_not_none andb]; by apply bool_decide_pack).
    by right.
  - assert (r ∈ filter (fun r => matches c v r) (t_rows t)) as Hin
      by (rewrite Hf; apply list_elem_of_here).
    apply list_elem_of_filter in Hin as [Hm Hin]. unfold matches in Hm.
    apply andb_True in Hm as [Hv Hm]. apply bool_decide_unpack in Hm.
    exists r. split; [done|]. split; [done|]. split; [done|].
    rewrite dict_get_render by done. unfold cell. by rewrite Hm.
Qed.

(** X8. The getters by key: a row that [get_module_by_id],
    [get_module_by_drive_folder] or [get_student_by_email] returns is a
    row of the table that holds the key it was asked for; [None] means
    that no row holds it. *)
Theorem getters_return_the_key (w w' : world) (res : option dict) :
  (forall id,
      Dao.get_module_by_id id w = (Return res, w') ->
      exists t, committed w !! py "modules" = Some t /\
        match res with
        | Some found => dict_get (py "id") found = id /\
                        exists r, r ∈ t_rows t /\ found = render t r
        | None => forall r, r ∈ t_rows t -> r !! py "id" <> Some id \/ id = VNone
        end) /\
  (forall id,
      Dao.get_module_by_drive_folder id w = (Return res, w') ->
      exists t, committed w !! py "modules" = Some t /\
        match res with
        | Some found => dict_get (py "drive_folder_id") found = VStr id /\
                        exists r, r ∈ t_rows t /\ found = render t r
        | None => forall r, r ∈ t_rows t -> r !! py "drive_folder_id" <> Some (VStr id)
        end) /\
  (forall email,
      Dao.get_student_by_email email w = (Return res, w') ->
      exists t, committed w !! py "students" = Some t /\
        match res with
        | Some found => dict_get (py "email") found = VStr email /\
                        exists r, r ∈ t_rows t /\ found = render t r
        | None => forall r, r ∈ t_rows t -> r !! py "email" <> Some (VStr email)
        end).
Proof.
  repeat split; intros k Hrun;
    (eapply keyed_lookup in Hrun as (t & Ht & _ & Hres); [|vm_compute; reflexivity]);
    exists t; (split; [exact Ht|]); destruct res as [found|].
  - destruct Hres as (r & Hr & _ & -> & Hk). split; [exact Hk|]. by exists r.
  - exact Hres.
  - destruct Hres as (r & Hr & _ & -> & Hk). split; [exact Hk|]. by exists r.
  - intros r Hr. by destruct (Hres r Hr).
  - destruct Hres as (r & Hr & _ & -> & Hk). split; [exact Hk|]. by exists r.
  - intros r Hr. by destruct (Hres r Hr).
Qed.

(** ** Inserts without a conflict clause *)

Lemma first_missing_None (cols : list pystr) (t : table) :
  first_missing cols t = None -> forall c, c ∈ cols -> c ∈ t_columns t.
Proof.
  unfold first_missing. intros H c Hc.
  destruct (filter (fun c => c ∉ t_columns t) cols) as [|x l] eqn:Hf; [|done].
  destruct (decide (c ∈ t_columns t)) as [|Hn]; [done|].
  assert (c ∈ filter (fun c => c ∉ t_columns t) cols) as Hin
    by (apply list_elem_of_filter; done).
  rewrite Hf in Hin. by apply elem_of_nil in Hin.
Qed.

(** An insert without a conflict clause that returns has appended the
    proposed row, whose cells are columns of the table, and returns its
    id. *)
Lemma exec_insert_appends (now : Z) (name : pystr) (cols : list pystr) (params : nat)
    (args : list value) (db db' : database) (out : list dict) :
  exec_insert now name cols params None args db = Return (out, db') ->
  exists t,
    db !! name = Some t /\ NoDup cols /\
    (forall c v, proposed t cols args !! c = Some v -> c ∈ t_columns t) /\
    out = [[(id_col, cell (proposed t cols args) id_col)]] /\
    db' = <[name := with_rows t (t_rows t ++ [proposed t cols args]) (t_next_id t + 1)]> db.
Proof.
  intros Hex. pose proof Hex as Hex'.
  apply exec_insert_cases in Hex as (t & Ht & Hnd & Hcase).
  exists t. split; [done|]. split; [done|].
  destruct Hcase as [(-> & -> & _) | (target & sets & i & old & Hoc & _)]; [|done].
  split; [|done].
  unfold exec_insert in Hex'. rewrite Ht in Hex'.
  destruct (negb _); [done|]. destruct (negb _); [done|].
  destruct (first_missing cols t) eqn:Hm; [done|].
  intros c v Hc. unfold proposed in Hc.
  assert (foldr (fun cv acc => set_cell cv.1 cv.2 acc) (∅ : row) (zip cols args) !! c = Some v
          -> c ∈ t_columns t) as Hzip.
  { intros Hz. apply cells_lookup_elem in Hz.
    apply (first_missing_None _ _ Hm). apply (elem_of_zip_l _ _ _ _ Hz). }
  destruct (bool_decide (id_col ∈ t_columns t)) eqn:Hid; cbn [andb] in Hc; [|by apply Hzip].
  apply bool_decide_eq_true in Hid.
  destruct (negb _); [|by apply Hzip].
  destruct (decide (c = id_col)) as [->|Hne]; [done|].
  rewrite lookup_insert_ne in Hc by done. by apply Hzip.
Qed.

Lemma create_sync_log_unfold (schemas : gmap pystr table_schema) (sync_type : pystr)
    (w : world) :
  Dao.create_sync_log schemas sync_type w =
  let w1 := World (committed w) (clock w + 1) (attempts w) (connect_fault w)
              (commit_fault w) (rollback_fault w) (trace w) in
  match Dao._build_insert_query schemas (py "sync_logs")
          [ (py "sync_type", VStr sync_type);
            (py "status", VStr (py "running"));
            (py "started_at", VTime (clock w)) ] with
  | Return qv =>
      get_cursor (_ <- execute qv.1 qv.2 ;;
                  result <- fetchone ;; subscript result (py "id")) w1
  | Raise e => (Raise e, w1)
  end.
Proof.
  unfold Dao.create_sync_log. unfold bindM at 1, datetime_now at 1.
  unfold bindM at 1, lift at 1. cbv zeta.
  by destruct (Dao._build_insert_query _ _ _).
Qed.

(** X9. [create_sync_log] that returns has appended one row to the sync
    logs and changed nothing else: the row has the status "running",
    the type given and the reading of the clock as its start, for the
    columns of these names that the schema has, no completion time, and
    the id returned. *)
Theorem create_sync_log_opens_run (schemas : gmap pystr table_schema) (sync_type : pystr)
    (w w1 : world) (id : value) (t : table) :
  Dao.create_sync_log schemas sync_type w = (Return id, w1) ->
  committed w !! py "sync_logs" = Some t ->
  exists new,
    committed w1 =
      <[py "sync_logs" := with_rows t (t_rows t ++ [new]) (t_next_id t + 1)]> (committed w) /\
    id = cell new (py "id") /\
    (py "status" ∈ Dao.columns_of schemas (py "sync_logs") ->
     new !! py "status" = Some (VStr (py "running"))) /\
    (py "sync_type" ∈ Dao.columns_of schemas (py "sync_logs") ->
     new !! py "sync_type" = Some (VStr sync_type)) /\
    (py "started_at" ∈ Dao.columns_of schemas (py "sync_logs") ->
     new !! py "started_at" = Some (VTime (clock w))) /\
    new !! py "completed_at" = None.
Proof.
  intros Hrun Ht. rewrite create_sync_log_unfold in Hrun. cbv zeta in Hrun.
  set (data := [ (py "sync_type", VStr sync_type); (py "status", VStr (py "running"));
                 (py "started_at", VTime (clock w)) ]) in *.
  destruct (Dao._build_insert_query schemas (py "sync_logs") data) as [[q vs]|e] eqn:Hb;
    [|done].
  apply insert_query_parses in Hb as (_ & -> & -> & Hparse & _); [|reflexivity..].
  cbv zeta in Hparse. cbn [fst snd] in Hrun.
  set (kept := Dao.surviving (Dao.columns_of schemas (py "sync_logs")) data) in *.
  match type of Hrun with context [get_cursor _ ?w0] =>
    pose proof (get_cursor_insert (insert_with (py "sync_logs") kept.*1 returning_tail)
                  kept.*2 (py "id") w0) as Hc end.
  cbv zeta in Hc. rewrite Hrun in Hc. cbn [fst snd committed clock] in Hc.
  destruct Hc as [(e1 & Hc & _) | (st & r0 & rest & db & Hst & Hex & Hid & Hdb)]; [done|].
  rewrite Hparse in Hst. destruct tails_parse as (Htail & _). rewrite Htail in Hst.
  cbn [mbind option_bind] in Hst. injection Hst as <-. cbn [exec] in Hex.
  apply exec_insert_appends in Hex as (t0 & Ht0 & Hnd & _ & Hout & ->).
  rewrite Ht in Ht0. injection Ht0 as <-.
  exists (proposed t kept.*1 kept.*2). split; [done|].
  split. { injection Hid as ->. injection Hout as -> _. reflexivity. }
  assert (forall f v, (f, v) ∈ data -> f <> id_col -> is_not_none v = true ->
            f ∈ Dao.columns_of schemas (py "sync_logs") ->
            proposed t kept.*1 kept.*2 !! f = Some v) as Hcell.
  { intros f v Hin Hne Hv Hcol. apply proposed_cell_in; try done.
    apply surviving_elem. done. }
  split; [intros Hcol; apply Hcell;
          [apply list_elem_of_further, list_elem_of_here|distinct_names|reflexivity
          |exact Hcol]|].
  split; [intros Hcol; apply Hcell;
          [apply list_elem_of_here|distinct_names|reflexivity|exact Hcol]|].
  split; [intros Hcol; apply Hcell;
          [do 2 apply list_elem_of_further; apply list_elem_of_here|distinct_names
          |reflexivity|exact Hcol]|].
  destruct (proposed t kept.*1 kept.*2 !! py "completed_at") as [v|] eqn:Hv; [|done].
  exfalso. apply proposed_cell_elem in Hv; [|distinct_names].
  apply surviving_elem in Hv as (_ & _ & Hin).
  unfold data in Hin. rewrite !elem_of_cons, elem_of_nil in Hin.
  destruct Hin as [H|[H|[H|[]]]]; apply (f_equal fst) in H; cbn [fst] in H;
    revert H; distinct_names.
Qed.

Lemma create_sync_log_opens_run_witness :
  exists new,
    committed running_world =
      <[py "sync_logs" := with_rows sync_logs_table (t_rows sync_logs_table ++ [new])
                            (t_next_id sync_logs_table + 1)]>
        (committed (healthy full_store)) /\
    VInt 1 = cell new (py "id") /\
    new !! py "status" = Some (VStr (py "running")) /\
    new !! py "completed_at" = None.
Proof.
  destruct (create_sync_log_opens_run (discovered full_store) (py "full_adaptive_scan")
              (healthy full_store) running_world (VInt 1) sync_logs_table)
    as (new & Hdb & Hid & Hstatus & _ & _ & Hnone).
  - vm_compute. reflexivity.
  - vm_compute. reflexivity.
  - exists new. split; [exact Hdb|]. split; [exact Hid|]. split; [|exact Hnone].
    apply Hstatus. apply list_elem_of_In. vm_compute. tauto.
Defined.

(** ** Round trips *)

(** On a connection that opens and commits, a [SELECT] by a key that a
    row of the table holds returns a row with that key. *)
Lemma healthy_lookup (q tn c : pystr) (v : value) (w : world) (t : table) (r : row) :
  connect_fault w (attempts w) = None -> commit_fault w (attempts w) = None ->
  parse_sql q = Some (SSelect tn (Some c) None) ->
  committed w !! tn = Some t -> c ∈ t_columns t ->
  r ∈ t_rows t -> r !! c = Some v -> is_not_none v = true ->
  exists found w',
    get_cursor (_ <- execute q [v] ;; fetchone) w = (Return (Some found), w') /\
    dict_get c found = v /\ row_truthy (Some found) = true.
Proof.
  intros Hconn Hcommit Hq Ht Hcol Hr Hrc Hv.
  assert (first_missing (option_list (Some c) ++ option_list None) t = None) as Hm.
  { unfold first_missing.
    change (option_list (Some c) ++ option_list None) with [c].
    rewrite filter_cons, filter_nil. by destruct (decide (c ∉ t_columns t)). }
  destruct (filter (fun r => matches c v r) (t_rows t)) as [|r0 rs] eqn:Hf.
  { assert (r ∈ filter (fun r => matches c v r) (t_rows t)) as Hin.
    { apply list_elem_of_filter. split; [|done]. unfold matches.
      rewrite Hv. cbn [andb]. by apply bool_decide_pack. }
    rewrite Hf in Hin. by apply elem_of_nil in Hin. }
  assert (r0 !! c = Some v) as Hr0.
  { assert (r0 ∈ filter (fun r => matches c v r) (t_rows t)) as Hin
      by (rewrite Hf; apply list_elem_of_here).
    apply list_elem_of_filter in Hin as [Hm0 _]. unfold matches in Hm0.
    apply andb_True in Hm0 as [_ Hm0]. by apply bool_decide_unpack in Hm0. }
  exists (render t r0). eexists.
  split; [|split].
  - unfold get_cursor, get_connection, connect. rewrite Hconn.
    cbn [record committed clock commit_fault attempts trace connect_fault].
    unfold bindM, execute. rewrite Hq. cbn [exec cur_now cur_db].
    unfold exec_select. rewrite Ht, Hm, Hf. cbn [bind map fetchone cur_rows cur_db].
    unfold fetchone. cbn [cur_rows cur_db cur_now]. rewrite Hcommit. reflexivity.
  - rewrite dict_get_render by done. unfold cell. by rewrite Hr0.
  - unfold render. destruct (t_columns t); [by apply elem_of_nil in Hcol|reflexivity].
Qed.

(** What [create_student] with a usable email leaves in the store when
    it returns: a row of the students table holds the email. *)
Lemma create_student_stores_email (schemas : gmap pystr table_schema) (name : option pystr)
    (e : pystr) (w w1 : world) (id : value) :
  contains (py "@") e = true ->
  py "email" ∈ Dao.columns_of schemas (py "students") ->
  Dao.create_student schemas name (Some e) w = (Return id, w1) ->
  exists t' r,
    committed w1 !! py "students" = Some t' /\ py "email" ∈ t_columns t' /\
    r ∈ t_rows t' /\ r !! py "email" = Some (VStr e) /\
    attempts w1 = Datatypes.S (attempts w) /\
    connect_fault w1 = connect_fault w /\ commit_fault w1 = commit_fault w.
Proof.
  intros He Hcol Hrun. rewrite create_student_unfold in Hrun.
  destruct (Dao.student_query schemas name (Some e)) as [[q vs]|e0] eqn:Hq; [|done].
  apply student_query_parses in Hq as (_ & -> & Hparse). cbv zeta in Hparse.
  rewrite (bool_decide_eq_true_2 _ Hcol), (usable_email_at _ He) in Hparse.
  cbn [andb fst snd of_opt_str] in *.
  set (kept := Dao.surviving (Dao.columns_of schemas (py "students"))
                 [(py "full_name", of_opt_str name); (py "email", VStr e)]) in *.
  assert ((py "email", VStr e) ∈ kept) as Hkept.
  { apply surviving_elem. split; [done|]. split; [done|].
    apply list_elem_of_further, list_elem_of_here. }
  assert (attempts w1 = Datatypes.S (attempts w) /\ connect_fault w1 = connect_fault w /\
          commit_fault w1 = commit_fault w) as Hworld.
  { revert Hrun. unfold get_cursor, get_connection, connect.
    destruct (connect_fault w (attempts w)); [done|].
    cbn [record committed clock commit_fault rollback_fault attempts trace connect_fault].
    destruct ((_ <- execute q kept.*2 ;; result <- fetchone ;; subscript result (py "id"))
                _) as [[a|e1] cur];
      destruct (commit_fault w (attempts w));
      destruct (rollback_fault w (attempts w)); try done; by intros [= _ <-]. }
  pose proof (get_cursor_insert q kept.*2 (py "id") w) as Hc. cbv zeta in Hc.
  rewrite Hrun in Hc. cbn [fst snd] in Hc.
  destruct Hc as [(e1 & Hc & _) | (st & r0 & rest & db & Hst & Hex & _ & ->)]; [done|].
  rewrite Hparse in Hst. injection Hst as <-. cbn [exec] in Hex.
  pose proof Hex as Hex'.
  apply exec_insert_cases in Hex as (t & Ht & Hnd & Hcase).
  assert (py "email" ∈ t_columns t) as Hcolt.
  { unfold exec_insert in Hex'. rewrite Ht in Hex'.
    destruct (negb _); [done|]. destruct (negb _); [done|].
    destruct (first_missing kept.*1 t) eqn:Hm; [done|].
    apply (first_missing_None _ _ Hm). apply list_elem_of_fmap.
    by exists (py "email", VStr e). }
  assert (proposed t kept.*1 kept.*2 !! py "email" = Some (VStr e)) as Hpe
    by (apply proposed_cell_in; [distinct_names|done..]).
  destruct Hcase as [(_ & -> & _) | (target & sets & j & old & Hoc & Hold & Hcol' & Hnew)].
  - eexists _, (proposed t kept.*1 kept.*2). rewrite lookup_insert_eq.
    split; [done|]. cbn [t_columns t_rows with_rows]. split; [done|].
    split; [apply elem_of_app; right; apply list_elem_of_here|]. split; [done|exact Hworld].
  - cbv zeta in Hnew. destruct Hnew as [_ ->].
    destruct (student_conflict_row (clock w) (proposed t kept.*1 kept.*2) old _ _ Hoc)
      as [-> Hrow].
    rewrite Hrow.
    apply collide_spec in Hcol' as (v & Hv & Hov). rewrite Hpe in Hv. injection Hv as <-.
    eexists _, _. rewrite lookup_insert_eq.
    split; [done|]. cbn [t_columns t_rows with_rows]. split; [done|].
    split; [apply list_elem_of_insert; by apply lookup_lt_Some in Hold|].
    split; [by rewrite !set_cell_other by distinct_names|exact Hworld].
Qed.

(** X10. After [create_student] has returned for an email with an "@", on a
    schema that has the email column, [get_student_by_email] finds a
    student with that email whenever its connection opens and commits:
    the lookup that [scan_module_smart] makes after the creation never
    reports the student as new. *)
Theorem created_student_is_found (schemas : gmap pystr table_schema) (name : option pystr)
    (e : pystr) (w w1 : world) (id : value) :
  contains (py "@") e = true ->
  py "email" ∈ Dao.columns_of schemas (py "students") ->
  Dao.create_student schemas name (Some e) w = (Return id, w1) ->
  connect_fault w1 (attempts w1) = None -> commit_fault w1 (attempts w1) = None ->
  exists found w2,
    Dao.get_student_by_email e w1 = (Return (Some found), w2) /\
    dict_get (py "email") found = VStr e /\
    row_truthy (Some found) = true.
Proof.
  intros He Hcol Hrun Hconn Hcommit.
  destruct (create_student_stores_email schemas name e w w1 id He Hcol Hrun)
    as (t' & r & Ht' & Hcolt & Hr & Hre & _).
  unfold Dao.get_student_by_email.
  eapply healthy_lookup;
    [done|done|vm_compute; reflexivity|exact Ht'|done|exact Hr|exact Hre|reflexivity].
Qed.

Lemma created_student_is_found_witness :
  exists found w2,
    Dao.get_student_by_email (py "ana@uni.edu") enrolled_world = (Return (Some found), w2) /\
    dict_get (py "email") found = VStr (py "ana@uni.edu") /\
    row_truthy (Some found) = true.
Proof.
  apply (created_student_is_found (discovered full_store) (Some (py "Ana"))
           (py "ana@uni.edu") (healthy full_store) enrolled_world (VInt 1)).
  - vm_compute. reflexivity.
  - apply list_elem_of_In. vm_compute. tauto.
  - vm_compute. reflexivity.
  - reflexivity.
  - reflexivity.
Defined.

(** ** Modules *)

Lemma foldr_max_ge (x y : Z) (xs : list Z) : y ∈ x :: xs -> (y <= foldr Z.max x xs)%Z.
Proof.
  induction xs as [|z xs IH]; cbn [foldr].
  - intros H. apply list_elem_of_singleton in H. lia.
  - intros H. apply elem_of_cons in H as [->|H].
    + assert (x <= foldr Z.max x xs)%Z by (apply IH, list_elem_of_here). lia.
    + apply elem_of_cons in H as [->|H]; [lia|].
      assert (y <= foldr Z.max x xs)%Z by (apply IH; by apply list_elem_of_further). lia.
Qed.

Lemma next_order_above (t : table) (r : row) (k : Z) :
  r ∈ t_rows t -> r !! py "order_index" = Some (VInt k) -> (k < next_order_of t)%Z.
Proof.
  intros Hr Hk. unfold next_order_of.
  assert (k ∈ omap (fun r => int_cell r (py "order_index")) (t_rows t)) as Hin.
  { apply list_elem_of_omap. exists r. split; [done|]. unfold int_cell. by rewrite Hk. }
  destruct (omap _ (t_rows t)) as [|x xs]; [by apply elem_of_nil in Hin|].
  pose proof (foldr_max_ge x k xs Hin). lia.
Qed.

Lemma create_module_unfold (schemas : gmap pystr table_schema) (name fid : pystr)
    (description : option pystr) (w : world) :
  Dao.create_module schemas name fid description w =
  match get_cursor
          (_ <- execute
                  (py "SELECT COALESCE(MAX(order_index), 0) + 1 as next_order FROM modules") [] ;;
           result <- fetchone ;; subscript result (py "next_order")) w with
  | (Raise e, wa) => (Raise e, wa)
  | (Return next_order, wa) =>
      match Dao._build_insert_query schemas (py "modules")
              (module_data_of name fid description next_order) with
      | Raise e => (Raise e, wa)
      | Return qv =>
          get_cursor (_ <- execute qv.1 qv.2 ;;
                      result <- fetchone ;; subscript result (py "id")) wa
      end
  end.
Proof.
  unfold Dao.create_module. cbv zeta. unfold bindM at 1.
  destruct (get_cursor _ w) as [[next|e] wa]; [|reflexivity].
  unfold bindM at 1, lift at 1. fold (module_data_of name fid description next).
  by destruct (Dao._build_insert_query _ _ _).
Qed.

(** The first transaction of [create_module] reads the next order index
    and leaves the store as it was. *)
Lemma next_order_read (w wa : world) (next : value) :
  get_cursor
    (_ <- execute (py "SELECT COALESCE(MAX(order_index), 0) + 1 as next_order FROM modules") [] ;;
     result <- fetchone ;; subscript result (py "next_order")) w = (Return next, wa) ->
  exists t,
    committed w !! py "modules" = Some t /\ next = VInt (next_order_of t) /\
    committed wa = committed w.
Proof.
  intros Hrun. unfold get_cursor in Hrun.
  match type of Hrun with get_connection ?body w = _ =>
    destruct (get_connection_cases body w) as [(e & H & _) | (a & db & Hb & H1 & H2)] end;
    rewrite Hrun in *; cbn [fst snd] in *; [done|]. injection H1 as <-.
  unfold bindM at 1, execute in Hb.
  change (parse_sql (py "SELECT COALESCE(MAX(order_index), 0) + 1 as next_order FROM modules"))
    with (Some (SNextOrder (py "modules") (py "order_index"))) in Hb.
  cbn [exec cur_now cur_db] in Hb. unfold exec_next_order in Hb.
  destruct (committed w !! py "modules") as [t|]; [|done].
  destruct (first_missing _ t); [done|]. cbv zeta in Hb.
  unfold bindM, fetchone, subscript in Hb. cbn [cur_rows cur_db cur_now] in Hb.
  change (dict_has (py "next_order") [(py "next_order", ?v)]) with true in Hb.
  change (dict_get (py "next_order") [(py "next_order", ?v)]) with v in Hb.
  unfold ret in Hb. cbn [cur_db] in Hb. injection Hb as <- <-.
  exists t. done.
Qed.

(** What [create_module] does when it returns: one row is appended to
    the modules, with the fields of the mapping that the schema has. *)
Lemma create_module_effect (schemas : gmap pystr table_schema) (name fid : pystr)
    (description : option pystr) (w w1 : world) (id : value) :
  Dao.create_module schemas name fid description w = (Return id, w1) ->
  exists t new,
    committed w !! py "modules" = Some t /\
    committed w1 =
      <[py "modules" := with_rows t (t_rows t ++ [new]) (t_next_id t + 1)]> (committed w) /\
    id = cell new (py "id") /\
    (forall c v, new !! c = Some v -> c ∈ t_columns t) /\
    (forall f v,
        (f, v) ∈ module_data_of name fid description (VInt (next_order_of t)) ->
        f ∈ Dao.columns_of schemas (py "modules") -> is_not_none v = true ->
        new !! f = Some v).
Proof.
  intros Hrun. rewrite create_module_unfold in Hrun.
  destruct (get_cursor _ w) as [[next|e] wa] eqn:Hnext; [|done].
  apply next_order_read in Hnext as (t & Ht & -> & Hwa).
  set (data := module_data_of name fid description (VInt (next_order_of t))) in *.
  destruct (Dao._build_insert_query schemas (py "modules") data) as [[q vs]|e] eqn:Hb;
    [|done].
  apply insert_query_parses in Hb as (_ & -> & -> & Hparse & _); [|reflexivity..].
  cbv zeta in Hparse. cbn [fst snd] in Hrun.
  set (kept := Dao.surviving (Dao.columns_of schemas (py "modules")) data) in *.
  pose proof (get_cursor_insert (insert_with (py "modules") kept.*1 returning_tail)
                kept.*2 (py "id") wa) as Hc.
  cbv zeta in Hc. rewrite Hrun in Hc. cbn [fst snd] in Hc. rewrite Hwa in Hc.
  destruct Hc as [(e1 & Hc & _) | (st & r0 & rest & db & Hst & Hex & Hid & Hdb)]; [done|].
  rewrite Hparse in Hst. destruct tails_parse as (Htail & _). rewrite Htail in Hst.
  cbn [mbind option_bind] in Hst. injection Hst as <-. cbn [exec] in Hex.
  apply exec_insert_appends in Hex as (t0 & Ht0 & Hnd & Hcols & Hout & ->).
  rewrite Ht in Ht0. injection Ht0 as <-.
  exists t, (proposed t kept.*1 kept.*2). split; [done|]. split; [done|].
  split. { injection Hid as ->. injection Hout as -> _. reflexivity. }
  split; [exact Hcols|].
  intros f v Hin Hcol Hv. apply proposed_cell_in; try done.
  - intros ->. unfold data, module_data_of in Hin.
    rewrite !elem_of_cons, elem_of_nil in Hin.
    destruct Hin as [H|[H|[H|[H|[H|[H|[]]]]]]]; apply (f_equal fst) in H; cbn [fst] in H;
      revert H; distinct_names.
  - apply surviving_elem. done.
Qed.

(** X11. [create_module] that returns has appended one module and changed
    nothing else. The new row has the code that [_generate_module_code]
    gives for the name, the folder id and the folder's URL, and an order
    index above that of every module there was, each when the schema has
    the column; its id is the one returned. *)
Theorem create_module_appends (schemas : gmap pystr table_schema) (name fid : pystr)
    (description : option pystr) (w w1 : world) (id : value) (t : table) :
  Dao.create_module schemas name fid description w = (Return id, w1) ->
  committed w !! py "modules" = Some t ->
  exists new,
    committed w1 =
      <[py "modules" := with_rows t (t_rows t ++ [new]) (t_next_id t + 1)]> (committed w) /\
    id = cell new (py "id") /\
    (py "name" ∈ Dao.columns_of schemas (py "modules") ->
     new !! py "name" = Some (VStr name)) /\
    (py "code" ∈ Dao.columns_of schemas (py "modules") ->
     new !! py "code" = Some (VStr (Dao._generate_module_code name))) /\
    (py "drive_folder_id" ∈ Dao.columns_of schemas (py "modules") ->
     new !! py "drive_folder_id" = Some (VStr fid)) /\
    (py "drive_folder_url" ∈ Dao.columns_of schemas (py "modules") ->
     new !! py "drive_folder_url" =
       Some (VStr (py "https://drive.google.com/drive/folders/" ++ fid))) /\
    (py "order_index" ∈ Dao.columns_of schemas (py "modules") ->
     exists n, new !! py "order_index" = Some (VInt n) /\
       forall r k, r ∈ t_rows t -> r !! py "order_index" = Some (VInt k) -> (k < n)%Z).
Proof.
  intros Hrun Ht.
  destruct (create_module_effect _ _ _ _ _ _ _ Hrun) as (t0 & new & Ht0 & Hdb & Hid & _ & Hcell).
  rewrite Ht in Ht0. injection Ht0 as <-.
  exists new. split; [done|]. split; [done|]. unfold module_data_of in Hcell.
  split; [intros Hcol; apply Hcell; [apply list_elem_of_here|done|done]|].
  split; [intros Hcol; apply Hcell;
          [do 2 apply list_elem_of_further; apply list_elem_of_here|done|done]|].
  split; [intros Hcol; apply Hcell;
          [do 3 apply list_elem_of_further; apply list_elem_of_here|done|done]|].
  split; [intros Hcol; apply Hcell;
          [do 5 apply list_elem_of_further; apply list_elem_of_here|done|done]|].
  intros Hcol. exists (next_order_of t). split.
  - apply Hcell; [do 4 apply list_elem_of_further; apply list_elem_of_here|done|done].
  - intros r k. apply next_order_above.
Qed.

(** X12. After [create_module] has returned, on a schema that has the
    [drive_folder_id] column, [get_module_by_drive_folder] finds a module
    with that folder id whenever its connection opens and commits: a
    second sync of the same folder does not create it again. *)
Theorem created_module_is_found (schemas : gmap pystr table_schema) (name fid : pystr)
    (description : option pystr) (w w1 : world) (id : value) :
  py "drive_folder_id" ∈ Dao.columns_of schemas (py "modules") ->
  Dao.create_module schemas name fid description w = (Return id, w1) ->
  connect_fault w1 (attempts w1) = None -> commit_fault w1 (attempts w1) = None ->
  exists found w2,
    Dao.get_module_by_drive_folder fid w1 = (Return (Some found), w2) /\
    dict_get (py "drive_folder_id") found = VStr fid /\
    row_truthy (Some found) = true.
Proof.
  intros Hcol Hrun Hconn Hcommit.
  destruct (create_module_effect _ _ _ _ _ _ _ Hrun) as (t & new & Ht & Hdb & _ & Hcols & Hcell).
  assert (new !! py "drive_folder_id" = Some (VStr fid)) as Hnew.
  { apply Hcell; [|done|done]. unfold module_data_of.
    do 3 apply list_elem_of_further. apply list_elem_of_here. }
  unfold Dao.get_module_by_drive_folder.
  eapply healthy_lookup; [done|done|vm_compute; reflexivity| | | |exact Hnew|reflexivity].
  - rewrite Hdb. apply lookup_insert_eq.
  - cbn [t_columns with_rows]. by apply (Hcols _ _ Hnew).
  - cbn [t_rows with_rows]. apply elem_of_app. right. apply list_elem_of_here.
Qed.

Lemma create_module_appends_witness :
  exists new,
    committed catalogued_world =
      <[py "modules" := with_rows modules_table (t_rows modules_table ++ [new])
                          (t_next_id modules_table + 1)]>
        (committed (healthy full_store)) /\
    VInt 1 = cell new (py "id") /\
    new !! py "code" = Some (VStr (Dao._generate_module_code (py "Modulo 7"))) /\
    new !! py "drive_folder_id" = Some (VStr (py "FOLDER1")).
Proof.
  destruct (create_module_appends (discovered full_store) (py "Modulo 7") (py "FOLDER1") None
              (healthy full_store) catalogued_world (VInt 1) modules_table)
    as (new & Hdb & Hid & _ & Hcode & Hfid & _).
  - vm_compute. reflexivity.
  - vm_compute. reflexivity.
  - exists new. split; [exact Hdb|]. split; [exact Hid|].
    split; [apply Hcode|apply Hfid]; apply list_elem_of_In; vm_compute; tauto.
Defined.

Lemma created_module_is_found_witness :
  exists found w2,
    Dao.get_module_by_drive_folder (py "FOLDER1") catalogued_world
    = (Return (Some found), w2) /\
    dict_get (py "drive_folder_id") found = VStr (py "FOLDER1") /\
    row_truthy (Some found) = true.
Proof.
  apply (created_module_is_found (discovered full_store) (py "Modulo 7") (py "FOLDER1") None
           (healthy full_store) catalogued_world (VInt 1)).
  - apply list_elem_of_In. vm_compute. tauto.
  - vm_compute. reflexivity.
  - reflexivity.
  - reflexivity.
Defined.

(** ** What a match of the engine went through *)

Lemma m_rep_unfold (ic : bool) (lo : nat) (hi : option nat) (greedy : bool) (r1 : regex)
    (st : mstate) (k : mstate -> option mstate) :
  m ic (Rep lo hi greedy r1) st k =
  rep_loop (m ic r1) lo hi greedy k (Datatypes.S (length (rest st))) 0 st.
Proof. reflexivity. Qed.

Lemma rep_loop_sound (R : mstate -> mstate -> Prop)
    (mr : mstate -> (mstate -> option mstate) -> option mstate)
    (lo : nat) (hi : option nat) (greedy : bool) (k : mstate -> option mstate) :
  (forall st k' res, mr st k' = Some res -> exists st', R st st' /\ k' st' = Some res) ->
  forall fuel count st res,
    rep_loop mr lo hi greedy k fuel count st = Some res ->
    exists n st', iter_rel n R st st' /\ k st' = Some res.
Proof.
  intros Hmr. induction fuel as [|fuel IHf]; intros count st res H.
  - simpl in H.
    destruct greedy; destruct (bool_decide (lo <= count)); try done;
      exists 0%nat, st; (split; [reflexivity|]); by destruct (k st).
  - assert (forall res',
        (if below count hi
         then mr st (fun st1 =>
                if bool_decide (length (rest st1) < length (rest st))
                then rep_loop mr lo hi greedy k fuel (Datatypes.S count) st1
                else None)
         else None) = Some res' ->
        exists n st', iter_rel n R st st' /\ k st' = Some res') as Hmore.
    { intros res' Hm. destruct (below count hi); [|done].
      apply Hmr in Hm as (st1 & H1 & Hm).
      destruct (bool_decide (length (rest st1) < length (rest st))); [|done].
      apply IHf in Hm as (n & st' & Hn & Hk).
      exists (Datatypes.S n), st'. split; [|done]. cbn [iter_rel]. by exists st1. }
    assert (forall res',
        (if bool_decide (lo <= count) then k st else None) = Some res' ->
        exists n st', iter_rel n R st st' /\ k st' = Some res') as Hstop.
    { intros res' Hs. destruct (bool_decide (lo <= count)); [|done].
      exists 0%nat, st. split; [reflexivity|exact Hs]. }
    change (rep_loop mr lo hi greedy k (Datatypes.S fuel) count st)
      with (if greedy
            then match (if below count hi
                        then mr st (fun st1 =>
                               if bool_decide (length (rest st1) < length (rest st))
                               then rep_loop mr lo hi greedy k fuel (Datatypes.S count) st1
                               else None)
                        else None) with
                 | Some x => Some x
                 | None => if bool_decide (lo <= count) then k st else None
                 end
            else match (if bool_decide (lo <= count) then k st else None) with
                 | Some x => Some x
                 | None =>
                     if below count hi
                     then mr st (fun st1 =>
                            if bool_decide (length (rest st1) < length (rest st))
                            then rep_loop mr lo hi greedy k fuel (Datatypes.S count) st1
                            else None)
                     else None
                 end) in H.
    destruct greedy.
    + match type of H with match ?x with _ => _ end = _ => destruct x as [y|] eqn:E end.
      * injection H as ->. by apply Hmore.
      * by apply Hstop.
    + match type of H with match ?x with _ => _ end = _ => destruct x as [y|] eqn:E end.
      * injection H as ->. by apply Hstop.
      * by apply Hmore.
Qed.

(** The matcher is sound for [lang]: a success continued from a position
    that [r] can reach. *)
Lemma m_sound (ic : bool) (r : regex) :
  forall (st : mstate) (k : mstate -> option mstate) (res : mstate),
    m ic r st k = Some res -> exists st', lang ic r st st' /\ k st' = Some res.
Proof.
  induction r as [|neg items|r1 IH1 r2 IH2|r1 IH1 r2 IH2|lo hi greedy r1 IH1|n r1 IH1| | |
                  |r1 IH1]; intros st k res H.
  - by exists st.
  - cbn [m] in H. destruct (rest st) as [|c s'] eqn:Hr; [done|].
    destruct (xorb neg (set_matches ic items c)) eqn:Hx; [|done].
    eexists. split; [|exact H]. cbn [lang]. by exists c, s'.
  - cbn [m] in H. apply IH1 in H as (st1 & H1 & H). apply IH2 in H as (st2 & H2 & H).
    exists st2. split; [|done]. by exists st1.
  - cbn [m] in H. destruct (m ic r1 st k) as [x|] eqn:E.
    + injection H as ->. apply IH1 in E as (st' & H1 & Hk). exists st'. split; [by left|done].
    + apply IH2 in H as (st' & H2 & Hk). exists st'. split; [by right|done].
  - rewrite m_rep_unfold in H.
    apply (rep_loop_sound (lang ic r1) _ _ _ _ _ IH1) in H as (n & st' & Hn & Hk).
    exists st'. split; [by exists n|done].
  - cbn [m] in H. apply IH1 in H as (st1 & H1 & H). eexists. split; [|exact H]. by exists st1.
  - cbn [m] in H. destruct (before st) eqn:E; [|done]. by exists st.
  - cbn [m] in H. exists st. split; [done|]. destruct (rest st) as [|c [|c' s]]; try done.
    by destruct (c =? 10)%N.
  - cbn [m] in H. destruct (at_word_boundary st) eqn:E; [|done]. by exists st.
  - cbn [m] in H. destruct (m ic r1 st Some) as [st1|] eqn:E; [|done].
    apply IH1 in E as (st1' & H1 & [= ->]). eexists. split; [|exact H]. by exists st1.
Qed.

Lemma iter_rest (R : mstate -> mstate -> Prop) :
  (forall st st', R st st' -> exists txt, rest st = txt ++ rest st') ->
  forall n st st', iter_rel n R st st' -> exists txt, rest st = txt ++ rest st'.
Proof.
  intros HR. induction n as [|n IH]; intros st st' H; cbn [iter_rel] in H.
  - subst. by exists [].
  - destruct H as (st1 & H1 & H). apply HR in H1 as [t1 E1]. apply IH in H as [t2 E2].
    exists (t1 ++ t2). by rewrite E1, E2, app_assoc.
Qed.

(** What [r] takes the subject through is a stretch of the subject. *)
Lemma lang_rest (ic : bool) (r : regex) :
  forall st st', lang ic r st st' -> exists txt, rest st = txt ++ rest st'.
Proof.
  induction r as [|neg items|r1 IH1 r2 IH2|r1 IH1 r2 IH2|lo hi greedy r1 IH1|n r1 IH1| | |
                  |r1 IH1]; intros st st' H; cbn [lang] in H.
  - subst. by exists [].
  - destruct H as (c & s' & Hr & _ & ->). exists [c]. by rewrite Hr.
  - destruct H as (st1 & H1 & H2). apply IH1 in H1 as [t1 E1]. apply IH2 in H2 as [t2 E2].
    exists (t1 ++ t2). by rewrite E1, E2, app_assoc.
  - destruct H as [H|H]; [by apply IH1|by apply IH2].
  - destruct H as [n H]. by apply (iter_rest _ IH1) in H.
  - destruct H as (st1 & H1 & ->). by apply IH1 in H1.
  - destruct H as [-> _]. by exists [].
  - subst. by exists [].
  - destruct H as [-> _]. by exists [].
  - destruct H as (st1 & _ & ->). by exists [].
Qed.

(** The text of a match is what the expression went through. *)
Lemma match_at_group0 (ic : bool) (r : regex) (bef s : pystr) (mo : match_obj) :
  match_at ic r bef s = Some mo ->
  exists st', lang ic r (MState bef s []) st' /\ s = group0 mo ++ rest st'.
Proof.
  unfold match_at. destruct (m ic r (MState bef s []) Some) as [st|] eqn:E; [|done].
  intros [= <-]. apply m_sound in E as (st' & Hl & [= ->]).
  exists st. split; [done|]. cbn [group0].
  destruct (lang_rest _ _ _ _ Hl) as [txt Ht]. cbn [rest] in Ht.
  rewrite Ht at 1 2 3. rewrite length_app, Nat.add_sub, take_app_length. reflexivity.
Qed.

Lemma search_from_match (ic : bool) (r : regex) (bef s : pystr) (mo : match_obj) :
  search_from ic r bef s = Some mo -> exists bef' s', match_at ic r bef' s' = Some mo.
Proof.
  revert bef. induction s as [|c s IH]; intros bef; cbn [search_from].
  - destruct (match_at ic r bef []) eqn:E; [|done]. intros [= <-]. eauto.
  - destruct (match_at ic r bef (c :: s)) eqn:E; [intros [= <-]; eauto|]. apply IH.
Qed.

Lemma contains_middle (c : N) (t1 t2 : pystr) : contains [c] (t1 ++ c :: t2) = true.
Proof.
  induction t1 as [|x t1 IH]; cbn [app contains startswith].
  - by rewrite N.eqb_refl.
  - rewrite IH. by rewrite orb_true_r.
Qed.

(** A match of the email pattern has an "@" in it. *)
Lemma email_match_has_at (s : pystr) (mo : match_obj) :
  re_search email_pattern false s = Some mo -> contains (py "@") (group 0 mo) = true.
Proof.
  unfold re_search.
  assert (exists a b, compile (py email_pattern)
                      = Some (Seq WordB (Seq a (Seq (Set_ false [CChar 64]) b))))
    as (a & b & ->) by (eexists _, _; vm_compute; reflexivity).
  unfold search. intros H. apply search_from_match in H as (bef & s' & H).
  apply match_at_group0 in H as (st' & Hl & Hs). cbn [group].
  cbn [lang] in Hl. destruct Hl as (st0 & [-> _] & st1 & Ha & st2 & Hat & Hb).
  destruct Hat as (c & rest2 & Hr1 & Hc & ->).
  apply lang_rest in Ha as [t1 E1]. apply lang_rest in Hb as [t2 E2].
  cbn [rest] in E1, E2. rewrite Hr1 in E1. rewrite E2 in E1. rewrite E1 in Hs.
  assert (c = 64%N) as ->.
  { cbn [xorb set_matches existsb item_matches] in Hc. unfold in_range, between in Hc.
    rewrite orb_false_r in Hc. apply andb_true_iff in Hc as [H1 H2].
    apply N.leb_le in H1, H2. lia. }
  change (t1 ++ 64%N :: t2 ++ rest st') with (t1 ++ (64%N :: t2) ++ rest st') in Hs.
  rewrite app_assoc in Hs. apply app_inv_tail in Hs. rewrite <- Hs.
  apply (contains_middle 64).
Qed.

Lemma temp_email_has_at (name : pystr) : contains (py "@") (temp_email name) = true.
Proof.
  unfold temp_email. cbv zeta.
  change (py "@extracted.temp") with (64%N :: py "extracted.temp").
  apply (contains_middle 64).
Qed.

Lemma name_loop_has_at (patterns : list string) (filename name email : pystr) :
  name_loop patterns filename = Some (name, email) -> contains (py "@") email = true.
Proof.
  induction patterns as [|p ps IH]; cbn [name_loop]; [done|].
  destruct (re_search p true filename) as [mo|]; [|exact IH].
  destruct (name_accepted (candidate_of mo)); [|exact IH].
  cbv zeta. intros [= _ <-]. apply temp_email_has_at.
Qed.

(** X13. Every identification carries an email with an "@": the metadata
    emails are tested for it, a match of the email pattern in the file
    name has one, and the placeholder made for a name read from the file
    name ends with "@extracted.temp". So [create_student] takes every
    student that the scanner identifies through its branch for usable
    emails. *)
Theorem identified_email_has_at (fd : file_data) (name email : pystr) :
  identify_student_from_file fd = Some (name, email) ->
  contains (py "@") email = true /\ Dao.usable_email (Some email) = true.
Proof.
  intros H. assert (contains (py "@") email = true) as Hat.
  { assert (forall filename, from_filename filename = Some (name, email) ->
                             contains (py "@") email = true) as Hfile.
    { intros filename. unfold from_filename.
      destruct (re_search email_pattern false filename) as [mo|] eqn:E.
      - cbv zeta. intros [= _ <-]. by apply email_match_has_at in E.
      - apply name_loop_has_at. }
    assert (forall filename, from_owners fd filename = Some (name, email) ->
                             contains (py "@") email = true) as Howners.
    { intros filename. unfold from_owners.
      destruct (owners fd) as [[|owner os]|]; try apply Hfile. cbv zeta.
      destruct (valid_email (default [] (emailAddress owner))) eqn:E; [|apply Hfile].
      intros [= _ <-]. unfold valid_email in E. by apply andb_true_iff in E as [_ E]. }
    revert H. unfold identify_student_from_file. cbv zeta.
    destruct (lastModifyingUser fd) as [u|]; [|apply Howners].
    destruct (valid_email (default [] (emailAddress u))) eqn:E; [|apply Howners].
    intros [= _ <-]. unfold valid_email in E. by apply andb_true_iff in E as [_ E]. }
  split; [exact Hat|]. unfold Dao.usable_email. rewrite Hat.
  destruct email; [by rewrite contains_nil_at in Hat|reflexivity].
Qed.

Lemma identified_email_has_at_witness :
  contains (py "@") (py "tarea.juan@extracted.temp") = true /\
  Dao.usable_email (Some (py "tarea.juan@extracted.temp")) = true.
Proof.
  apply (identified_email_has_at (bare_file "Tarea_Juan.jpg") (py "Tarea Juan")
           (py "tarea.juan@extracted.temp")).
  vm_compute. reflexivity.
Defined.

Lemma special_code_in (name_lower : pystr) (codes : list (pystr * pystr)) (code : pystr) :
  Dao.special_code name_lower codes = Some code ->
  exists keyword, (keyword, code) ∈ codes /\ contains keyword name_lower = true.
Proof.
  induction codes as [|[k c] codes IH]; cbn [Dao.special_code]; [done|].
  destruct (contains k name_lower) eqn:E.
  - intros [= <-]. exists k. split; [left|done].
  - intros H. apply IH in H as (k' & Hin & Hc). exists k'. split; [by right|done].
Qed.

(** X14. No module gets an empty code: a numbered module gets "MOD" and its
    number, a special module one of the seven codes of the table, and
    any other name its first four ASCII letters in upper case, or "MOD0"
    when it has none. *)
Theorem module_code_never_empty (name : pystr) : Dao._generate_module_code name <> [].
Proof.
  unfold Dao._generate_module_code.
  destruct (re_search _ false name) as [mo|]; [done|]. cbv zeta.
  destruct (Dao.special_code (lower name) Dao.special_codes) as [code|] eqn:E.
  - apply special_code_in in E as (k & Hin & _). intros ->.
    unfold Dao.special_codes in Hin.
    rewrite !elem_of_cons, elem_of_nil in Hin.
    repeat (destruct Hin as [Hin|Hin]; [apply (f_equal snd) in Hin; discriminate Hin|]).
    exact Hin.
  - by destruct (upper _).
Qed.

(** X15. The code "AUTO" of the table of special modules is out of reach: a
    name that holds "autoevaluacion" holds "evaluacion", which the
    table tries first. Such a module gets "MOD" and its number when it
    has one, and otherwise the code of "correcciones", "dibujos", "lives"
    or "evaluacion". *)
Theorem autoevaluacion_code_is_shadowed (name : pystr) :
  contains (py "autoevaluacion") (lower name) = true ->
  Dao._generate_module_code name <> py "AUTO" /\
  (re_search "[Mm]odulo?\s*(\d+)" false name = None ->
   Dao._generate_module_code name ∈ [py "CORR"; py "DRAW"; py "LIVE"; py "EVAL"]).
Proof.
  intros H.
  assert (contains (py "evaluacion") (lower name) = true) as He
    by exact (contains_stretch (py "auto") (py "evaluacion") [] _ H).
  unfold Dao._generate_module_code.
  destruct (re_search _ false name) as [mo|]; cbv zeta.
  - split; [|done]. intros E. apply (f_equal head) in E. vm_compute in E. discriminate E.
  - unfold Dao.special_codes. cbn [Dao.special_code].
    destruct (contains (py "correcciones") (lower name));
      [split; [distinct_names|intros _; set_solver]|].
    destruct (contains (py "dibujos") (lower name));
      [split; [distinct_names|intros _; set_solver]|].
    destruct (contains (py "lives") (lower name));
      [split; [distinct_names|intros _; set_solver]|].
    rewrite He. split; [distinct_names|intros _; set_solver].
Qed.

Lemma autoevaluacion_code_is_shadowed_witness :
  Dao._generate_module_code (py "Autoevaluacion final") <> py "AUTO" /\
  (re_search "[Mm]odulo?\s*(\d+)" false (py "Autoevaluacion final") = None ->
   Dao._generate_module_code (py "Autoevaluacion final")
     ∈ [py "CORR"; py "DRAW"; py "LIVE"; py "EVAL"]).
Proof.
  apply (autoevaluacion_code_is_shadowed (py "Autoevaluacion final")).
  vm_compute. reflexivity.
Defined.

(** X16. The text that the insert builder returns is an insert statement in
    the eyes of the database, when the table and the keys are plain
    names: it names the table, lists discovered columns of the table
    only, has one placeholder for each value returned with it, no
    conflict clause, and none of the values is null. *)
Theorem built_insert_reads_back (schemas : gmap pystr table_schema) (t : pystr)
    (data : dict) (q : pystr) (vs : list value) :
  identifier t = true -> forallb identifier data.*1 = true ->
  Dao._build_insert_query schemas t data = Return (q, vs) ->
  exists cols,
    parse_sql q = Some (SInsert t cols (length vs) None) /\
    length cols = length vs /\ vs <> [] /\
    (forall c, c ∈ cols -> c ∈ Dao.columns_of schemas t) /\
    (forall v, v ∈ vs -> v <> VNone).
Proof.
  intros Ht Hd Hb.
  apply insert_query_parses in Hb as (Hne & -> & -> & Hparse & _); [|done..].
  set (kept := Dao.surviving (Dao.columns_of schemas t) data) in *.
  exists kept.*1. split_and!.
  - rewrite Hparse. destruct tails_parse as (-> & _). cbn [mbind option_bind].
    by rewrite !length_fmap.
  - by rewrite !length_fmap.
  - intros E. apply fmap_nil_inv in E. done.
  - intros c Hc. apply list_elem_of_fmap in Hc as ([c' v] & -> & Hin).
    apply list_elem_of_filter in Hin as [Hin _]. cbn [fst] in *.
    apply andb_prop_elim in Hin as [Hin _]. by apply bool_decide_unpack in Hin.
  - intros v Hv. apply list_elem_of_fmap in Hv as ([c v'] & -> & Hin).
    apply list_elem_of_filter in Hin as [Hin _]. cbn [fst snd] in *.
    apply andb_prop_elim in Hin as [_ Hin]. intros ->. done.
Qed.

Lemma built_insert_reads_back_witness :
  exists cols,
    parse_sql (Dao.insert_statement (py "students") [py "full_name"; py "email"])
    = Some (SInsert (py "students") cols
              (length [VStr (py "Ana"); VStr (py "ana@uni.edu")]) None) /\
    length cols = length [VStr (py "Ana"); VStr (py "ana@uni.edu")] /\
    [VStr (py "Ana"); VStr (py "ana@uni.edu")] <> [] /\
    (forall c, c ∈ cols -> c ∈ Dao.columns_of (discovered full_store) (py "students")) /\
    (forall v, v ∈ [VStr (py "Ana"); VStr (py "ana@uni.edu")] -> v <> VNone).
Proof.
  apply (built_insert_reads_back (discovered full_store) (py "students")
           [ (py "full_name", VStr (py "Ana")); (py "phone", VNone);
             (py "email", VStr (py "ana@uni.edu")); (py "nickname", VStr (py "ani")) ]).
  - vm_compute. reflexivity.
  - vm_compute. reflexivity.
  - vm_compute. reflexivity.
Defined.

(** A call of [update_sync_log] that has no keyword [sync_id] stops at
    the binding of the arguments. *)
Lemma call_update_sync_log_unbound (schemas : gmap pystr table_schema) (status : pystr)
    (keywords : dict) (w : world) :
  dict_has (py "sync_id") keywords = false ->
  exists e, Job.call_update_sync_log schemas status keywords w = (Raise e, w).
Proof.
  intros H. unfold Job.call_update_sync_log, Job.keyword_call.
  rewrite filter_cons. cbn [negb]. rewrite H. cbn [negb].
  destruct (decide (Is_true true)) as [_|n]; [|by destruct n]. eauto.
Qed.

Lemma job_update_success_skips (schemas : gmap pystr table_schema) (sync_log_id : value)
    (excel_file_path : pystr) (w : world) :
  exists w',
    Job._update_sync_log_success schemas sync_log_id excel_file_path w = (Return tt, w') /\
    committed w' = committed w /\ trace w' = trace w /\ attempts w' = attempts w.
Proof.
  unfold Job._update_sync_log_success.
  destruct (negb (Orchestrator.value_truthy sync_log_id)); [by exists w|].
  unfold try_except, bindM, datetime_now.
  match goal with
  | |- context [Job.call_update_sync_log schemas ?s ?k ?w1] =>
      destruct (call_update_sync_log_unbound schemas s k w1) as [e ->]; [reflexivity|]
  end.
  eexists. split; [reflexivity|]. done.
Qed.

Lemma job_update_failure_skips (schemas : gmap pystr table_schema) (sync_log_id : value)
    (error_message : pystr) (w : world) :
  exists w',
    Job._update_sync_log_failure schemas sync_log_id error_message w = (Return tt, w') /\
    committed w' = committed w /\ trace w' = trace w /\ attempts w' = attempts w.
Proof.
  unfold Job._update_sync_log_failure.
  destruct (negb (Orchestrator.value_truthy sync_log_id)); [by exists w|].
  unfold try_except, bindM, datetime_now.
  match goal with
  | |- context [Job.call_update_sync_log schemas ?s ?k ?w1] =>
      destruct (call_update_sync_log_unbound schemas s k w1) as [e ->]; [reflexivity|]
  end.
  eexists. split; [reflexivity|]. done.
Qed.

Lemma report_failed_keeps_store (schemas : gmap pystr table_schema) (sync_log_id : value)
    (e : exn) (w : world) :
  exists w',
    Job.report_failed schemas sync_log_id e w = (Return false, w') /\
    committed w' = committed w.
Proof.
  unfold Job.report_failed. cbv zeta. unfold bindM.
  destruct (Orchestrator.value_truthy sync_log_id).
  - destruct (job_update_failure_skips schemas sync_log_id
                (py "Error en ciclo de reporte: " ++ str_exn e) w) as (w' & -> & Hc & _).
    by exists w'.
  - by exists w.
Qed.

Lemma report_run_keeps_store (schemas : gmap pystr table_schema)
    (generate : M world pystr) (send : pystr -> M world bool) (sync_log_id : value)
    (w : world) :
  (forall w, committed (generate w).2 = committed w) ->
  (forall path w, committed (send path w).2 = committed w) ->
  exists sent w',
    try_except (Job.report_steps schemas generate send sync_log_id)
      (Job.report_failed schemas sync_log_id) w = (Return sent, w') /\
    committed w' = committed w.
Proof.
  intros Hgen Hsend. unfold try_except, Job.report_steps, bindM.
  pose proof (Hgen w) as Hg. destruct (generate w) as [[path|e] w2]; cbn [snd] in Hg.
  - pose proof (Hsend path w2) as Hs.
    destruct (send path w2) as [[[|]|e] w3]; cbn [snd] in Hs.
    + destruct (job_update_success_skips schemas sync_log_id path w3) as (w' & -> & Hc & _).
      exists true, w'. split; [reflexivity|congruence].
    + destruct (job_update_failure_skips schemas sync_log_id (py "Error enviando email") w3)
        as (w' & -> & Hc & _).
      exists false, w'. split; [reflexivity|congruence].
    + destruct (report_failed_keeps_store schemas sync_log_id e w3) as (w' & -> & Hc).
      exists false, w'. split; [reflexivity|congruence].
  - destruct (report_failed_keeps_store schemas sync_log_id e w2) as (w' & -> & Hc).
    exists false, w'. split; [reflexivity|congruence].
Qed.

(** X17. The job never writes the outcome of a run: it names the run
    [sync_log_id] in its calls of [update_sync_log], whose parameter is
    [sync_id], so each call stops with a [TypeError] at the binding of
    its arguments, which the job catches. Both methods return, open no
    connection and leave the store as it is, whatever the run and
    the store. *)
Theorem job_updates_never_reach_store (schemas : gmap pystr table_schema)
    (sync_log_id : value) (text : pystr) (w : world) :
  (exists w',
      Job._update_sync_log_success schemas sync_log_id text w = (Return tt, w') /\
      committed w' = committed w /\ trace w' = trace w /\ attempts w' = attempts w) /\
  (exists w',
      Job._update_sync_log_failure schemas sync_log_id text w = (Return tt, w') /\
      committed w' = committed w /\ trace w' = trace w /\ attempts w' = attempts w).
Proof.
  split; [apply job_update_success_skips|apply job_update_failure_skips].
Qed.

(** X18. A cycle of the job never raises, and it ends with the store as the
    opening of the run left it, when the report generator and the mailer
    do not write to the store: the run that [create_sync_log] opened as
    "running" is never closed, whether the report was sent or not. *)
Theorem report_cycle_leaves_run_open (schemas : gmap pystr table_schema)
    (generate : M world pystr) (send : pystr -> M world bool) :
  (forall w, committed (generate w).2 = committed w) ->
  (forall path w, committed (send path w).2 = committed w) ->
  forall w, exists sent w',
    Job.run_full_report_cycle schemas generate send w = (Return sent, w') /\
    committed w' =
      committed (Dao.create_sync_log schemas (py "automated_cloud_report") w).2.
Proof.
  intros Hgen Hsend w. unfold Job.run_full_report_cycle, Job._create_sync_log.
  unfold try_except at 1, ret.
  destruct (Dao.create_sync_log schemas _ w) as [[id|e0] w1]; cbn [snd].
  - exact (report_run_keeps_store schemas generate send id w1 Hgen Hsend).
  - exact (report_run_keeps_store schemas generate send VNone w1 Hgen Hsend).
Qed.

Lemma report_cycle_leaves_run_open_witness :
  exists sent w',
    Job.run_full_report_cycle (discovered full_store) (ret (py "reporte.xlsx"))
      (fun _ => ret true) (healthy full_store) = (Return sent, w') /\
    committed w' =
      committed (Dao.create_sync_log (discovered full_store) (py "automated_cloud_report")
                   (healthy full_store)).2.
Proof.
  apply (report_cycle_leaves_run_open (discovered full_store) (ret (py "reporte.xlsx"))
           (fun _ => ret true)).
  - intros w. reflexivity.
  - intros path w. reflexivity.
Defined.
